(** * Stream manager: process supervision and device arbitration

    A shallow embedding of [stream_manager.py]: the device-list parser
    ([list_media_devices]), the encoder worker ([FFmpegWorker]), the channel
    tab ([StreamTab]) and the supervisor ([StreamManagerApp]), followed by the
    properties of the specification that are settled against them.

    Text is modelled as [string] (one character per code point below 256);
    integers are unbounded ([Z]), as Python's are.  Widgets are modelled by
    the state the program reads back from them. *)

From Stdlib Require Import ZArith Ascii String DecimalString Decimal DecimalZ DecimalPos Lia Bool.
From stdpp Require Import base list strings relations.

Local Open Scope Z_scope.

(** ** Python string primitives *)

Module Py.

(** [str.isspace] on the code points below 128: TAB..CR, FS..US and SPACE. *)
Definition is_space (c : ascii) : bool :=
  let n := nat_of_ascii c in
  ((9 <=? n)%nat && (n <=? 13)%nat) || ((28 <=? n)%nat && (n <=? 32)%nat).

Fixpoint lstrip (s : string) : string :=
  match s with
  | String c s' => if is_space c then lstrip s' else s
  | EmptyString => EmptyString
  end.

Fixpoint rstrip (s : string) : string :=
  match s with
  | String c s' =>
      match rstrip s' with
      | EmptyString => if is_space c then EmptyString else String c EmptyString
      | r => String c r
      end
  | EmptyString => EmptyString
  end.

(** [s.strip()] *)
Definition strip (s : string) : string := rstrip (lstrip s).

(** [needle in hay] *)
Fixpoint contains (needle hay : string) : bool :=
  String.prefix needle hay ||
  match hay with
  | String _ hay' => contains needle hay'
  | EmptyString => false
  end.

(** [s.split(c)] for a one-character separator: never the empty list. *)
Fixpoint split (c : ascii) (s : string) : list string :=
  match s with
  | EmptyString => [EmptyString]
  | String a s' =>
      if Ascii.eqb a c then EmptyString :: split c s'
      else match split c s' with
           | p :: ps => String a p :: ps
           | [] => [String a EmptyString]
           end
  end.

(** [s.replace(c, '')] for a one-character pattern. *)
Fixpoint remove_char (c : ascii) (s : string) : string :=
  match s with
  | EmptyString => EmptyString
  | String a s' =>
      if Ascii.eqb a c then remove_char c s' else String a (remove_char c s')
  end.

Definition lower_char (c : ascii) : ascii :=
  let n := nat_of_ascii c in
  if ((65 <=? n)%nat && (n <=? 90)%nat) then ascii_of_nat (n + 32) else c.

(** [s.lower()] on the ASCII letters. *)
Fixpoint lower (s : string) : string :=
  match s with
  | EmptyString => EmptyString
  | String a s' => String (lower_char a) (lower s')
  end.

(** [str(n)] for an integer. *)
Definition str (n : Z) : string := NilZero.string_of_int (Z.to_int n).

Definition digit_of (c : ascii) : option Z :=
  let n := nat_of_ascii c in
  if ((48 <=? n)%nat && (n <=? 57)%nat) then Some (Z.of_nat (n - 48)) else None.

(** The digit part of an integer literal: decimal digits, with single
    underscores allowed between two digits. *)
Fixpoint parse_digits (acc : Z) (after_digit : bool) (s : string) : option Z :=
  match s with
  | EmptyString => if after_digit then Some acc else None
  | String c s' =>
      if Ascii.eqb c "_"%char then
        if after_digit then parse_digits acc false s' else None
      else
        match digit_of c with
        | Some d => parse_digits (10 * acc + d) true s'
        | None => None
        end
  end.

(** [int(s)] for a string; [None] stands for [ValueError].  Surrounding
    white space is ignored and one sign may precede the digits.  The
    interpreter's cap on the length of decimal conversions is not
    modelled. *)
Definition int (s : string) : option Z :=
  match strip s with
  | EmptyString => None
  | String "+" r => parse_digits 0 false r
  | String "-" r => Z.opp <$> parse_digits 0 false r
  | t => parse_digits 0 false t
  end.

(** Truth value of a string: non-empty. *)
Definition truthy (s : string) : bool :=
  match s with EmptyString => false | _ => true end.

(** [str.splitlines] line boundaries below 128: LF, VT, FF, CR, CR LF,
    FS, GS, RS.  The terminators are dropped, and a final terminator does
    not open an empty last line. *)
Definition is_linebreak (c : ascii) : bool :=
  let n := nat_of_ascii c in
  ((10 <=? n)%nat && (n <=? 13)%nat) || ((28 <=? n)%nat && (n <=? 30)%nat).

Fixpoint splitlines_aux (cur : string) (s : string) : list string :=
  match s with
  | EmptyString =>
      match cur with EmptyString => [] | _ => [String.rev cur] end
  | String c s' =>
      if is_linebreak c then
        match c, s' with
        | "013"%char, String "010"%char s'' =>
            String.rev cur :: splitlines_aux EmptyString s''
        | _, _ => String.rev cur :: splitlines_aux EmptyString s'
        end
      else splitlines_aux (String c cur) s'
  end.

Definition splitlines (s : string) : list string := splitlines_aux EmptyString s.

End Py.

(** ** Exceptions *)

Inductive PyExn :=
| IndexError
| ValueError
| AttributeError (object attr : string)
| FileNotFoundError
| TimeoutExpired
| OtherException (msg : string).

Inductive result (A : Type) :=
| Ok (a : A)
| Raise (e : PyExn).
Arguments Ok {A} a.
Arguments Raise {A} e.

(** ** Device catalogue: [list_media_devices] *)

(** The dictionary [{'name': ..., 'alt': ...}]. *)
Record Device := { name : string; alt : string }.

Inductive DeviceKind := Video | Audio.

(** The local variables of the parsing loop.  [last_device_list] is a
    reference to one of the two result lists (or [None]): it is modelled by
    the kind of the list it points to, so that an update through it is an
    update of that list. *)
Record ParseState := {
  video_devices : list Device;
  audio_devices : list Device;
  current_device_type : option DeviceKind;
  last_device_list : option DeviceKind;
}.

Definition parse_init : ParseState :=
  {| video_devices := []; audio_devices := [];
     current_device_type := None; last_device_list := None |}.

Definition dq : ascii := "034"%char.

Definition devices_of (k : DeviceKind) (st : ParseState) : list Device :=
  match k with Video => video_devices st | Audio => audio_devices st end.

Definition with_devices (k : DeviceKind) (l : list Device) (st : ParseState) : ParseState :=
  match k with
  | Video => {| video_devices := l; audio_devices := audio_devices st;
                current_device_type := current_device_type st;
                last_device_list := last_device_list st |}
  | Audio => {| video_devices := video_devices st; audio_devices := l;
                current_device_type := current_device_type st;
                last_device_list := last_device_list st |}
  end.

Definition enter_section (k : DeviceKind) (st : ParseState) : ParseState :=
  {| video_devices := video_devices st; audio_devices := audio_devices st;
     current_device_type := Some k; last_device_list := Some k |}.

Definition with_last (k : DeviceKind) (st : ParseState) : ParseState :=
  {| video_devices := video_devices st; audio_devices := audio_devices st;
     current_device_type := current_device_type st; last_device_list := Some k |}.

(** Truth value of [last_device_list]: bound to a non-empty list. *)
Definition last_truthy (st : ParseState) : bool :=
  match last_device_list st with
  | None => false
  | Some k => match devices_of k st with [] => false | _ => true end
  end.

(** [l[-1]['alt'] = alt_name]; indexing an empty list raises. *)
Fixpoint set_last_alt (alt_name : string) (l : list Device) : result (list Device) :=
  match l with
  | [] => Raise IndexError
  | [d] => Ok [{| name := name d; alt := alt_name |}]
  | d :: l' =>
      match set_last_alt alt_name l' with
      | Ok r => Ok (d :: r)
      | Raise e => Raise e
      end
  end.

(** One iteration of the loop over the lines. *)
Definition process_line (line : string) (st : ParseState) : result ParseState :=
  if Py.contains "DirectShow video devices" line then Ok (enter_section Video st)
  else if Py.contains "DirectShow audio devices" line then Ok (enter_section Audio st)
  else if Py.contains "Alternative name" line && last_truthy st then
    if Py.contains (String dq "") line then
      let parts := Py.split dq line in
      if (2 <=? length parts)%nat then
        match parts !! 1%nat with
        | None => Raise IndexError
        | Some alt_name =>
            match last_device_list st with
            | Some k =>
                if last_truthy st then
                  match set_last_alt alt_name (devices_of k st) with
                  | Ok l => Ok (with_devices k l st)
                  | Raise e => Raise e
                  end
                else Ok st
            | None => Ok st
            end
        end
      else Ok st
    else Ok st
  else if Py.contains (String dq "") line then
    (* the body of try ... except IndexError: continue *)
    let parts := Py.split dq line in
    if (2 <=? length parts)%nat then
      match parts !! 1%nat with
      | None => Ok st
      | Some device_name =>
          let target_list :=
            if Py.contains "(video)" line then Some Video
            else if Py.contains "(audio)" line then Some Audio
            else current_device_type st in
          match target_list with
          | Some k =>
              Ok (with_last k
                    (with_devices k
                       (devices_of k st ++ [{| name := device_name; alt := device_name |}])
                       st))
          | None => Ok st
          end
      end
    else Ok st
  else Ok st.

(** The loop: the state reached, and the exception that ended it, if any. *)
Fixpoint parse_lines (lines : list string) (st : ParseState) : ParseState * option PyExn :=
  match lines with
  | [] => (st, None)
  | line :: rest =>
      match process_line line st with
      | Ok st' => parse_lines rest st'
      | Raise e => (st, Some e)
      end
  end.

(** What running the capture backend in enumeration mode gives. *)
Inductive RunResult :=
| Completed (stderr : string)
| RunFileNotFound
| RunFailed (e : string).

Definition exn_text (e : PyExn) : string :=
  match e with
  | IndexError => "list index out of range"
  | ValueError => "invalid literal for int()"
  | AttributeError o a => "'" +:+ o +:+ "' object has no attribute '" +:+ a +:+ "'"
  | FileNotFoundError => "file not found"
  | TimeoutExpired => "timed out"
  | OtherException m => m
  end.

Definition list_media_devices (run : string -> RunResult) (ffmpeg_path : string)
  : list Device * list Device * string :=
  match run ffmpeg_path with
  | Completed output =>
      let '(st, exn) := parse_lines (Py.splitlines output) parse_init in
      (video_devices st, audio_devices st,
       match exn with
       | None => output
       | Some e => "An error occurred while listing devices: " +:+ exn_text e
       end)
  | RunFileNotFound => ([], [], "ffmpeg.exe not found. Cannot list devices.")
  | RunFailed e => ([], [], "An error occurred while listing devices: " +:+ e)
  end.

(** ** The encoder worker: [FFmpegWorker] *)

Module FFmpegWorker.

(** The two Qt signals of the worker. *)
Inductive Signal :=
| log_message (text : string)
| process_finished (code : Z).

(** A [subprocess.Popen] handle: [returncode] is what [poll()] gives,
    [None] while the process runs. *)
Record Process := { returncode : option Z }.

(** Where the thread executing [run] stands. *)
Inductive ReaderPc := NotStarted | Reading | AfterLoop | Returned.

Record Worker := {
  command : list string;
  process : option Process;
  running : bool;
  pc : ReaderPc;
}.

(** [FFmpegWorker(command)] *)
Definition init (cmd : list string) : Worker :=
  {| command := cmd; process := None; running := false; pc := NotStarted |}.

Definition update (p : option Process) (r : bool) (c : ReaderPc) (w : Worker) : Worker :=
  {| command := command w; process := p; running := r; pc := c |}.

(** What [subprocess.Popen] does with the command. *)
Inductive LaunchResult :=
| Launched
| LaunchFileNotFound
| LaunchFailed (e : string).

(** [run], first part: set the flag and launch the process.  The two
    handlers at the end of [run] report a failed launch. *)
Definition run_begin (l : LaunchResult) (w : Worker) : Worker * list Signal :=
  match l with
  | Launched => (update (Some {| returncode := None |}) true Reading w, [])
  | LaunchFileNotFound =>
      (update (process w) false Returned w,
       [log_message "Error: ffmpeg.exe not found. Please check the path.";
        process_finished (-1)])
  | LaunchFailed e =>
      (update (process w) false Returned w,
       [log_message ("An unexpected error occurred: " +:+ e);
        process_finished (-1)])
  end.

(** [run], one turn of the reading loop, [line] being what [readline]
    returned: the empty string ends the iteration, a cleared flag breaks
    out of it, otherwise the trimmed line is emitted. *)
Definition run_readline (line : string) (w : Worker) : Worker * list Signal :=
  match line with
  | EmptyString => (update (process w) (running w) AfterLoop w, [])
  | _ =>
      if negb (running w) then (update (process w) (running w) AfterLoop w, [])
      else (w, [log_message (Py.strip line)])
  end.

(** [run], after the loop: close the stream, wait for the exit code [rc]
    and report it if the flag is still set.  [self.process] is read again
    here: when it has been set to [None] meanwhile, the attribute access
    raises, and the general handler of [run] reports that. *)
Definition run_finish (rc : Z) (w : Worker) : Worker * list Signal :=
  match process w with
  | None =>
      (update None false Returned w,
       [log_message ("An unexpected error occurred: " +:+
                     exn_text (AttributeError "NoneType" "stdout"));
        process_finished (-1)])
  | Some _ =>
      (update (Some {| returncode := Some rc |}) false Returned w,
       if running w then [process_finished rc] else [])
  end.

(** How the process answers the quit request of [stop]. *)
Inductive StopReaction :=
| ExitsInTime (rc : Z)
| WaitTimesOut
| WriteFails (e : string).

(** [stop] *)
Definition stop (react : StopReaction) (w : Worker) : Worker * list Signal :=
  let alive :=
    match process w with
    | Some p => match returncode p with None => true | Some _ => false end
    | None => false
    end in
  if alive then
    (update None false (pc w) w,
     [log_message "Stopping FFmpeg process..."] ++
     match react with
     | ExitsInTime _ => []
     | WaitTimesOut => [log_message "FFmpeg did not stop gracefully, terminating."]
     | WriteFails e => [log_message ("Error stopping FFmpeg: " +:+ e)]
     end ++
     [log_message "FFmpeg process stopped."; process_finished 0])
  else
    (update (process w) false (pc w) w, [process_finished 0]).

(** The process ends by itself (seen by [poll] from then on). *)
Definition process_exits (rc : Z) (w : Worker) : Worker :=
  match process w with
  | Some p =>
      match returncode p with
      | None => update (Some {| returncode := Some rc |}) (running w) (pc w) w
      | Some _ => w
      end
  | None => w
  end.

(** The moves of the worker: those of the thread in [run], the call of
    [stop] from the interface thread, and the process ending. *)
Inductive Action :=
| DoBegin (l : LaunchResult)
| DoReadline (line : string)
| DoFinish (rc : Z)
| DoStop (react : StopReaction)
| DoExit (rc : Z).

Definition enabled (a : Action) (w : Worker) : bool :=
  match a, pc w with
  | DoBegin _, NotStarted => true
  | DoReadline _, Reading => true
  | DoFinish _, AfterLoop => true
  | DoStop _, _ => true
  | DoExit _, _ => true
  | _, _ => false
  end.

Definition act (a : Action) (w : Worker) : Worker * list Signal :=
  if enabled a w then
    match a with
    | DoBegin l => run_begin l w
    | DoReadline line => run_readline line w
    | DoFinish rc => run_finish rc w
    | DoStop react => stop react w
    | DoExit rc => (process_exits rc w, [])
    end
  else (w, []).

(** A schedule of moves, with the signals emitted along it, in order. *)
Fixpoint trace (acts : list Action) (w : Worker) : Worker * list Signal :=
  match acts with
  | [] => (w, [])
  | a :: rest =>
      let '(w1, s1) := act a w in
      let '(w2, s2) := trace rest w1 in
      (w2, s1 ++ s2)
  end.

End FFmpegWorker.

(** ** Widgets *)

(** A non-editable [QComboBox]: the items (text, user data) and the current
    index ([None] for -1). *)
Record ComboBox := {
  items : list (string * string);
  currentIndex : option nat;
}.

Module Combo.

Definition empty : ComboBox := {| items := []; currentIndex := None |}.

(** [clear()] *)
Definition clear (c : ComboBox) : ComboBox := empty.

(** [addItem(text, data)]: the first item put into an empty box becomes
    the current one. *)
Definition addItem (text data : string) (c : ComboBox) : ComboBox :=
  {| items := items c ++ [(text, data)];
     currentIndex :=
       match currentIndex c, items c with
       | None, [] => Some 0%nat
       | i, _ => i
       end |}.

Definition current (c : ComboBox) : option (string * string) :=
  match currentIndex c with
  | Some i => items c !! i
  | None => None
  end.

(** [currentText()]: empty when nothing is selected. *)
Definition currentText (c : ComboBox) : string :=
  match current c with Some (t, _) => t | None => EmptyString end.

(** [currentData()]: [None] when nothing is selected. *)
Definition currentData (c : ComboBox) : option string :=
  match current c with Some (_, d) => Some d | None => None end.

Fixpoint find_from (P : string * string -> bool) (i : nat) (l : list (string * string))
  : option nat :=
  match l with
  | [] => None
  | x :: l' => if P x then Some i else find_from P (S i) l'
  end.

(** [findText(text)] and [findData(data)]: the first match, [None] for -1. *)
Definition findText (text : string) (c : ComboBox) : option nat :=
  find_from (fun x => String.eqb (fst x) text) 0 (items c).

Definition findData (data : string) (c : ComboBox) : option nat :=
  find_from (fun x => String.eqb (snd x) data) 0 (items c).

(** [setCurrentIndex(i)] *)
Definition setCurrentIndex (i : nat) (c : ComboBox) : ComboBox :=
  {| items := items c;
     currentIndex := if (i <? length (items c))%nat then Some i else None |}.

End Combo.

(** ** The environment of the program *)

Record Env := {
  (** [os.path.exists] *)
  path_exists : string -> bool;
  (** [os.path.join] of a directory and a file name *)
  path_join : string -> string -> string;
  (** [os.makedirs(dir, exist_ok=True)]: the error raised, if any *)
  makedirs : string -> option string;
  (** the capture backend run in enumeration mode *)
  run_list_devices : string -> RunResult;
  (** [taskkill /F /IM nginx.exe]: the error raised, if any *)
  taskkill_nginx : option string;
  (** [Popen([nginx_exe], cwd=nginx_dir)]: the process id, or the error *)
  popen_nginx : string -> string -> string + nat;
  (** [nginx -s stop] followed by the bounded wait: the error raised, if any *)
  nginx_graceful_stop : string -> option string;
}.

(** ** One channel: [StreamTab] *)

Record StreamTab := {
  channel_name : string;
  ffmpeg_worker : option FFmpegWorker.Worker;
  is_streaming : bool;
  input_video_device : ComboBox;
  input_audio_device : ComboBox;
  (** the four editable boxes, by their current text *)
  input_video_size : string;
  input_framerate : string;
  input_video_bitrate : string;
  input_audio_bitrate : string;
  cb_auto_start : bool;
  log_view : list string;
}.

(** The dictionary written by [get_config] and read by [load_config]; a
    field is [None] when the key is absent (or, for the two device
    identifiers, null). *)
Record ChannelConfig := {
  cfg_channel_name : option string;
  cfg_video_device_alt : option string;
  cfg_audio_device_alt : option string;
  cfg_video_device_label : option string;
  cfg_audio_device_label : option string;
  cfg_video_size : option string;
  cfg_framerate : option string;
  cfg_video_bitrate : option string;
  cfg_audio_bitrate : option string;
  cfg_auto_start : option bool;
}.

Module Tab.

Definition set_log (l : list string) (t : StreamTab) : StreamTab :=
  {| channel_name := channel_name t; ffmpeg_worker := ffmpeg_worker t;
     is_streaming := is_streaming t;
     input_video_device := input_video_device t;
     input_audio_device := input_audio_device t;
     input_video_size := input_video_size t;
     input_framerate := input_framerate t;
     input_video_bitrate := input_video_bitrate t;
     input_audio_bitrate := input_audio_bitrate t;
     cb_auto_start := cb_auto_start t; log_view := l |}.

Definition set_streaming (b : bool) (t : StreamTab) : StreamTab :=
  {| channel_name := channel_name t; ffmpeg_worker := ffmpeg_worker t;
     is_streaming := b;
     input_video_device := input_video_device t;
     input_audio_device := input_audio_device t;
     input_video_size := input_video_size t;
     input_framerate := input_framerate t;
     input_video_bitrate := input_video_bitrate t;
     input_audio_bitrate := input_audio_bitrate t;
     cb_auto_start := cb_auto_start t; log_view := log_view t |}.

Definition set_worker (w : option FFmpegWorker.Worker) (t : StreamTab) : StreamTab :=
  {| channel_name := channel_name t; ffmpeg_worker := w;
     is_streaming := is_streaming t;
     input_video_device := input_video_device t;
     input_audio_device := input_audio_device t;
     input_video_size := input_video_size t;
     input_framerate := input_framerate t;
     input_video_bitrate := input_video_bitrate t;
     input_audio_bitrate := input_audio_bitrate t;
     cb_auto_start := cb_auto_start t; log_view := log_view t |}.

Definition set_devices (v a : ComboBox) (t : StreamTab) : StreamTab :=
  {| channel_name := channel_name t; ffmpeg_worker := ffmpeg_worker t;
     is_streaming := is_streaming t;
     input_video_device := v;
     input_audio_device := a;
     input_video_size := input_video_size t;
     input_framerate := input_framerate t;
     input_video_bitrate := input_video_bitrate t;
     input_audio_bitrate := input_audio_bitrate t;
     cb_auto_start := cb_auto_start t; log_view := log_view t |}.

Definition set_settings (size fr vb ab : string) (auto : bool) (t : StreamTab) : StreamTab :=
  {| channel_name := channel_name t; ffmpeg_worker := ffmpeg_worker t;
     is_streaming := is_streaming t;
     input_video_device := input_video_device t;
     input_audio_device := input_audio_device t;
     input_video_size := size;
     input_framerate := fr;
     input_video_bitrate := vb;
     input_audio_bitrate := ab;
     cb_auto_start := auto; log_view := log_view t |}.

(** [log(message)] *)
Definition log (message : string) (t : StreamTab) : StreamTab :=
  set_log (log_view t ++ [message]) t.

(** The slug of the channel: [channel_name.replace(' ', '').lower()]. *)
Definition safe_name (t : StreamTab) : string :=
  Py.lower (Py.remove_char " " (channel_name t)).

(** The label of the [i]-th device of a list, counted from 1. *)
Definition device_label (i : nat) (d : Device) : string :=
  name d +:+ "  [#" +:+ Py.str (Z.of_nat i) +:+ "]".

(** The loop [for i, dev in enumerate(devices, start=...)] adding items. *)
Fixpoint add_devices (i : nat) (devs : list Device) (c : ComboBox) : ComboBox :=
  match devs with
  | [] => c
  | d :: rest => add_devices (S i) rest (Combo.addItem (device_label i d) (alt d) c)
  end.

(** Restoring the selection by its text. *)
Definition reselect (text : string) (c : ComboBox) : ComboBox :=
  match Combo.findText text c with
  | Some i => Combo.setCurrentIndex i c
  | None => c
  end.

(** [populate_devices] *)
Definition populate_devices (env : Env) (ffmpeg_path : string) (t : StreamTab) : StreamTab :=
  if negb (path_exists env ffmpeg_path) then t
  else
    let current_video := Combo.currentText (input_video_device t) in
    let current_audio := Combo.currentText (input_audio_device t) in
    let '(video_devices, audio_devices, _) :=
      list_media_devices (run_list_devices env) ffmpeg_path in
    let v := add_devices 1 video_devices (Combo.clear (input_video_device t)) in
    let a := add_devices 1 audio_devices (Combo.clear (input_audio_device t)) in
    set_devices (reselect current_video v) (reselect current_audio a) t.

(** [StreamTab(channel_name, main_window)]: the editable boxes show their
    first entry.  (The playback address shown in the tab is not part of
    the state.) *)
Definition init (env : Env) (ffmpeg_path : string) (channel_name : string) : StreamTab :=
  populate_devices env ffmpeg_path
    {| channel_name := channel_name; ffmpeg_worker := None; is_streaming := false;
       input_video_device := Combo.empty; input_audio_device := Combo.empty;
       input_video_size := "1920x1080"; input_framerate := "60";
       input_video_bitrate := "6000k"; input_audio_bitrate := "192k";
       cb_auto_start := false; log_view := [] |}.

(** [get_config] *)
Definition get_config (t : StreamTab) : ChannelConfig :=
  {| cfg_channel_name := Some (channel_name t);
     cfg_video_device_alt := Combo.currentData (input_video_device t);
     cfg_audio_device_alt := Combo.currentData (input_audio_device t);
     cfg_video_device_label := Some (Combo.currentText (input_video_device t));
     cfg_audio_device_label := Some (Combo.currentText (input_audio_device t));
     cfg_video_size := Some (input_video_size t);
     cfg_framerate := Some (input_framerate t);
     cfg_video_bitrate := Some (input_video_bitrate t);
     cfg_audio_bitrate := Some (input_audio_bitrate t);
     cfg_auto_start := Some (cb_auto_start t) |}.

(** Selecting a stored device: only a non-empty identifier that is found
    among the items changes the selection. *)
Definition select_alt (stored : option string) (c : ComboBox) : ComboBox :=
  match stored with
  | Some a =>
      if Py.truthy a then
        match Combo.findData a c with
        | Some i => Combo.setCurrentIndex i c
        | None => c
        end
      else c
  | None => c
  end.

(** [load_config(config)] *)
Definition load_config (env : Env) (ffmpeg_path : string) (config : ChannelConfig)
  (t : StreamTab) : StreamTab :=
  let t := populate_devices env ffmpeg_path t in
  let t := set_settings (default "1280x720" (cfg_video_size config))
                        (default "30" (cfg_framerate config))
                        (default "1200k" (cfg_video_bitrate config))
                        (default "96k" (cfg_audio_bitrate config))
                        (default false (cfg_auto_start config)) t in
  set_devices (select_alt (cfg_video_device_alt config) (input_video_device t))
              (select_alt (cfg_audio_device_alt config) (input_audio_device t)) t.

(** [on_ffmpeg_finished(code)] *)
Definition on_ffmpeg_finished (code : Z) (t : StreamTab) : StreamTab :=
  let t := log ("FFmpeg finished with code " +:+ Py.str code) t in
  if is_streaming t then set_streaming false t else t.

(** Delivery of a worker signal to the slot it is connected to. *)
Definition deliver (s : FFmpegWorker.Signal) (t : StreamTab) : StreamTab :=
  match s with
  | FFmpegWorker.log_message m => log m t
  | FFmpegWorker.process_finished code => on_ffmpeg_finished code t
  end.

Definition deliver_all (l : list FFmpegWorker.Signal) (t : StreamTab) : StreamTab :=
  fold_left (fun t s => deliver s t) l t.

(** A move of the worker of this tab, its signals being delivered. *)
Definition worker_act (a : FFmpegWorker.Action) (t : StreamTab) : StreamTab :=
  match ffmpeg_worker t with
  | Some w =>
      let '(w', signals) := FFmpegWorker.act a w in
      deliver_all signals (set_worker (Some w') t)
  | None => t
  end.

(** The user picking an entry of a device box. *)
Definition select_video (k : nat) (t : StreamTab) : StreamTab :=
  set_devices (Combo.setCurrentIndex k (input_video_device t)) (input_audio_device t) t.

Definition select_audio (k : nat) (t : StreamTab) : StreamTab :=
  set_devices (input_video_device t) (Combo.setCurrentIndex k (input_audio_device t)) t.

(** How an optional value is written into an f-string. *)
Definition fmt_optional (o : option string) : string :=
  match o with Some s => s | None => "None" end.

(** [build_ffmpeg_command(output_dir)].  [StreamTab] has no attribute
    [log_message] (it is a signal of the worker class), so the branch for
    a missing executable raises at the attribute access and its [return
    None] is never reached. *)
Definition build_ffmpeg_command (env : Env) (ffmpeg_exe : string) (output_dir : string)
  (t : StreamTab) : result (list string) :=
  if negb (path_exists env ffmpeg_exe) then Raise (AttributeError "StreamTab" "log_message")
  else
    let command :=
      [ffmpeg_exe; "-hide_banner"; "-loglevel"; "info"; "-f"; "dshow";
       "-rtbufsize"; "512M"] in
    let command :=
      if Py.truthy (Py.strip (input_framerate t))
      then command ++ ["-framerate"; Py.strip (input_framerate t)]
      else command in
    let video_dev := Combo.currentData (input_video_device t) in
    let audio_dev := Combo.currentData (input_audio_device t) in
    let command :=
      command ++
      ["-thread_queue_size"; "1024";
       "-i"; "video=" +:+ fmt_optional video_dev +:+ ":audio=" +:+ fmt_optional audio_dev;
       "-map"; "0:v:0"; "-map"; "0:a:0";
       "-c:v"; "libx264";
       "-preset"; "superfast";
       "-tune"; "zerolatency";
       "-profile:v"; "baseline";
       "-level"; "3.1";
       "-pix_fmt"; "yuv420p";
       "-fps_mode"; "cfr"] in
    let command :=
      if Py.truthy (Py.strip (input_video_size t))
      then command ++
           ["-vf"; "scale=" +:+ Py.strip (input_video_size t) +:+ ":flags=lanczos"]
      else command in
    let bitrate := input_video_bitrate t in
    match (if Py.truthy (input_framerate t) then Py.int (input_framerate t) else Some 25) with
    | None => Raise ValueError
    | Some fps =>
        match Py.int (Py.remove_char "k" bitrate) with
        | None => Raise ValueError
        | Some kbps =>
            let bufsize := Py.str (kbps * 2) +:+ "k" in
            let gop := fps * 2 in
            Ok (command ++
                ["-b:v"; bitrate;
                 "-maxrate"; bitrate;
                 "-bufsize"; bufsize;
                 "-g"; Py.str gop;
                 "-keyint_min"; Py.str gop;
                 "-c:a"; "aac";
                 "-b:a"; input_audio_bitrate t;
                 "-ar"; "44100";
                 "-f"; "hls";
                 "-hls_time"; "2";
                 "-hls_list_size"; "6";
                 "-hls_flags"; "delete_segments+program_date_time+independent_segments";
                 "-hls_segment_filename"; path_join env output_dir "segment_%d.ts";
                 path_join env output_dir "index.m3u8"])
        end
    end.

End Tab.

(** ** The supervisor: [StreamManagerApp] *)

(** The handle of the shared media server: [exited] is whether [poll()]
    reports that the process has ended. *)
Record NginxProcess := { pid : nat; exited : bool }.

(** Messages of the supervisor itself go to the log of the tab that happens
    to be shown (or to the console), with the prefix "[System] "; they are
    collected in [system_log]. *)
Record App := {
  path_ffmpeg : string;
  path_nginx : string;
  path_hls : string;
  nginx_process : option NginxProcess;
  stream_tabs : list StreamTab;
  system_log : list string;
}.

(** What a call of [start_stream] comes to. *)
Inductive StartOutcome :=
| Started
| NginxUnavailable
| DeviceInUse (used_in : string)
| DirectoryError (e : string)
| NoCommand
| Raised (e : PyExn)
| NoSuchTab.

Module Supervisor.

Definition set_tabs (l : list StreamTab) (app : App) : App :=
  {| path_ffmpeg := path_ffmpeg app; path_nginx := path_nginx app;
     path_hls := path_hls app; nginx_process := nginx_process app;
     stream_tabs := l; system_log := system_log app |}.

Definition set_nginx (p : option NginxProcess) (app : App) : App :=
  {| path_ffmpeg := path_ffmpeg app; path_nginx := path_nginx app;
     path_hls := path_hls app; nginx_process := p;
     stream_tabs := stream_tabs app; system_log := system_log app |}.

(** [log(message)] *)
Definition log (message : string) (app : App) : App :=
  {| path_ffmpeg := path_ffmpeg app; path_nginx := path_nginx app;
     path_hls := path_hls app; nginx_process := nginx_process app;
     stream_tabs := stream_tabs app;
     system_log := system_log app ++ ["[System] " +:+ message] |}.

(** The state at the start of [__init__], before the configuration is
    loaded. *)
Definition init (ffmpeg nginx hls : string) : App :=
  {| path_ffmpeg := ffmpeg; path_nginx := nginx; path_hls := hls;
     nginx_process := None; stream_tabs := []; system_log := [] |}.

(** A method of the tab at position [i] changing that tab. *)
Definition on_tab (i : nat) (f : StreamTab -> StreamTab) (app : App) : App :=
  set_tabs (alter f i (stream_tabs app)) app.

Definition nginx_alive (app : App) : bool :=
  match nginx_process app with
  | Some p => negb (exited p)
  | None => false
  end.

(** [ensure_nginx_running] *)
Definition ensure_nginx_running (env : Env) (app : App) : App * bool :=
  if nginx_alive app then (app, true)
  else
    let nginx_dir := path_nginx app in
    let nginx_exe := path_join env nginx_dir "nginx.exe" in
    if negb (path_exists env nginx_exe) then
      (log ("Nginx not found at: " +:+ nginx_exe) app, false)
    else
      match taskkill_nginx env with
      | Some e => (log ("Failed to start Nginx: " +:+ e) app, false)
      | None =>
          let app := log "Starting Nginx..." app in
          match popen_nginx env nginx_exe nginx_dir with
          | inl e => (log ("Failed to start Nginx: " +:+ e) app, false)
          | inr n =>
              let app := set_nginx (Some {| pid := n; exited := false |}) app in
              (log ("Nginx started with PID: " +:+ Py.str (Z.of_nat n)) app, true)
          end
      end.

(** [check_and_stop_nginx] *)
Definition check_and_stop_nginx (env : Env) (app : App) : App :=
  let any_streaming := existsb is_streaming (stream_tabs app) in
  match nginx_process app with
  | Some _ =>
      if negb any_streaming then
        let app := log "No active streams. Stopping Nginx..." app in
        let app :=
          match nginx_graceful_stop env (path_nginx app) with
          | Some e => log ("Error stopping Nginx gracefully: " +:+ e) app
          | None => app
          end in
        log "Nginx stopped." (set_nginx None app)
      else app
  | None => app
  end.

(** The loop of [is_video_device_in_use]; [i] is the position of the tab
    at the head of [tabs].  Each tab object occurs once in [stream_tabs],
    so [tab is current_tab] is equality of positions. *)
Fixpoint scan_in_use (device_alt : option string) (current_tab : nat) (i : nat)
  (tabs : list StreamTab) : option string :=
  match tabs with
  | [] => None
  | tab :: rest =>
      if (i =? current_tab)%nat then scan_in_use device_alt current_tab (S i) rest
      else if is_streaming tab &&
              bool_decide (Combo.currentData (input_video_device tab) = device_alt)
      then Some (channel_name tab)
      else scan_in_use device_alt current_tab (S i) rest
  end.

(** [is_video_device_in_use(device_alt, current_tab)] *)
Definition is_video_device_in_use (device_alt : option string) (current_tab : nat)
  (app : App) : option string :=
  scan_in_use device_alt current_tab 0 (stream_tabs app).

(** Truth value of what [is_video_device_in_use] returns. *)
Definition used_in_truthy (o : option string) : bool :=
  match o with Some n => Py.truthy n | None => false end.

(** [start_stream] of the tab at position [i].  (A position beyond the
    list stands for no call at all.) *)
Definition start_stream (env : Env) (i : nat) (app : App) : App * StartOutcome :=
  match stream_tabs app !! i with
  | None => (app, NoSuchTab)
  | Some tab =>
      let '(app, ok) := ensure_nginx_running env app in
      if negb ok then (app, NginxUnavailable)
      else
        let app := on_tab i (Tab.log "Starting stream...") app in
        let video_alt := Combo.currentData (input_video_device tab) in
        let used_in := is_video_device_in_use video_alt i app in
        if used_in_truthy used_in then (app, DeviceInUse (default "" used_in))
        else
          let hls_root := path_hls app in
          let channel_dir := path_join env hls_root (Tab.safe_name tab) in
          match makedirs env channel_dir with
          | Some e =>
              (on_tab i (Tab.log ("Error creating directory: " +:+ e)) app,
               DirectoryError e)
          | None =>
              match Tab.build_ffmpeg_command env (path_ffmpeg app) channel_dir tab with
              | Raise e => (app, Raised e)
              | Ok [] => (app, NoCommand)
              | Ok command =>
                  (on_tab i (fun t => Tab.set_streaming true
                               (Tab.set_worker (Some (FFmpegWorker.init command)) t)) app,
                   Started)
              end
          end
  end.

(** [stop_stream] of the tab at position [i]; [react] is how the encoder
    process answers the quit request.  The files removed from the channel
    directory are not part of the state. *)
Definition stop_tab (react : FFmpegWorker.StopReaction) (t : StreamTab) : StreamTab :=
  let t := Tab.log "Stopping stream..." t in
  let t :=
    match ffmpeg_worker t with
    | Some w =>
        let '(w', signals) := FFmpegWorker.stop react w in
        Tab.deliver_all signals (Tab.set_worker (Some w') t)
    | None => t
    end in
  Tab.set_streaming false t.

Definition stop_stream (env : Env) (react : FFmpegWorker.StopReaction) (i : nat)
  (app : App) : App :=
  check_and_stop_nginx env (on_tab i (stop_tab react) app).

(** [add_new_tab(name, config)]; a missing or empty dictionary is [None]. *)
Definition add_new_tab (env : Env) (name : option string) (config : option ChannelConfig)
  (app : App) : App :=
  let name :=
    match name with
    | Some n =>
        if Py.truthy n then n
        else "Channel " +:+ Py.str (Z.of_nat (length (stream_tabs app) + 1))
    | None => "Channel " +:+ Py.str (Z.of_nat (length (stream_tabs app) + 1))
    end in
  let tab := Tab.init env (path_ffmpeg app) name in
  let tab :=
    match config with
    | Some c => Tab.load_config env (path_ffmpeg app) c tab
    | None => tab
    end in
  set_tabs (stream_tabs app ++ [tab]) app.

(** [remove_current_tab], [index] being the tab shown ([None] for -1) and
    [confirmed] the answer to the question asked. *)
Definition remove_current_tab (index : option nat) (confirmed : bool) (app : App) : App :=
  match index with
  | Some i =>
      match stream_tabs app !! i with
      | Some tab =>
          if is_streaming tab then app
          else if confirmed then set_tabs (delete i (stream_tabs app)) app
          else app
      | None => app
      end
  | None => app
  end.

(** The list written by [save_config] under "streams". *)
Definition snapshot (app : App) : list ChannelConfig :=
  map Tab.get_config (stream_tabs app).

(** The part of [load_config] that re-creates the channels from the list
    read under "streams". *)
Definition load_streams (env : Env) (streams : list ChannelConfig) (app : App) : App :=
  match streams with
  | [] => add_new_tab env (Some "Channel 1") None app
  | _ =>
      fold_left (fun app stream_conf =>
                   add_new_tab env (cfg_channel_name stream_conf) (Some stream_conf) app)
                streams app
  end.

End Supervisor.

(** ** Runs of the program *)

Definition vdata (t : StreamTab) : option string :=
  Combo.currentData (input_video_device t).

Definition adata (t : StreamTab) : option string :=
  Combo.currentData (input_audio_device t).

(** One event handled by the interface thread.  The environment may differ
    from one event to the next.  A stream is started only from a tab that is
    not streaming and stopped only from one that is ([toggle_stream],
    [start_all_streams], [closeEvent]); the device and encoding boxes are
    disabled while the tab streams, the check box is not.  Signals queued by
    a worker thread may arrive at any time.  The "Refresh Devices" button is
    never disabled: the devices of a tab can be refreshed at any time,
    whether the tab streams or not, and whatever the backend lists then. *)
Inductive step : App -> App -> Prop :=
| step_add env name config app :
    step app (Supervisor.add_new_tab env name config app)
| step_remove index confirmed app :
    step app (Supervisor.remove_current_tab index confirmed app)
| step_start env i t app :
    stream_tabs app !! i = Some t -> is_streaming t = false ->
    step app (fst (Supervisor.start_stream env i app))
| step_stop env react i t app :
    stream_tabs app !! i = Some t -> is_streaming t = true ->
    step app (Supervisor.stop_stream env react i app)
| step_signal i s app :
    step app (Supervisor.on_tab i (Tab.deliver s) app)
| step_worker i a app :
    step app (Supervisor.on_tab i (Tab.worker_act a) app)
| step_select_video i k t app :
    stream_tabs app !! i = Some t -> is_streaming t = false ->
    (k < length (items (input_video_device t)))%nat ->
    step app (Supervisor.on_tab i (Tab.select_video k) app)
| step_select_audio i k t app :
    stream_tabs app !! i = Some t -> is_streaming t = false ->
    (k < length (items (input_audio_device t)))%nat ->
    step app (Supervisor.on_tab i (Tab.select_audio k) app)
| step_settings i size fr vb ab t app :
    stream_tabs app !! i = Some t -> is_streaming t = false ->
    step app (Supervisor.on_tab i (fun t => Tab.set_settings size fr vb ab (cb_auto_start t) t) app)
| step_auto_start i b app :
    step app (Supervisor.on_tab i
                (fun t => Tab.set_settings (input_video_size t) (input_framerate t)
                            (input_video_bitrate t) (input_audio_bitrate t) b t) app)
| step_refresh env i app :
    step app (Supervisor.on_tab i (Tab.populate_devices env (path_ffmpeg app)) app)
| step_nginx_exit p app :
    nginx_process app = Some p ->
    step app (Supervisor.set_nginx (Some {| pid := pid p; exited := true |}) app).

(** The states the program can be in. *)
Definition reachable (app : App) : Prop :=
  exists ffmpeg nginx hls, rtc step (Supervisor.init ffmpeg nginx hls) app.

(** No two streaming tabs have the same video device selected. *)
Definition exclusive (tabs : list StreamTab) : Prop :=
  forall a b ta tb,
    a <> b -> tabs !! a = Some ta -> tabs !! b = Some tb ->
    is_streaming ta = true -> is_streaming tb = true ->
    vdata ta <> vdata tb.

Definition named (tabs : list StreamTab) : Prop :=
  Forall (fun t => channel_name t <> EmptyString) tabs.

(** The number of active channels, on which the shared server depends. *)
Definition active_count (app : App) : nat :=
  length (filter (fun t => is_streaming t = true) (stream_tabs app)).

(** ** Reading a command line *)

(** [a] is followed by [b] somewhere in the command. *)
Definition adjacent (a b : string) (cmd : list string) : Prop :=
  exists l1 l2, cmd = l1 ++ a :: b :: l2.

(** The command carries a scaling filter: "-vf" followed by "scale=...". *)
Fixpoint has_scale_filter (cmd : list string) : bool :=
  match cmd with
  | a :: rest =>
      match rest with
      | b :: _ => (String.eqb a "-vf" && String.prefix "scale=" b) || has_scale_filter rest
      | [] => false
      end
  | [] => false
  end.

(** The options given for the input: what stands between the program name
    and the first "-i". *)
Fixpoint until_input (cmd : list string) : list string :=
  match cmd with
  | [] => []
  | a :: rest => if String.eqb a "-i" then [] else a :: until_input rest
  end.

Definition input_options (cmd : list string) : list string :=
  until_input (tail cmd).

(** What [os.path.join] is relied on for: the joined path ends with the
    file name. *)
Definition join_keeps_name (env : Env) : Prop :=
  forall d n, exists p, path_join env d n = p +:+ n.

(** ** Reading a device listing *)

(** The second field of a line cut at the double quotes. *)
Definition quoted_field (line : string) : string :=
  default EmptyString (Py.split dq line !! 1%nat).

Definition has_quote (line : string) : bool := Py.contains (String dq "") line.

Definition is_header (line : string) : bool :=
  Py.contains "DirectShow video devices" line || Py.contains "DirectShow audio devices" line.

(** A device-name line: quoted, neither a header nor an alternative name. *)
Definition device_line (line : string) : bool :=
  has_quote line && negb (is_header line) && negb (Py.contains "Alternative name" line).

(** An alternative-name line: quoted, and not a header. *)
Definition alternative_line (line : string) : bool :=
  has_quote line && negb (is_header line) && Py.contains "Alternative name" line.

(** The list a device-name line goes to, in a section of kind [k]. *)
Definition target_of (line : string) (k : DeviceKind) : DeviceKind :=
  if Py.contains "(video)" line then Video
  else if Py.contains "(audio)" line then Audio
  else k.

(** The state after a record has been opened at the end of list [k]. *)
Definition opened (k : DeviceKind) (d : Device) (st : ParseState) : ParseState :=
  with_last k (with_devices k (devices_of k st ++ [d]) st).

(** ** Configurations of channels *)

(** The slug of a channel name. *)
Definition slug (channel_name : string) : string :=
  Py.lower (Py.remove_char " " channel_name).

(** The fields of a configuration that do not depend on the devices listed
    by the backend. *)
Definition own_fields (c : ChannelConfig)
  : option string * option string * option string * option string * option string * option bool :=
  (cfg_channel_name c, cfg_video_size c, cfg_framerate c,
   cfg_video_bitrate c, cfg_audio_bitrate c, cfg_auto_start c).

(** The devices a new tab is offered. *)
Definition offered (env : Env) (ffmpeg_path : string) : list Device * list Device :=
  if path_exists env ffmpeg_path
  then fst (list_media_devices (run_list_devices env) ffmpeg_path)
  else ([], []).

(** The selection of a device box can be made again among [devs]: nothing
    is selected and nothing is offered, or the selected entry is offered at
    some position under the same label and identifier, and that position is
    the first one, or the first one with this non-empty identifier. *)
Definition reselectable (c : ComboBox) (devs : list Device) : Prop :=
  match Combo.current c with
  | None => devs = []
  | Some (text, data) =>
      exists i d,
        devs !! i = Some d /\ alt d = data /\ Tab.device_label (S i) d = text /\
        (i = 0%nat \/
         (data <> EmptyString /\
          forall j e, (j < i)%nat -> devs !! j = Some e -> alt e <> data))
  end.

Definition devices_offered (env : Env) (ffmpeg_path : string) (t : StreamTab) : Prop :=
  reselectable (input_video_device t) (fst (offered env ffmpeg_path)) /\
  reselectable (input_audio_device t) (snd (offered env ffmpeg_path)).

(** [Restore] into a fresh supervisor. *)
Definition restore (env : Env) (ffmpeg nginx hls : string) (streams : list ChannelConfig) : App :=
  Supervisor.load_streams env streams (Supervisor.init ffmpeg nginx hls).

(** The items made of a list of devices, numbered from [i]. *)
Fixpoint device_items (i : nat) (devs : list Device) : list (string * string) :=
  match devs with
  | [] => []
  | d :: rest => (Tab.device_label i d, alt d) :: device_items (S i) rest
  end.

(** A device box filled from scratch: the first device is selected. *)
Definition populated (devs : list Device) : ComboBox :=
  {| items := device_items 1 devs;
     currentIndex := match devs with [] => None | _ => Some 0%nat end |}.

(** The tab made by [add_new_tab] from the configuration saved for [t]. *)
Definition restore_tab (env : Env) (ffmpeg_path : string) (t : StreamTab) : StreamTab :=
  Tab.load_config env ffmpeg_path (Tab.get_config t)
    (Tab.init env ffmpeg_path (channel_name t)).

(** What follows the last occurrence of [c] in [s], if [c] occurs. *)
Fixpoint after_last (c : ascii) (s : string) : option string :=
  match s with
  | EmptyString => None
  | String a s' =>
      match after_last c s' with
      | Some r => Some r
      | None => if Ascii.eqb a c then Some s' else None
      end
  end.

(** A device box as [populate_devices] leaves it: filled from some list of
    devices, with an entry selected unless there is none. *)
Definition filled_from (devs : list Device) (c : ComboBox) : Prop :=
  items c = device_items 1 devs /\
  match currentIndex c with
  | Some i => (i < length devs)%nat
  | None => devs = []
  end.

(** ** What the methods of a tab leave alone *)

(** [f] keeps the name and the video device box of a tab and does not make
    it stream. *)
Definition quiet (f : StreamTab -> StreamTab) : Prop :=
  forall t, channel_name (f t) = channel_name t /\
            input_video_device (f t) = input_video_device t /\
            (is_streaming (f t) = true -> is_streaming t = true).

(** Every video device box is as [populate_devices] leaves one. *)
Definition boxes_filled (tabs : list StreamTab) : Prop :=
  Forall (fun t => exists devs, filled_from devs (input_video_device t)) tabs.

(** The codes of the terminal events among the signals of a worker. *)
Definition finished_codes (l : list FFmpegWorker.Signal) : list Z :=
  omap (fun s => match s with
                 | FFmpegWorker.process_finished c => Some c
                 | FFmpegWorker.log_message _ => None
                 end) l.

(** ** Sample data *)

Definition nl : string := String "010"%char "".
Definition quoted (s : string) : string := String dq s +:+ String dq "".

(** What the backend prints for one camera and one microphone. *)
Definition dshow_sample : string :=
  "[dshow @ 01] DirectShow video devices (some may be both video and audio devices)" +:+ nl +:+
  "[dshow @ 01]  " +:+ quoted "USB Camera" +:+ nl +:+
  "[dshow @ 01]     Alternative name " +:+ quoted "@device_pnp_cam" +:+ nl +:+
  "[dshow @ 01] DirectShow audio devices" +:+ nl +:+
  "[dshow @ 01]  " +:+ quoted "Microphone" +:+ nl +:+
  "dummy: Immediate exit requested" +:+ nl.

Definition sample_section : ParseState := enter_section Video parse_init.
Definition sample_alt_line : string :=
  "[dshow @ 01]     Alternative name " +:+ quoted "@device_pnp_cam".

(** The separator put by [os.path.join]. *)
Definition sep : string := String "092"%char "".

(** A machine where everything is in place and the backend lists the
    devices of [listing]. *)
Definition machine (listing : string) : Env :=
  {| path_exists := fun _ => true;
     path_join := fun d n => d +:+ sep +:+ n;
     makedirs := fun _ => None;
     run_list_devices := fun _ => Completed listing;
     taskkill_nginx := None;
     popen_nginx := fun _ _ => inr 4242%nat;
     nginx_graceful_stop := fun _ => None |}.

(** No device at all. *)
Definition sample_env : Env := machine "".

(** One camera and one microphone. *)
Definition camera_env : Env := machine dshow_sample.

(** Two cameras, one microphone. *)
Definition two_cameras_env : Env :=
  machine
    ("DirectShow video devices" +:+ nl +:+
     quoted "Camera A" +:+ nl +:+
     quoted "Camera B" +:+ nl +:+
     "DirectShow audio devices" +:+ nl +:+
     quoted "Microphone" +:+ nl).

(** The same machine without the encoder executable. *)
Definition no_ffmpeg_env : Env :=
  {| path_exists := fun p => negb (String.eqb p "C:/ffmpeg/bin/ffmpeg.exe");
     path_join := fun d n => d +:+ sep +:+ n;
     makedirs := fun _ => None;
     run_list_devices := fun _ => RunFileNotFound;
     taskkill_nginx := None;
     popen_nginx := fun _ _ => inr 4242%nat;
     nginx_graceful_stop := fun _ => None |}.

Definition fresh_app : App :=
  Supervisor.init "C:/ffmpeg/bin/ffmpeg.exe" "C:/nginx" "C:/hls".

Definition one_channel (env : Env) : App :=
  Supervisor.add_new_tab env None None fresh_app.

Definition two_channels (env : Env) : App :=
  Supervisor.add_new_tab env None None (one_channel env).

(** A worker whose process runs and whose thread is reading. *)
Definition streaming_worker : FFmpegWorker.Worker :=
  {| FFmpegWorker.command := ["ffmpeg.exe"];
     FFmpegWorker.process := Some {| FFmpegWorker.returncode := None |};
     FFmpegWorker.running := true;
     FFmpegWorker.pc := FFmpegWorker.Reading |}.

(** Two channels on the camera, the first one streaming. *)
Definition camera_running : App :=
  fst (Supervisor.start_stream camera_env 0 (two_channels camera_env)).

(** Two channels on the machine with two cameras, the second channel on the
    second camera; both use the only microphone. *)
Definition two_cameras_app : App :=
  Supervisor.on_tab 1 (Tab.select_video 1) (two_channels two_cameras_env).

(** The same machine after a third camera was plugged in: the backend lists
    it first. *)
Definition plugged_env : Env :=
  machine
    ("DirectShow video devices" +:+ nl +:+
     quoted "Camera Z" +:+ nl +:+
     quoted "Camera A" +:+ nl +:+
     quoted "Camera B" +:+ nl +:+
     "DirectShow audio devices" +:+ nl +:+
     quoted "Microphone" +:+ nl).

(** Both channels of [two_cameras_app] started, each on its camera, and both
    encoders launched. *)
Definition both_running : App :=
  Supervisor.on_tab 1 (Tab.worker_act (FFmpegWorker.DoBegin FFmpegWorker.Launched))
    (Supervisor.on_tab 0 (Tab.worker_act (FFmpegWorker.DoBegin FFmpegWorker.Launched))
       (fst (Supervisor.start_stream two_cameras_env 1
               (fst (Supervisor.start_stream two_cameras_env 0 two_cameras_app))))).

(** "Refresh Devices" pressed in the first channel after the camera was
    plugged in, and then in the second one as well. *)
Definition refreshed_first : App :=
  Supervisor.on_tab 0 (Tab.populate_devices plugged_env (path_ffmpeg both_running))
    both_running.

Definition refreshed : App :=
  Supervisor.on_tab 1 (Tab.populate_devices plugged_env (path_ffmpeg refreshed_first))
    refreshed_first.

(** A third channel added then, with the second entry of its box, the first
    camera, selected. *)
Definition third_on_camera_a : App :=
  Supervisor.on_tab 2 (Tab.select_video 1)
    (Supervisor.add_new_tab plugged_env None None refreshed).

(** What follows the first [flag] in a command. *)
Fixpoint argument_of (flag : string) (cmd : list string) : option string :=
  match cmd with
  | a :: rest => if String.eqb a flag then head rest else argument_of flag rest
  | [] => None
  end.

(** The capture input of the encoder that runs for a tab, if one runs. *)
Definition running_input (t : StreamTab) : option string :=
  match ffmpeg_worker t with
  | Some w =>
      match FFmpegWorker.process w with
      | Some p =>
          match FFmpegWorker.returncode p with
          | None => argument_of "-i" (FFmpegWorker.command w)
          | Some _ => None
          end
      | None => None
      end
  | None => None
  end.

(** A tab with the given frame size, frame rate and video bit rate. *)
Definition sample_tab (size fr vb : string) : StreamTab :=
  {| channel_name := "Channel 1"; ffmpeg_worker := None; is_streaming := false;
     input_video_device := Combo.empty; input_audio_device := Combo.empty;
     input_video_size := size; input_framerate := fr;
     input_video_bitrate := vb; input_audio_bitrate := "96k";
     cb_auto_start := false; log_view := [] |}.

(** ** More string primitives *)

(** [s.endswith(suffix)] *)
Fixpoint endswith (suffix s : string) : bool :=
  String.eqb s suffix ||
  match s with
  | String _ s' => endswith suffix s'
  | EmptyString => false
  end.

Fixpoint char_in (c : ascii) (chars : string) : bool :=
  match chars with
  | EmptyString => false
  | String a rest => Ascii.eqb a c || char_in c rest
  end.

(** [s.rstrip(chars)] *)
Fixpoint rstrip_chars (chars s : string) : string :=
  match s with
  | String c s' =>
      match rstrip_chars chars s' with
      | EmptyString => if char_in c chars then EmptyString else String c EmptyString
      | r => String c r
      end
  | EmptyString => EmptyString
  end.

(** ** The rest of the channel tab *)

(** The text put into the playback address box by [update_playback_url],
    [ip] being what [get_local_ip] gives. *)
Definition playback_url (ip : string) (t : StreamTab) : string :=
  "http://" +:+ ip +:+ ":5001/hls/" +:+ Tab.safe_name t +:+ "/index.m3u8".

(** A file that [stop_stream] removes from the channel directory. *)
Definition is_stream_file (f : string) : bool :=
  endswith ".ts" f || endswith ".m3u8" f.

(** The loop of [stop_stream] over [os.listdir(channel_dir)]: what is left
    of the listed files.  [can_remove] tells whether [os.remove] succeeds;
    when it raises, the loop is left (the handler passes). *)
Fixpoint remove_stream_files (can_remove : string -> bool) (files : list string)
  : list string :=
  match files with
  | [] => []
  | f :: rest =>
      if is_stream_file f then
        if can_remove f then remove_stream_files can_remove rest
        else f :: rest
      else f :: remove_stream_files can_remove rest
  end.

(** The clean-up of [stop_stream]: [listing] is [None] when [os.listdir]
    raises (nothing is removed then). *)
Definition clean_channel_dir (can_remove : string -> bool) (listing : option (list string))
  : option (list string) :=
  match listing with
  | Some files => Some (remove_stream_files can_remove files)
  | None => None
  end.

(** ** The rest of the main window *)

(** The configuration file: a key that is absent is [None]. *)
Record ConfigFile := {
  file_ffmpeg_path : option string;
  file_nginx_path : option string;
  file_hls_path : option string;
  file_streams : option (list ChannelConfig);
}.

(** What reading the configuration file gives. *)
Inductive ReadResult :=
| NoFile
| Loaded (config : ConfigFile)
| ReadError (e : string).

Module MainWindow.

Definition default_ffmpeg_path : string :=
  "C:" +:+ sep +:+ "ffmpeg" +:+ sep +:+ "bin" +:+ sep +:+ "ffmpeg.exe".
Definition default_nginx_path : string := "C:" +:+ sep +:+ "nginx".
Definition default_hls_path : string := "C:" +:+ sep +:+ "hls".

(** The dictionary [defaults] of [load_config]. *)
Definition defaults : ConfigFile :=
  {| file_ffmpeg_path := Some default_ffmpeg_path;
     file_nginx_path := Some default_nginx_path;
     file_hls_path := Some default_hls_path;
     file_streams := Some [] |}.

Definition set_paths (ffmpeg nginx hls : string) (app : App) : App :=
  {| path_ffmpeg := ffmpeg; path_nginx := nginx; path_hls := hls;
     nginx_process := nginx_process app; stream_tabs := stream_tabs app;
     system_log := system_log app |}.

(** The test for a path left by an old configuration. *)
Definition is_legacy_path (hls_path : string) : bool :=
  endswith "channel1" hls_path
  || endswith ("channel1" +:+ sep) hls_path
  || endswith "channel1/" hls_path.

(** [load_config] of the main window.  [dirname] is [os.path.dirname];
    the result tells whether the timer for [start_all_streams] was set. *)
Definition load_config (env : Env) (dirname : string -> string) (read : ReadResult)
  (app : App) : App * bool :=
  match read with
  | ReadError e =>
      let app := Supervisor.log ("Error loading config: " +:+ e) app in
      (match stream_tabs app with
       | [] => Supervisor.add_new_tab env (Some "Channel 1") None app
       | _ => app
       end, false)
  | _ =>
      let '(config, app) :=
        match read with
        | Loaded c => (c, app)
        | _ => (defaults,
                Supervisor.log "No config file found, loaded default settings." app)
        end in
      let app := set_paths (default default_ffmpeg_path (file_ffmpeg_path config))
                           (path_nginx app) (path_hls app) app in
      let app := set_paths (path_ffmpeg app)
                           (default default_nginx_path (file_nginx_path config))
                           (path_hls app) app in
      let hls_path := default default_hls_path (file_hls_path config) in
      let '(hls_path, app) :=
        if is_legacy_path hls_path then
          let fixed := dirname (rstrip_chars (sep +:+ "/") hls_path) in
          (fixed, Supervisor.log ("Updated HLS path from legacy config to: " +:+ fixed) app)
        else (hls_path, app) in
      let app := set_paths (path_ffmpeg app) (path_nginx app) hls_path app in
      let app := Supervisor.load_streams env (default [] (file_streams config)) app in
      (Supervisor.log "Configuration loaded." app, true)
  end.

(** The dictionary built by [save_config]. *)
Definition config_of (app : App) : ConfigFile :=
  {| file_ffmpeg_path := Some (path_ffmpeg app);
     file_nginx_path := Some (path_nginx app);
     file_hls_path := Some (path_hls app);
     file_streams := Some (Supervisor.snapshot app) |}.



(** The loop of [start_all_streams] over the tabs at the positions
    [positions]; an exception raised by [start_stream] ends it. *)
Fixpoint start_each (env : Env) (positions : list nat) (app : App) : App * option PyExn :=
  match positions with
  | [] => (app, None)
  | i :: rest =>
      match stream_tabs app !! i with
      | Some tab =>
          if cb_auto_start tab && negb (is_streaming tab) then
            let '(app', o) := Supervisor.start_stream env i app in
            match o with
            | Raised e => (app', Some e)
            | _ => start_each env rest app'
            end
          else start_each env rest app
      | None => start_each env rest app
      end
  end.

(** [start_all_streams] *)
Definition start_all_streams (env : Env) (app : App) : App * option PyExn :=
  start_each env (seq 0 (length (stream_tabs app)))
    (Supervisor.log "Checking for auto-start streams..." app).



End MainWindow.

(** ** Schedules of the worker *)

(** The worker left alone: launch, the lines read, the end of the stream,
    the exit code. *)
Definition natural_run (lines : list string) (rc : Z) : list FFmpegWorker.Action :=
  FFmpegWorker.DoBegin FFmpegWorker.Launched
  :: map FFmpegWorker.DoReadline lines
  ++ [FFmpegWorker.DoReadline EmptyString; FFmpegWorker.DoFinish rc].


(** The texts of the log signals. *)
Definition logged (l : list FFmpegWorker.Signal) : list string :=
  omap (fun s => match s with
                 | FFmpegWorker.log_message m => Some m
                 | FFmpegWorker.process_finished _ => None
                 end) l.

(** The names of the records of a list of devices. *)
Definition names (l : list Device) : list string := map name l.

(** A line of the listing that can open a record: quoted, not a header. *)
Definition may_open (line : string) : bool := has_quote line && negb (is_header line).

(** ** Comparing tabs *)

(** A tab without the text of its log (the messages of the supervisor go to
    the log of whichever tab is shown). *)
Definition unlogged (t : StreamTab) : StreamTab := Tab.set_log [] t.

(** ** More samples *)

(** The state after a camera was listed outside any section, by a line that
    carried "(video)". *)
Definition sample_tagged : ParseState :=
  {| video_devices := [{| name := "USB Camera"; alt := "USB Camera" |}];
     audio_devices := [];
     current_device_type := None; last_device_list := Some Video |}.

(** A quoted line with no kind. *)
Definition sample_plain_line : string := "[dshow @ 01]  " +:+ quoted "Virtual Cam" +:+ " (none)".

(** Two channels on the camera, both to be started with the program. *)
Definition both_checked : App :=
  Supervisor.set_tabs
    (map (fun t => Tab.set_settings (input_video_size t) (input_framerate t)
                     (input_video_bitrate t) (input_audio_bitrate t) true t)
         (stream_tabs (two_channels camera_env)))
    (two_channels camera_env).

(** A [dirname] for the samples: what comes before the last [c]. *)
Fixpoint before_last (c : ascii) (s : string) : string :=
  match s with
  | String a rest =>
      if Py.contains (String c "") rest then String a (before_last c rest) else ""
  | EmptyString => ""
  end.

(** A configuration file left by an old version. *)
Definition legacy_file : ConfigFile :=
  {| file_ffmpeg_path := Some "C:/ffmpeg/bin/ffmpeg.exe";
     file_nginx_path := Some "C:/nginx";
     file_hls_path := Some ("C:" +:+ sep +:+ "hls" +:+ sep +:+ "channel1" +:+ sep);
     file_streams := None |}.

(** A channel whose frame rate is not a whole number. *)
Definition fractional_rate_tab : StreamTab := sample_tab "1280x720" "29.97" "2500k".

(** * Properties *)

(** ** The primitives on samples *)

Example py_int_30 : Py.int "30" = Some 30. Proof. reflexivity. Qed.
Example py_int_spaces : Py.int " +1_200 " = Some 1200. Proof. reflexivity. Qed.
Example py_int_bad : Py.int "3 0" = None /\ Py.int "" = None /\ Py.int "1__0" = None /\ Py.int "fast" = None.
Proof. repeat split; reflexivity. Qed.
Example py_str_60 : Py.str 60 = "60" /\ Py.str 0 = "0" /\ Py.str (-4) = "-4".
Proof. repeat split; reflexivity. Qed.
Example py_split :
  Py.split dq ("  " +:+ quoted "Cam A" +:+ " (video)")
  = ["  "; "Cam A"; " (video)"].
Proof. reflexivity. Qed.
Example py_strip : Py.strip "  a b  " = "a b".
Proof. reflexivity. Qed.

Example list_sample :
  list_media_devices (fun _ => Completed dshow_sample) "ffmpeg.exe"
  = ([{| name := "USB Camera"; alt := "@device_pnp_cam" |}],
     [{| name := "Microphone"; alt := "Microphone" |}],
     dshow_sample).
Proof. vm_compute. reflexivity. Qed.

(** ** The device catalogue *)

Section Parser.

Lemma contains_char_cons c a s :
  Py.contains (String c "") (String a s) = Ascii.eqb a c || Py.contains (String c "") s.
Proof.
  cbn [Py.contains String.prefix].
  destruct (Ascii.ascii_dec c a) as [->|Hne].
  - rewrite Ascii.eqb_refl. destruct s; reflexivity.
  - destruct (Ascii.eqb_spec a c) as [->|_]; [congruence | reflexivity].
Qed.

Lemma contains_char_nil c : Py.contains (String c "") "" = false.
Proof. reflexivity. Qed.

Lemma split_nonempty c s : exists p ps, Py.split c s = p :: ps.
Proof.
  induction s as [|a s IH]; cbn [Py.split]; [eauto|].
  destruct (Ascii.eqb a c); [eauto|].
  destruct IH as (p & ps & ->). eauto.
Qed.

Lemma split_two c s :
  Py.contains (String c "") s = true ->
  exists p q ps, Py.split c s = p :: q :: ps.
Proof.
  induction s as [|a s IH]; [discriminate|].
  rewrite contains_char_cons. cbn [Py.split].
  destruct (Ascii.eqb a c); cbn [orb].
  - intros _. destruct (split_nonempty c s) as (p & ps & ->). eauto.
  - intros H. destruct (IH H) as (p & q & ps & ->). eauto.
Qed.

Lemma set_last_alt_snoc a l d :
  set_last_alt a (l ++ [d]) = Ok (l ++ [{| name := name d; alt := a |}]).
Proof.
  induction l as [|x l IH]; [reflexivity|].
  cbn [app set_last_alt]. rewrite IH.
  destruct (l ++ [d]) eqn:E; [by destruct l|reflexivity].
Qed.

Lemma set_last_alt_ok a l :
  l <> [] -> exists l', set_last_alt a l = Ok l' /\ length l' = length l.
Proof.
  intros Hl. destruct (exists_last Hl) as (l0 & d & ->).
  rewrite set_last_alt_snoc. eexists; split; [reflexivity|].
  by rewrite !length_app.
Qed.

Lemma last_truthy_devices st :
  last_truthy st = true ->
  exists k, last_device_list st = Some k /\ devices_of k st <> [].
Proof.
  unfold last_truthy. destruct (last_device_list st) as [k|]; [|discriminate].
  destruct (devices_of k st) eqn:E; [discriminate|]. intros _.
  exists k. by rewrite E.
Qed.

(** A line never makes the loop raise. *)
Lemma process_line_ok line st : exists st', process_line line st = Ok st'.
Proof.
  unfold process_line.
  destruct (Py.contains "DirectShow video devices" line); [eauto|].
  destruct (Py.contains "DirectShow audio devices" line); [eauto|].
  destruct (Py.contains "Alternative name" line && last_truthy st) eqn:Halt.
  - apply andb_true_iff in Halt as [_ Ht].
    destruct (Py.contains (String dq "") line) eqn:Hq; [|eauto].
    destruct (split_two _ _ Hq) as (p & q & ps & ->). cbn.
    destruct (last_truthy_devices _ Ht) as (k & -> & Hne). rewrite Ht.
    destruct (set_last_alt_ok q _ Hne) as (l' & -> & _). eauto.
  - destruct (Py.contains (String dq "") line) eqn:Hq; [|eauto].
    destruct (split_two _ _ Hq) as (p & q & ps & ->). cbn.
    destruct (if Py.contains "(video)" line then _ else _); eauto.
Qed.

Lemma parse_lines_no_exception lines st : snd (parse_lines lines st) = None.
Proof.
  revert st. induction lines as [|l ls IH]; intros st; [reflexivity|].
  cbn [parse_lines]. destruct (process_line_ok l st) as (st' & ->). apply IH.
Qed.




End Parser.



(** ** The command line of the encoder *)

Section Command.

Lemma string_length_append (s1 s2 : string) :
  String.length (s1 +:+ s2) = (String.length s1 + String.length s2)%nat.
Proof.
  induction s1 as [|c s1 IH]; [reflexivity|].
  change (String c s1 +:+ s2) with (String c (s1 +:+ s2)).
  cbn [String.length]. by rewrite IH.
Qed.

Lemma adjacent_here a b l1 l2 : adjacent a b (l1 ++ a :: b :: l2).
Proof. by exists l1, l2. Qed.

Lemma adjacent_app_r a b l1 l2 : adjacent a b l2 -> adjacent a b (l1 ++ l2).
Proof. intros (m1 & m2 & ->). exists (l1 ++ m1), m2. by rewrite <- app_assoc. Qed.

Lemma adjacent_app_l a b l1 l2 : adjacent a b l1 -> adjacent a b (l1 ++ l2).
Proof.
  intros (m1 & m2 & ->). exists m1, (m2 ++ l2).
  by rewrite <- app_assoc.
Qed.

Lemma has_scale_filter_cons a b l :
  has_scale_filter (a :: b :: l)
  = (String.eqb a "-vf" && String.prefix "scale=" b) || has_scale_filter (b :: l).
Proof. reflexivity. Qed.

Lemma joined_not_vf env d :
  join_keeps_name env ->
  String.eqb (path_join env d "segment_%d.ts") "-vf" = false.
Proof.
  intros Hj. destruct (Hj d "segment_%d.ts") as (p & Hp).
  apply String.eqb_neq. intros E. rewrite E in Hp.
  apply (f_equal String.length) in Hp. rewrite string_length_append in Hp.
  cbn in Hp. lia.
Qed.

Lemma truthy_spec s : Py.truthy s = true <-> s <> "".
Proof. destruct s; cbn; split; congruence. Qed.

Lemma py_int_truthy s n : Py.int s = Some n -> Py.truthy s = true.
Proof. destruct s; [discriminate|reflexivity]. Qed.

Lemma prefix_scale s : String.prefix "scale=" ("scale=" +:+ s) = true.
Proof.
  change ("scale=" +:+ s)
    with (String "s" (String "c" (String "a" (String "l" (String "e" (String "=" s)))))).
  cbn. by destruct s.
Qed.

Lemma strip_empty : Py.strip "" = "".
Proof. reflexivity. Qed.

End Command.

Ltac scan_pairs Hj :=
  repeat (rewrite has_scale_filter_cons;
          first [ rewrite prefix_scale;
                  change (String.eqb "-vf" "-vf") with true; cbn [andb orb]
                | rewrite (joined_not_vf _ _ Hj); cbn [andb orb]
                | match goal with
                  | |- context [String.prefix "scale=" ?b] =>
                      let r := eval vm_compute in (String.prefix "scale=" b) in
                      match r with
                      | false => change (String.prefix "scale=" b) with false
                      end
                  end; rewrite andb_false_r; cbn [orb]
                | match goal with
                  | |- context [String.eqb ?a "-vf"] =>
                      let r := eval vm_compute in (String.eqb a "-vf") in
                      match r with
                      | false => change (String.eqb a "-vf") with false
                      end
                  end; cbn [andb orb] ]).

(** C4.  For a configuration whose frame rate and video bit rate are
    numerals, the command is built and it asks for segments of 2 seconds, a
    playlist of 6 segments, a key-frame interval and a minimum key-frame
    interval of twice the frame rate, a buffer of twice the bit rate, audio
    at 44100 Hz, and the three segment flags; and it carries the scaling
    filter exactly when a frame size is given (the text of the size box is
    not blank). *)
Theorem build_command_derived_values
  (env : Env) (exe dir : string) (t : StreamTab) (fps kbps : Z) :
  join_keeps_name env ->
  path_exists env exe = true ->
  Py.int (input_framerate t) = Some fps ->
  Py.int (Py.remove_char "k" (input_video_bitrate t)) = Some kbps ->
  exists cmd,
    Tab.build_ffmpeg_command env exe dir t = Ok cmd
    /\ adjacent "-hls_time" "2" cmd
    /\ adjacent "-hls_list_size" "6" cmd
    /\ adjacent "-g" (Py.str (2 * fps)) cmd
    /\ adjacent "-keyint_min" (Py.str (2 * fps)) cmd
    /\ adjacent "-bufsize" (Py.str (2 * kbps) +:+ "k") cmd
    /\ adjacent "-ar" "44100" cmd
    /\ adjacent "-hls_flags" "delete_segments+program_date_time+independent_segments" cmd
    /\ (has_scale_filter cmd = true <-> Py.strip (input_video_size t) <> "")
    /\ (input_video_size t = "" -> has_scale_filter cmd = false)
    /\ (Py.strip (input_video_size t) <> "" ->
        adjacent "-vf" ("scale=" +:+ Py.strip (input_video_size t) +:+ ":flags=lanczos") cmd).
Proof.
  intros Hj Hexe Hfps Hkbps.
  unfold Tab.build_ffmpeg_command.
  rewrite Hexe, (py_int_truthy _ _ Hfps), Hfps, Hkbps. cbn [negb].
  rewrite !(Z.mul_comm _ 2).
  eexists; split; [reflexivity|].
  split; [apply adjacent_app_r; by eexists [_;_;_;_;_;_;_;_;_;_;_;_;_;_;_;_;_;_], _|].
  split; [apply adjacent_app_r; by eexists [_;_;_;_;_;_;_;_;_;_;_;_;_;_;_;_;_;_;_;_], _|].
  split; [apply adjacent_app_r; by eexists [_;_;_;_;_;_], _|].
  split; [apply adjacent_app_r; by eexists [_;_;_;_;_;_;_;_], _|].
  split; [apply adjacent_app_r; by eexists [_;_;_;_], _|].
  split; [apply adjacent_app_r; by eexists [_;_;_;_;_;_;_;_;_;_;_;_;_;_], _|].
  split; [apply adjacent_app_r; by eexists [_;_;_;_;_;_;_;_;_;_;_;_;_;_;_;_;_;_;_;_;_;_], _|].
  assert (Hscale :
    has_scale_filter
      ((if Py.truthy (Py.strip (input_video_size t))
        then
          ((if Py.truthy (Py.strip (input_framerate t))
            then [exe; "-hide_banner"; "-loglevel"; "info"; "-f"; "dshow"; "-rtbufsize"; "512M"]
                 ++ ["-framerate"; Py.strip (input_framerate t)]
            else [exe; "-hide_banner"; "-loglevel"; "info"; "-f"; "dshow"; "-rtbufsize"; "512M"])
           ++ ["-thread_queue_size"; "1024"; "-i";
               "video=" +:+ Tab.fmt_optional (Combo.currentData (input_video_device t))
               +:+ ":audio=" +:+ Tab.fmt_optional (Combo.currentData (input_audio_device t));
               "-map"; "0:v:0"; "-map"; "0:a:0"; "-c:v"; "libx264"; "-preset"; "superfast";
               "-tune"; "zerolatency"; "-profile:v"; "baseline"; "-level"; "3.1";
               "-pix_fmt"; "yuv420p"; "-fps_mode"; "cfr"])
          ++ ["-vf"; "scale=" +:+ Py.strip (input_video_size t) +:+ ":flags=lanczos"]
        else
          (if Py.truthy (Py.strip (input_framerate t))
           then [exe; "-hide_banner"; "-loglevel"; "info"; "-f"; "dshow"; "-rtbufsize"; "512M"]
                ++ ["-framerate"; Py.strip (input_framerate t)]
           else [exe; "-hide_banner"; "-loglevel"; "info"; "-f"; "dshow"; "-rtbufsize"; "512M"])
          ++ ["-thread_queue_size"; "1024"; "-i";
              "video=" +:+ Tab.fmt_optional (Combo.currentData (input_video_device t))
              +:+ ":audio=" +:+ Tab.fmt_optional (Combo.currentData (input_audio_device t));
              "-map"; "0:v:0"; "-map"; "0:a:0"; "-c:v"; "libx264"; "-preset"; "superfast";
              "-tune"; "zerolatency"; "-profile:v"; "baseline"; "-level"; "3.1";
              "-pix_fmt"; "yuv420p"; "-fps_mode"; "cfr"])
       ++ ["-b:v"; input_video_bitrate t; "-maxrate"; input_video_bitrate t;
           "-bufsize"; Py.str (2 * kbps) +:+ "k"; "-g"; Py.str (2 * fps);
           "-keyint_min"; Py.str (2 * fps); "-c:a"; "aac";
           "-b:a"; input_audio_bitrate t; "-ar"; "44100"; "-f"; "hls";
           "-hls_time"; "2"; "-hls_list_size"; "6";
           "-hls_flags"; "delete_segments+program_date_time+independent_segments";
           "-hls_segment_filename"; path_join env dir "segment_%d.ts";
           path_join env dir "index.m3u8"])
    = Py.truthy (Py.strip (input_video_size t))).
  { generalize (Py.strip (input_video_size t)) as size.
    generalize (Py.strip (input_framerate t)) as fr.
    generalize (Tab.fmt_optional (Combo.currentData (input_video_device t))) as vd.
    generalize (Tab.fmt_optional (Combo.currentData (input_audio_device t))) as ad.
    generalize (input_video_bitrate t) as br.
    generalize (input_audio_bitrate t) as ab.
    generalize (Py.str (2 * kbps)) as buf.
    generalize (Py.str (2 * fps)) as gop.
    intros gop buf ab br ad vd fr size.
    destruct (Py.truthy size), (Py.truthy fr); cbn [app];
      scan_pairs Hj; reflexivity. }
  split; [|split].
  - rewrite Hscale. apply truthy_spec.
  - intros Hs. rewrite Hscale, Hs. reflexivity.
  - intros Hs. apply truthy_spec in Hs. rewrite Hs.
    apply adjacent_app_l. apply adjacent_here.
Qed.

Lemma machine_join_keeps_name listing : join_keeps_name (machine listing).
Proof.
  intros d n. exists (d +:+ sep). cbn.
  induction d as [|c d IH]; [reflexivity|].
  change (String c d +:+ sep +:+ n) with (String c (d +:+ sep +:+ n)).
  by rewrite IH.
Qed.

Lemma build_command_derived_values_witness :
  exists cmd,
    Tab.build_ffmpeg_command sample_env "ffmpeg.exe" "C:/hls/channel1"
      (sample_tab "" "30" "1200k") = Ok cmd
    /\ adjacent "-g" "60" cmd /\ adjacent "-keyint_min" "60" cmd
    /\ adjacent "-bufsize" "2400k" cmd /\ has_scale_filter cmd = false.
Proof.
  destruct (build_command_derived_values sample_env "ffmpeg.exe" "C:/hls/channel1"
              (sample_tab "" "30" "1200k") 30 1200
              (machine_join_keeps_name "") eq_refl eq_refl eq_refl)
    as (cmd & Hb & _ & _ & Hg & Hk & Hbuf & _ & _ & _ & Hno & _).
  exists cmd. repeat split; try assumption. by apply Hno.
Defined.

(** C10.  With an empty frame-rate box the command is built without any
    "-framerate" among the input options, and the key-frame interval and
    minimum key-frame interval are 50, twice the default of 25; a frame-rate
    text that is not empty and is not a numeral makes the building raise
    [ValueError]. *)
Theorem empty_framerate_defaults
  (env : Env) (exe dir : string) (t t' : StreamTab) (kbps : Z) :
  path_exists env exe = true ->
  input_framerate t = "" ->
  Py.int (Py.remove_char "k" (input_video_bitrate t)) = Some kbps ->
  input_framerate t' <> "" ->
  Py.int (input_framerate t') = None ->
  (exists cmd,
     Tab.build_ffmpeg_command env exe dir t = Ok cmd
     /\ ~ In "-framerate" (input_options cmd)
     /\ adjacent "-g" "50" cmd
     /\ adjacent "-keyint_min" "50" cmd)
  /\ Tab.build_ffmpeg_command env exe dir t' = Raise ValueError.
Proof.
  intros Hexe Hfr Hkbps Hfr' Hbad. split.
  - unfold Tab.build_ffmpeg_command.
    rewrite Hexe, Hfr, Hkbps. cbn [negb Py.truthy]. rewrite strip_empty.
    cbn [Py.truthy].
    eexists; split; [reflexivity|].
    split; [|split].
    + destruct (Py.truthy (Py.strip (input_video_size t)));
        cbn; intuition discriminate.
    + apply adjacent_app_r. by eexists [_;_;_;_;_;_], _.
    + apply adjacent_app_r. by eexists [_;_;_;_;_;_;_;_], _.
  - unfold Tab.build_ffmpeg_command.
    apply truthy_spec in Hfr'. rewrite Hexe, Hfr', Hbad. reflexivity.
Qed.

Lemma empty_framerate_defaults_witness :
  Tab.build_ffmpeg_command sample_env "ffmpeg.exe" "C:/hls/channel1"
    (sample_tab "1280x720" "fast" "1200k") = Raise ValueError.
Proof.
  refine (proj2 (empty_framerate_defaults sample_env "ffmpeg.exe" "C:/hls/channel1"
                   (sample_tab "1280x720" "" "1200k") (sample_tab "1280x720" "fast" "1200k")
                   1200 eq_refl eq_refl eq_refl _ eq_refl)).
  discriminate.
Defined.

(** ** Device arbitration *)

Section Tabs.

(** *** What the methods of a tab leave alone *)

Lemma quiet_log m : quiet (Tab.log m).
Proof. by intros t. Qed.

Lemma quiet_on_ffmpeg_finished code : quiet (Tab.on_ffmpeg_finished code).
Proof.
  intros t. unfold Tab.on_ffmpeg_finished.
  destruct (is_streaming (Tab.log _ t)) eqn:E; [by repeat split|].
  repeat split. cbn in *. congruence.
Qed.

Lemma quiet_deliver s : quiet (Tab.deliver s).
Proof. destruct s; [apply quiet_log | apply quiet_on_ffmpeg_finished]. Qed.

Lemma quiet_compose f g : quiet f -> quiet g -> quiet (fun t => g (f t)).
Proof.
  intros Hf Hg t. destruct (Hf t) as (? & ? & ?), (Hg (f t)) as (? & ? & ?).
  repeat split; [congruence..|auto].
Qed.

Lemma quiet_deliver_all l : quiet (Tab.deliver_all l).
Proof.
  unfold Tab.deliver_all. induction l as [|s l IH]; [by intros t|].
  cbn [fold_left]. apply (quiet_compose (Tab.deliver s) _ (quiet_deliver s) IH).
Qed.

Lemma quiet_set_worker w : quiet (Tab.set_worker w).
Proof. by intros t. Qed.

Lemma quiet_worker_act a : quiet (Tab.worker_act a).
Proof.
  intros t. unfold Tab.worker_act. destruct (ffmpeg_worker t) as [w|]; [|done].
  destruct (FFmpegWorker.act a w) as [w' sigs].
  apply (quiet_compose _ _ (quiet_set_worker (Some w')) (quiet_deliver_all sigs)).
Qed.

Lemma quiet_set_streaming_false : quiet (Tab.set_streaming false).
Proof. intros t. repeat split. discriminate. Qed.

Lemma quiet_stop_tab react : quiet (Supervisor.stop_tab react).
Proof.
  assert (Hw : quiet (fun t =>
             match ffmpeg_worker t with
             | Some w =>
                 let '(w', signals) := FFmpegWorker.stop react w in
                 Tab.deliver_all signals (Tab.set_worker (Some w') t)
             | None => t
             end)).
  { intros t. destruct (ffmpeg_worker t) as [w|]; [|done].
    destruct (FFmpegWorker.stop react w) as [w' sigs].
    apply (quiet_compose _ _ (quiet_set_worker (Some w')) (quiet_deliver_all sigs)). }
  exact (quiet_compose _ _
           (quiet_compose _ _ (quiet_log "Stopping stream...") Hw)
           quiet_set_streaming_false).
Qed.

Lemma quiet_set_settings (f : StreamTab -> string * string * string * string * bool) :
  quiet (fun t => let '(s, fr, vb, ab, au) := f t in Tab.set_settings s fr vb ab au t).
Proof. intros t. by destruct (f t) as [[[[? ?] ?] ?] ?]. Qed.

Lemma populate_keeps env p t :
  channel_name (Tab.populate_devices env p t) = channel_name t /\
  is_streaming (Tab.populate_devices env p t) = is_streaming t.
Proof.
  unfold Tab.populate_devices. destruct (negb (path_exists env p)); [done|].
  by destruct (list_media_devices _ _) as [[? ?] ?].
Qed.

Lemma load_config_keeps env p c t :
  channel_name (Tab.load_config env p c t) = channel_name t /\
  is_streaming (Tab.load_config env p c t) = is_streaming t.
Proof. unfold Tab.load_config. cbn. apply populate_keeps. Qed.

Lemma init_keeps env p n :
  channel_name (Tab.init env p n) = n /\ is_streaming (Tab.init env p n) = false.
Proof. unfold Tab.init. apply populate_keeps. Qed.

(** *** The scan for a device in use *)

Lemma scan_None dev cur i tabs :
  Supervisor.scan_in_use dev cur i tabs = None <->
  forall j t, tabs !! j = Some t -> (i + j)%nat <> cur ->
              is_streaming t = true -> vdata t <> dev.
Proof.
  revert i. induction tabs as [|x tabs IH]; intros i; cbn [Supervisor.scan_in_use].
  - split; [intros _ j t Hj; by rewrite lookup_nil in Hj | done].
  - destruct (Nat.eqb_spec i cur) as [->|Hne].
    + rewrite IH. split; intros H j t Hj Hc.
      * destruct j as [|j]; [lia|]. cbn in Hj. apply (H j t Hj). lia.
      * apply (H (S j) t Hj). lia.
    + destruct (is_streaming x && bool_decide (_ = dev)) eqn:E.
      * split; [discriminate|]. intros H. exfalso.
        apply andb_true_iff in E as [Hs Hd]. apply bool_decide_eq_true in Hd.
        apply (H 0%nat x eq_refl); [lia|done..].
      * rewrite IH. split; intros H j t Hj Hc.
        -- destruct j as [|j]; cbn in Hj.
           ++ injection Hj as <-. intros Hs Hd.
              rewrite Hs in E. cbn in E. apply bool_decide_eq_false in E. done.
           ++ apply (H j t Hj). lia.
        -- apply (H (S j) t Hj). lia.
Qed.

Lemma scan_Some dev cur i tabs n :
  Supervisor.scan_in_use dev cur i tabs = Some n ->
  exists j t, tabs !! j = Some t /\ (i + j)%nat <> cur /\
              is_streaming t = true /\ vdata t = dev /\ n = channel_name t.
Proof.
  revert i. induction tabs as [|x tabs IH]; intros i; cbn [Supervisor.scan_in_use];
    [discriminate|].
  destruct (Nat.eqb_spec i cur) as [->|Hne].
  - intros H. destruct (IH _ H) as (j & t & Hj & Hc & Hr).
    exists (S j), t. split; [done|]. split; [lia|done].
  - destruct (is_streaming x && bool_decide (_ = dev)) eqn:E.
    + intros [= <-]. apply andb_true_iff in E as [Hs Hd].
      apply bool_decide_eq_true in Hd.
      exists 0%nat, x. repeat split; [lia|done..].
    + intros H. destruct (IH _ H) as (j & t & Hj & Hc & Hr).
      exists (S j), t. split; [done|]. split; [lia|done].
Qed.

(** The scan reads the streaming flag, the video device and the name of
    the tabs other than the current one, and nothing else. *)
Lemma scan_ext dev cur i tabs tabs' :
  Forall2 (fun t t' => is_streaming t = is_streaming t' /\ vdata t = vdata t' /\
                       channel_name t = channel_name t') tabs tabs' ->
  Supervisor.scan_in_use dev cur i tabs = Supervisor.scan_in_use dev cur i tabs'.
Proof.
  intros H. revert i. induction H as [|x y l l' (Hs & Hd & Hn) _ IH]; intros i;
    cbn [Supervisor.scan_in_use]; [done|].
  unfold vdata in Hd. rewrite Hs, Hd, Hn, IH. reflexivity.
Qed.

Lemma scan_alter_current f dev cur i tabs k :
  (i + k)%nat = cur ->
  Supervisor.scan_in_use dev cur i (alter f k tabs)
  = Supervisor.scan_in_use dev cur i tabs.
Proof.
  revert i k. induction tabs as [|x tabs IH]; intros i k Hk; [done|].
  destruct k as [|k]; cbn [alter list_alter Supervisor.scan_in_use].
  - replace i with cur by lia. by rewrite Nat.eqb_refl.
  - rewrite (IH (S i) k) by lia. reflexivity.
Qed.

(** *** Exclusivity is kept *)

Lemma exclusive_alter f i tabs :
  (forall t, tabs !! i = Some t -> is_streaming (f t) = true ->
             is_streaming t = true /\ vdata (f t) = vdata t) ->
  exclusive tabs -> exclusive (alter f i tabs).
Proof.
  intros Hf Hex a b ta tb Hab Ha Hb Hsa Hsb.
  assert (Hget : forall c tc, alter f i tabs !! c = Some tc -> is_streaming tc = true ->
             exists t, tabs !! c = Some t /\ is_streaming t = true /\ vdata tc = vdata t).
  { intros c tc Hc Hs. destruct (decide (i = c)) as [->|Hne].
    - rewrite list_lookup_alter_eq in Hc.
      destruct (tabs !! c) as [t|] eqn:E; [|discriminate].
      cbn in Hc. injection Hc as <-. destruct (Hf t eq_refl Hs) as [? ?]. eauto.
    - rewrite list_lookup_alter_ne in Hc by done. eauto. }
  destruct (Hget a ta Ha Hsa) as (ta' & Ha' & Hsa' & ->).
  destruct (Hget b tb Hb Hsb) as (tb' & Hb' & Hsb' & ->).
  by apply (Hex a b).
Qed.

Lemma quiet_vdata f t : quiet f -> vdata (f t) = vdata t.
Proof. intros Hq. unfold vdata. by destruct (Hq t) as (_ & -> & _). Qed.

Lemma exclusive_quiet f i tabs : quiet f -> exclusive tabs -> exclusive (alter f i tabs).
Proof.
  intros Hq. apply exclusive_alter. intros t _ Hs.
  split; [by apply (Hq t)|by apply quiet_vdata].
Qed.

Lemma exclusive_idle f i t tabs :
  tabs !! i = Some t -> is_streaming t = false ->
  (forall t, is_streaming (f t) = is_streaming t) ->
  exclusive tabs -> exclusive (alter f i tabs).
Proof.
  intros Hi Hs Hf. apply exclusive_alter. intros t' Hi' Hs'.
  rewrite Hi in Hi'. injection Hi' as <-. rewrite Hf in Hs'. congruence.
Qed.

Lemma exclusive_snoc tabs t :
  is_streaming t = false -> exclusive tabs -> exclusive (tabs ++ [t]).
Proof.
  intros Ht Hex a b ta tb Hab Ha Hb Hsa Hsb.
  assert (Hget : forall c tc, (tabs ++ [t]) !! c = Some tc -> is_streaming tc = true ->
                              tabs !! c = Some tc).
  { intros c tc Hc Hs. apply lookup_app_Some in Hc as [Hc|[_ Hc]]; [done|].
    apply list_lookup_singleton_Some in Hc as [_ <-]. congruence. }
  apply (Hex a b); auto.
Qed.

Lemma exclusive_delete i tabs : exclusive tabs -> exclusive (delete i tabs).
Proof.
  intros Hex a b ta tb Hab Ha Hb Hsa Hsb.
  set (up := fun c => if decide (c < i)%nat then c else S c).
  assert (Hget : forall c tc, delete i tabs !! c = Some tc -> tabs !! up c = Some tc).
  { intros c tc Hc. unfold up. destruct (decide (c < i)%nat).
    - by rewrite list_lookup_delete_lt in Hc.
    - by rewrite list_lookup_delete_ge in Hc by lia. }
  apply (Hex (up a) (up b)); auto.
  unfold up. repeat case_decide; lia.
Qed.

Lemma exclusive_start i t tabs f :
  tabs !! i = Some t ->
  Supervisor.scan_in_use (vdata t) i 0 tabs = None ->
  (forall t, vdata (f t) = vdata t) ->
  exclusive tabs -> exclusive (alter f i tabs).
Proof.
  intros Hi Hscan Hf Hex a b ta tb Hab Ha Hb Hsa Hsb.
  rewrite scan_None in Hscan.
  destruct (decide (i = a)) as [->|Hia]; [|destruct (decide (i = b)) as [->|Hib]].
  - rewrite list_lookup_alter_eq, Hi in Ha. cbn in Ha. injection Ha as <-.
    rewrite list_lookup_alter_ne in Hb by done. rewrite Hf.
    intros E. apply (Hscan b tb Hb); [cbn; lia|done..].
  - rewrite list_lookup_alter_eq, Hi in Hb. cbn in Hb. injection Hb as <-.
    rewrite list_lookup_alter_ne in Ha by done. rewrite Hf.
    apply (Hscan a ta Ha); [cbn; lia|done].
  - rewrite list_lookup_alter_ne in Ha, Hb by done. by apply (Hex a b).
Qed.

Lemma named_alter f i tabs :
  (forall t, channel_name (f t) = channel_name t) -> named tabs -> named (alter f i tabs).
Proof.
  intros Hf Hn. unfold named in *. rewrite Forall_lookup in *.
  intros j t Hj. destruct (decide (i = j)) as [->|Hne].
  - rewrite list_lookup_alter_eq in Hj. destruct (tabs !! j) as [t0|] eqn:E; [|discriminate].
    cbn in Hj. injection Hj as <-. rewrite Hf. eauto.
  - rewrite list_lookup_alter_ne in Hj by done. eauto.
Qed.

End Tabs.

Section Runs.

Lemma ensure_keeps env app :
  stream_tabs (fst (Supervisor.ensure_nginx_running env app)) = stream_tabs app /\
  path_ffmpeg (fst (Supervisor.ensure_nginx_running env app)) = path_ffmpeg app /\
  path_hls (fst (Supervisor.ensure_nginx_running env app)) = path_hls app.
Proof.
  unfold Supervisor.ensure_nginx_running.
  destruct (Supervisor.nginx_alive app); [done|].
  destruct (negb _); [done|].
  destruct (taskkill_nginx env); [done|].
  by destruct (popen_nginx env _ _).
Qed.

Lemma ensure_alive env app :
  snd (Supervisor.ensure_nginx_running env app) = true ->
  Supervisor.nginx_alive (fst (Supervisor.ensure_nginx_running env app)) = true.
Proof.
  unfold Supervisor.ensure_nginx_running.
  destruct (Supervisor.nginx_alive app) eqn:E; [done|].
  destruct (negb _); [discriminate|].
  destruct (taskkill_nginx env); [discriminate|].
  by destruct (popen_nginx env _ _).
Qed.

Lemma ensure_when_alive env app :
  Supervisor.nginx_alive app = true ->
  Supervisor.ensure_nginx_running env app = (app, true).
Proof. unfold Supervisor.ensure_nginx_running. by intros ->. Qed.

Lemma check_keeps env app :
  stream_tabs (Supervisor.check_and_stop_nginx env app) = stream_tabs app.
Proof.
  unfold Supervisor.check_and_stop_nginx.
  destruct (nginx_process app); [|done].
  destruct (negb _); [|done].
  by destruct (nginx_graceful_stop env _).
Qed.

Lemma used_in_named dev cur i tabs :
  named tabs ->
  Supervisor.used_in_truthy (Supervisor.scan_in_use dev cur i tabs) = false ->
  Supervisor.scan_in_use dev cur i tabs = None.
Proof.
  intros Hn. destruct (Supervisor.scan_in_use dev cur i tabs) as [n|] eqn:E; [|done].
  destruct (scan_Some _ _ _ _ _ E) as (j & t & Hj & _ & _ & _ & ->).
  unfold named in Hn. rewrite Forall_lookup in Hn. specialize (Hn j t Hj).
  cbn. destruct (channel_name t); [done|discriminate].
Qed.

(** The tabs after [start_stream]: untouched, or the tab at [i] altered
    by a function that keeps its name and video device and that, unless
    the start succeeded, does not make it stream. *)
Lemma start_stream_tabs env i t app :
  stream_tabs app !! i = Some t ->
  let r := Supervisor.start_stream env i app in
  (snd r <> Started /\
   exists f, quiet f /\ (forall t, is_streaming (f t) = is_streaming t) /\
             stream_tabs (fst r) = alter f i (stream_tabs app))
  \/ (snd r = Started /\
      (named (stream_tabs app) ->
       Supervisor.scan_in_use (vdata t) i 0 (stream_tabs app) = None) /\
      exists f, (forall t, channel_name (f t) = channel_name t /\
                           input_video_device (f t) = input_video_device t /\
                           is_streaming (f t) = true) /\
                stream_tabs (fst r) = alter f i (stream_tabs app)).
Proof.
  intros Hi. unfold Supervisor.start_stream. rewrite Hi.
  destruct (ensure_keeps env app) as (Ht & Hp & Hh).
  destruct (Supervisor.ensure_nginx_running env app) as [app1 ok]. cbn [fst] in *.
  destruct ok; cbn [negb].
  2:{ left. split; [done|]. exists id. split; [by intros ?|]. split; [done|].
      cbn [fst]. by rewrite list_alter_id. }
  unfold Supervisor.is_video_device_in_use. cbn [stream_tabs Supervisor.on_tab Supervisor.set_tabs].
  rewrite scan_alter_current by done. rewrite Ht.
  fold (vdata t).
  destruct (Supervisor.used_in_truthy _) eqn:Hu.
  { left. split; [done|]. exists (Tab.log "Starting stream..."). split; [apply quiet_log|]. split; [done|].
    cbn. by rewrite Ht. }
  destruct (makedirs env _) as [e|].
  { left. split; [done|].
    exists (fun t => Tab.log ("Error creating directory: " +:+ e) (Tab.log "Starting stream..." t)).
    split; [apply (quiet_compose _ _ (quiet_log _) (quiet_log _))|]. split; [done|].
    cbn. rewrite Ht. by rewrite list_alter_alter_eq. }
  destruct (Tab.build_ffmpeg_command _ _ _ _) as [[|c cmd]|e].
  - left. split; [done|]. exists (Tab.log "Starting stream..."). split; [apply quiet_log|]. split; [done|].
    cbn. by rewrite Ht.
  - right. split; [done|]. split; [intros Hn; by apply used_in_named|].
    exists (fun t => Tab.set_streaming true
                       (Tab.set_worker (Some (FFmpegWorker.init (c :: cmd)))
                          (Tab.log "Starting stream..." t))).
    split; [done|]. cbn. rewrite Ht. by rewrite list_alter_alter_eq.
  - left. split; [done|]. exists (Tab.log "Starting stream..."). split; [apply quiet_log|]. split; [done|].
    cbn. by rewrite Ht.
Qed.

Lemma add_new_tab_tabs env name config app :
  exists t, stream_tabs (Supervisor.add_new_tab env name config app) = stream_tabs app ++ [t]
            /\ is_streaming t = false /\ channel_name t <> "".
Proof.
  unfold Supervisor.add_new_tab. eexists. split; [reflexivity|].
  set (nm := match name with Some n => _ | None => _ end).
  assert (Hnm : nm <> "").
  { subst nm. destruct name as [n|]; [destruct (Py.truthy n) eqn:E|].
    - by destruct n.
    - done.
    - done. }
  destruct (init_keeps env (path_ffmpeg app) nm) as [Hn Hs].
  destruct config as [c|].
  - destruct (load_config_keeps env (path_ffmpeg app) c (Tab.init env (path_ffmpeg app) nm))
      as [-> ->]. by rewrite Hn, Hs.
  - by rewrite Hn, Hs.
Qed.

(** A start keeps distinct streaming tabs on distinct devices. *)
Lemma start_keeps env i t app :
  stream_tabs app !! i = Some t ->
  exclusive (stream_tabs app) /\ named (stream_tabs app) ->
  exclusive (stream_tabs (fst (Supervisor.start_stream env i app)))
  /\ named (stream_tabs (fst (Supervisor.start_stream env i app))).
Proof.
  intros H [Hex Hn].
  destruct (start_stream_tabs env i t app H) as [(_ & f & Hq & _ & ->)|(_ & Hscan & f & Hf & ->)].
  - split; [by apply exclusive_quiet|]. apply named_alter; [|done]. intros t0. apply Hq.
  - split.
    + apply (exclusive_start i t); auto. intros t0. unfold vdata.
      by destruct (Hf t0) as (_ & -> & _).
    + apply named_alter; [|done]. intros t0. apply Hf.
Qed.

(** Every event keeps distinct streaming tabs on distinct devices, except a
    refresh that changes the device selected in a streaming tab. *)
Lemma step_keeps app app' :
  step app app' ->
  exclusive (stream_tabs app) /\ named (stream_tabs app) ->
  (exclusive (stream_tabs app') /\ named (stream_tabs app'))
  \/ exists env i t,
       stream_tabs app !! i = Some t /\ is_streaming t = true /\
       app' = Supervisor.on_tab i (Tab.populate_devices env (path_ffmpeg app)) app /\
       vdata (Tab.populate_devices env (path_ffmpeg app) t) <> vdata t.
Proof.
  intros Hstep [Hex Hn].
  destruct Hstep as [env nm config app | index confirmed app | env i t app H H0
                    | env react i t app H H0 | i s app | i a app | i k t app H H0 Hk
                    | i k t app H H0 Hk | i size fr vb ab t app H H0 | i b app
                    | env i app | p app H].
  - left. destruct (add_new_tab_tabs env nm config app) as (t & -> & Hs & Hne).
    split; [by apply exclusive_snoc|]. apply Forall_app. split; [done|]. by constructor.
  - left. unfold Supervisor.remove_current_tab. destruct index as [i|]; [|done].
    destruct (stream_tabs app !! i) as [t|]; [|done].
    destruct (is_streaming t); [done|]. destruct confirmed; [|done].
    split; [by apply exclusive_delete|]. cbn. by apply Forall_delete.
  - left. by apply (start_keeps env i t).
  - left. unfold Supervisor.stop_stream. rewrite check_keeps. cbn.
    split; [apply exclusive_quiet; [apply quiet_stop_tab|done]|].
    apply named_alter; [|done]. intros t0. apply quiet_stop_tab.
  - left. cbn. split; [apply exclusive_quiet; [apply quiet_deliver|done]|].
    apply named_alter; [|done]. intros t0. apply quiet_deliver.
  - left. cbn. split; [apply exclusive_quiet; [apply quiet_worker_act|done]|].
    apply named_alter; [|done]. intros t0. apply quiet_worker_act.
  - left. cbn. split; [by apply (exclusive_idle _ i t)|]. by apply named_alter.
  - left. cbn. split; [by apply (exclusive_idle _ i t)|]. by apply named_alter.
  - left. cbn. split; [by apply (exclusive_idle _ i t)|]. by apply named_alter.
  - left. cbn. split; [by apply exclusive_quiet|]. by apply named_alter.
  - assert (Hnamed : named (alter (Tab.populate_devices env (path_ffmpeg app)) i
                              (stream_tabs app))).
    { apply named_alter; [|done]. intros t0. apply populate_keeps. }
    destruct (stream_tabs app !! i) as [t|] eqn:Hi.
    + destruct (is_streaming t) eqn:Hs.
      * destruct (decide (vdata (Tab.populate_devices env (path_ffmpeg app) t) = vdata t))
          as [Hv|Hv].
        -- left. cbn. split; [|done]. apply exclusive_alter; [|done].
           intros t0 Ht0 _. rewrite Hi in Ht0. injection Ht0 as <-. by split.
        -- right. exists env, i, t. by repeat split.
      * left. cbn. split; [|done]. apply exclusive_alter; [|done].
        intros t0 Ht0 Hs0. rewrite Hi in Ht0. injection Ht0 as <-.
        destruct (populate_keeps env (path_ffmpeg app) t) as [_ Hk].
        rewrite Hk in Hs0. congruence.
    + left. cbn. split; [|done]. apply exclusive_alter; [|done]. intros t0 Ht0. rewrite Hi in Ht0. discriminate.
  - by left.
Qed.

(** The names of the tabs are never empty. *)
Lemma reachable_named app : reachable app -> named (stream_tabs app).
Proof.
  intros (f & n & h & Hrun).
  refine (rtc_ind_r (fun a => named (stream_tabs a)) _ _ _ app Hrun).
  - by constructor.
  - intros y z _ Hstep Hn.
    destruct Hstep as [env nm config y | index confirmed y | env i t y H H0
                      | env react i t y H H0 | i s y | i a y | i k t y H H0 Hk
                      | i k t y H H0 Hk | i size fr vb ab t y H H0 | i b y
                      | env i y | p y H].
    + destruct (add_new_tab_tabs env nm config y) as (t & -> & Hs & Hne).
      apply Forall_app. split; [done|]. by constructor.
    + unfold Supervisor.remove_current_tab. destruct index as [i|]; [|done].
      destruct (stream_tabs y !! i) as [t|]; [|done].
      destruct (is_streaming t); [done|]. destruct confirmed; [|done].
      cbn. by apply Forall_delete.
    + destruct (start_stream_tabs env i t y H) as [(_ & g & Hq & _ & ->)|(_ & _ & g & Hg & ->)];
        (apply named_alter; [|done]); intros t0; [apply Hq|apply Hg].
    + unfold Supervisor.stop_stream. rewrite check_keeps. cbn.
      apply named_alter; [|done]. intros t0. apply quiet_stop_tab.
    + cbn. apply named_alter; [|done]. intros t0. apply quiet_deliver.
    + cbn. apply named_alter; [|done]. intros t0. apply quiet_worker_act.
    + cbn. by apply named_alter.
    + cbn. by apply named_alter.
    + cbn. by apply named_alter.
    + cbn. by apply named_alter.
    + cbn. apply named_alter; [|done]. intros t0. apply populate_keeps.
    + done.
Qed.

End Runs.

Section Arbitration.

Lemma active_count_flags tabs tabs' :
  map is_streaming tabs = map is_streaming tabs' ->
  length (filter (fun t => is_streaming t = true) tabs)
  = length (filter (fun t => is_streaming t = true) tabs').
Proof.
  revert tabs'. induction tabs as [|x l IH]; intros [|y l'] H; try discriminate; [done|].
  injection H as Hx Hl. rewrite !filter_cons. rewrite Hx.
  destruct (decide (is_streaming y = true)); cbn; rewrite (IH l' Hl); done.
Qed.

Lemma active_count_pos tabs j t :
  tabs !! j = Some t -> is_streaming t = true ->
  (0 < length (filter (fun t => is_streaming t = true) tabs))%nat.
Proof.
  intros Hj Hs.
  assert (Hin : t ∈ filter (fun t => is_streaming t = true) tabs).
  { apply list_elem_of_filter. split; [done|]. by apply list_elem_of_lookup_2 with j. }
  destruct (filter _ tabs); [by apply not_elem_of_nil in Hin|cbn; lia].
Qed.

Lemma flags_alter f i (tabs : list StreamTab) :
  (forall t, is_streaming (f t) = is_streaming t) ->
  map is_streaming (alter f i tabs) = map is_streaming tabs.
Proof.
  intros Hf. revert i. induction tabs as [|x l IH]; intros [|i]; cbn; [done..| |].
  - by rewrite Hf.
  - by rewrite IH.
Qed.

(** What a refusal for a device in use tells. *)
Lemma start_stream_in_use env i app app' owner :
  Supervisor.start_stream env i app = (app', DeviceInUse owner) ->
  exists t,
    stream_tabs app !! i = Some t /\
    snd (Supervisor.ensure_nginx_running env app) = true /\
    app' = Supervisor.on_tab i (Tab.log "Starting stream...")
             (fst (Supervisor.ensure_nginx_running env app)) /\
    Supervisor.scan_in_use (vdata t) i 0 (stream_tabs app) = Some owner.
Proof.
  unfold Supervisor.start_stream.
  destruct (stream_tabs app !! i) as [t|] eqn:Hi; [|discriminate].
  destruct (ensure_keeps env app) as (Ht & _ & _).
  destruct (Supervisor.ensure_nginx_running env app) as [app1 ok]. cbn [fst snd] in *.
  destruct ok; cbn [negb]; [|discriminate].
  unfold Supervisor.is_video_device_in_use.
  cbn [stream_tabs Supervisor.on_tab Supervisor.set_tabs].
  rewrite scan_alter_current by done. rewrite Ht. fold (vdata t).
  destruct (Supervisor.scan_in_use (vdata t) i 0 (stream_tabs app)) as [n|] eqn:Hscan.
  - destruct (Supervisor.used_in_truthy (Some n)).
    + intros [= <- <-]. exists t. by rewrite Hscan.
    + destruct (makedirs env _); [discriminate|].
      destruct (Tab.build_ffmpeg_command _ _ _ _) as [[|? ?]|?]; discriminate.
  - cbn [Supervisor.used_in_truthy].
    destruct (makedirs env _); [discriminate|].
    destruct (Tab.build_ffmpeg_command _ _ _ _) as [[|? ?]|?]; discriminate.
Qed.

(** While a tab streams with some video device, the start of another tab
    with that device is refused, and the refusal names the streaming tab. *)
Lemma start_stream_refused env app a b ta tb :
  exclusive (stream_tabs app) -> named (stream_tabs app) ->
  a <> b ->
  stream_tabs app !! a = Some ta -> stream_tabs app !! b = Some tb ->
  vdata ta = vdata tb -> is_streaming ta = true ->
  snd (Supervisor.ensure_nginx_running env app) = true ->
  Supervisor.start_stream env b app
  = (Supervisor.on_tab b (Tab.log "Starting stream...")
       (fst (Supervisor.ensure_nginx_running env app)),
     DeviceInUse (channel_name ta)).
Proof.
  intros Hex Hn Hab Ha Hb Hv Hs Hok.
  unfold Supervisor.start_stream. rewrite Hb.
  destruct (ensure_keeps env app) as (Ht & _ & _).
  destruct (Supervisor.ensure_nginx_running env app) as [app1 ok]. cbn [fst snd] in *.
  subst ok. cbn [negb].
  unfold Supervisor.is_video_device_in_use.
  cbn [stream_tabs Supervisor.on_tab Supervisor.set_tabs].
  rewrite scan_alter_current by done. rewrite Ht. fold (vdata tb).
  destruct (Supervisor.scan_in_use (vdata tb) b 0 (stream_tabs app)) as [n|] eqn:Hscan.
  - destruct (scan_Some _ _ _ _ _ Hscan) as (j & t & Hj & Hjb & Hsj & Hvj & ->).
    assert (j = a) as ->.
    { destruct (decide (j = a)) as [|Hne]; [done|]. exfalso.
      apply (Hex j a t ta Hne Hj Ha Hsj Hs). congruence. }
    rewrite Ha in Hj. injection Hj as <-.
    unfold named in Hn. rewrite Forall_lookup in Hn. specialize (Hn a ta Ha).
    cbn. destruct (channel_name ta); [done|reflexivity].
  - exfalso. rewrite scan_None in Hscan.
    apply (Hscan a ta Ha); [cbn; lia|done..].
Qed.

End Arbitration.

Lemma camera_running_reachable : reachable camera_running.
Proof.
  exists "C:/ffmpeg/bin/ffmpeg.exe", "C:/nginx", "C:/hls".
  eapply rtc_l; [apply (step_add camera_env None None)|].
  eapply rtc_l; [apply (step_add camera_env None None)|].
  eapply rtc_l; [|apply rtc_refl].
  by eapply (step_start camera_env 0).
Qed.

Section Plugged.

Lemma both_running_reachable : reachable both_running.
Proof.
  exists "C:/ffmpeg/bin/ffmpeg.exe", "C:/nginx", "C:/hls".
  eapply rtc_l; [apply (step_add two_cameras_env None None)|].
  eapply rtc_l; [apply (step_add two_cameras_env None None)|].
  eapply rtc_l; [eapply (step_select_video 1 1); [vm_compute; reflexivity|reflexivity|vm_compute; lia]|].
  eapply rtc_l; [eapply (step_start two_cameras_env 0); [vm_compute; reflexivity|reflexivity]|].
  eapply rtc_l; [eapply (step_start two_cameras_env 1); [vm_compute; reflexivity|reflexivity]|].
  eapply rtc_l; [apply (step_worker 0 (FFmpegWorker.DoBegin FFmpegWorker.Launched))|].
  eapply rtc_l; [apply (step_worker 1 (FFmpegWorker.DoBegin FFmpegWorker.Launched))|].
  apply rtc_refl.
Qed.

Lemma refreshed_reachable : reachable refreshed.
Proof.
  destruct both_running_reachable as (f & n & h & Hrun). exists f, n, h.
  eapply rtc_r; [eapply rtc_r; [exact Hrun|]|].
  - exact (step_refresh plugged_env 0 both_running).
  - exact (step_refresh plugged_env 1 refreshed_first).
Qed.

Lemma third_on_camera_a_reachable : reachable third_on_camera_a.
Proof.
  destruct refreshed_reachable as (f & n & h & Hrun). exists f, n, h.
  eapply rtc_r; [eapply rtc_r; [exact Hrun|]|].
  - apply (step_add plugged_env None None refreshed).
  - eapply (step_select_video 2 1); [vm_compute; reflexivity|reflexivity|vm_compute; lia].
Qed.

End Plugged.

(** C1.  The code checks the video device when a channel is started, and
    every event but one keeps two streaming channels from having the same
    video device selected.  The exception is "Refresh Devices", which stays
    enabled while a channel streams and selects the first entry of the new
    list when the label of the device in use is not found again.  So the
    property fails in the program: once a camera has been plugged in and is
    listed first, a refresh of two streaming channels leaves both with that
    camera selected while each encoder still runs on its own camera, and a
    third channel started on the camera held by the first encoder is not
    refused. *)
Theorem refresh_breaks_exclusivity :
  (forall app app',
     reachable app -> step app app' -> exclusive (stream_tabs app) ->
     exclusive (stream_tabs app')
     \/ exists env i t,
          stream_tabs app !! i = Some t /\ is_streaming t = true /\
          app' = Supervisor.on_tab i (Tab.populate_devices env (path_ffmpeg app)) app /\
          vdata (Tab.populate_devices env (path_ffmpeg app) t) <> vdata t)
  /\ reachable both_running
  /\ map (fun t => (is_streaming t, vdata t, running_input t)) (stream_tabs both_running)
     = [(true, Some "Camera A", Some "video=Camera A:audio=Microphone");
        (true, Some "Camera B", Some "video=Camera B:audio=Microphone")]
  /\ reachable refreshed
  /\ map (fun t => (is_streaming t, vdata t, running_input t)) (stream_tabs refreshed)
     = [(true, Some "Camera Z", Some "video=Camera A:audio=Microphone");
        (true, Some "Camera Z", Some "video=Camera B:audio=Microphone")]
  /\ ~ exclusive (stream_tabs refreshed)
  /\ reachable third_on_camera_a
  /\ (vdata <$> stream_tabs third_on_camera_a !! 2%nat) = Some (Some "Camera A")
  /\ snd (Supervisor.start_stream plugged_env 2 third_on_camera_a) = Started.
Proof.
  split; [|split; [|split; [|split; [|split; [|split; [|split; [|split]]]]]]].
  - intros app app' Hr Hstep Hex.
    destruct (step_keeps app app' Hstep (conj Hex (reachable_named app Hr)))
      as [[Hex' _]|Hrefresh]; [by left|by right].
  - exact both_running_reachable.
  - vm_compute. reflexivity.
  - exact refreshed_reachable.
  - vm_compute. reflexivity.
  - intros Hex.
    eapply (Hex 0%nat 1%nat);
      [lia|vm_compute; reflexivity|vm_compute; reflexivity|reflexivity|reflexivity
      |vm_compute; reflexivity].
  - exact third_on_camera_a_reachable.
  - vm_compute. reflexivity.
  - vm_compute. reflexivity.
Qed.

(** C2.  When the start of a channel is refused because its video device is
    in use, no tab changes between idle and streaming, so the number of
    active channels, on which the shared server depends, is what it was (and
    is not zero); the server runs afterwards, and if it was running before,
    its handle is untouched. *)
Theorem device_in_use_abort_keeps_service
  (env : Env) (i : nat) (app app' : App) (owner : string) :
  Supervisor.start_stream env i app = (app', DeviceInUse owner) ->
  map is_streaming (stream_tabs app') = map is_streaming (stream_tabs app)
  /\ active_count app' = active_count app
  /\ (0 < active_count app)%nat
  /\ Supervisor.nginx_alive app' = true
  /\ (Supervisor.nginx_alive app = true -> nginx_process app' = nginx_process app).
Proof.
  intros H. destruct (start_stream_in_use _ _ _ _ _ H) as (t & Hi & Hok & -> & Hscan).
  assert (Hflags : map is_streaming
            (stream_tabs (Supervisor.on_tab i (Tab.log "Starting stream...")
                            (fst (Supervisor.ensure_nginx_running env app))))
          = map is_streaming (stream_tabs app)).
  { cbn [stream_tabs Supervisor.on_tab Supervisor.set_tabs].
    rewrite flags_alter by done. by destruct (ensure_keeps env app) as (-> & _ & _). }
  split; [done|]. split; [by apply active_count_flags|].
  split; [|split].
  - destruct (scan_Some _ _ _ _ _ Hscan) as (j & tj & Hj & _ & Hs & _).
    by apply (active_count_pos _ j tj).
  - by apply ensure_alive.
  - intros Halive. by rewrite ensure_when_alive.
Qed.

Lemma device_in_use_abort_keeps_service_witness :
  active_count (fst (Supervisor.start_stream camera_env 1 camera_running)) = 1%nat.
Proof.
  refine (eq_trans (proj1 (proj2 (device_in_use_abort_keeps_service camera_env 1
                     camera_running _ "Channel 1" _))) _).
  - vm_compute. reflexivity.
  - vm_compute. reflexivity.
Defined.

Section Starting.

Lemma build_ffmpeg_command_ok env exe dir t fps kbps :
  path_exists env exe = true ->
  Py.int (input_framerate t) = Some fps ->
  Py.int (Py.remove_char "k" (input_video_bitrate t)) = Some kbps ->
  exists c cmd, Tab.build_ffmpeg_command env exe dir t = Ok (c :: cmd).
Proof.
  intros Hexe Hfps Hkbps. unfold Tab.build_ffmpeg_command.
  assert (Ht : Py.truthy (input_framerate t) = true)
    by (destruct (input_framerate t); [discriminate|reflexivity]).
  rewrite Hexe, Ht, Hfps, Hkbps. cbn [negb].
  destruct (Py.truthy (Py.strip (input_video_size t))),
           (Py.truthy (Py.strip (input_framerate t))); cbn [app]; eauto.
Qed.

(** The way through [start_stream] when nothing stands against it. *)
Lemma start_stream_started env i t app c cmd :
  stream_tabs app !! i = Some t ->
  snd (Supervisor.ensure_nginx_running env app) = true ->
  Supervisor.scan_in_use (vdata t) i 0 (stream_tabs app) = None ->
  makedirs env (path_join env (path_hls app) (Tab.safe_name t)) = None ->
  Tab.build_ffmpeg_command env (path_ffmpeg app)
    (path_join env (path_hls app) (Tab.safe_name t)) t = Ok (c :: cmd) ->
  Supervisor.start_stream env i app
  = (Supervisor.on_tab i
       (fun t => Tab.set_streaming true
                   (Tab.set_worker (Some (FFmpegWorker.init (c :: cmd))) t))
       (Supervisor.on_tab i (Tab.log "Starting stream...")
          (fst (Supervisor.ensure_nginx_running env app))),
     Started).
Proof.
  intros Hi Hok Hscan Hmk Hb. unfold Supervisor.start_stream. rewrite Hi.
  destruct (ensure_keeps env app) as (Ht & Hp & Hh).
  destruct (Supervisor.ensure_nginx_running env app) as [app1 ok]. cbn [fst snd] in *.
  subst ok. cbn [negb].
  unfold Supervisor.is_video_device_in_use.
  cbn [stream_tabs Supervisor.on_tab Supervisor.set_tabs path_hls path_ffmpeg].
  rewrite scan_alter_current by done. rewrite Ht, Hp, Hh. fold (vdata t).
  rewrite Hscan. cbn [Supervisor.used_in_truthy]. rewrite Hmk, Hb. reflexivity.
Qed.

End Starting.

(** C8.  Two idle channels with the same audio device and different video
    devices, neither of which is held by a streaming channel, are both
    started, one after the other, and both stream afterwards; and what the
    in-use check answers depends on the streaming flags, video devices and
    names of the tabs only, not on their audio devices. *)
Theorem audio_devices_not_arbitrated
  (env : Env) (app : App) (a b : nat) (ta tb : StreamTab) (fa ka fb kb : Z) :
  a <> b ->
  stream_tabs app !! a = Some ta ->
  stream_tabs app !! b = Some tb ->
  is_streaming ta = false -> is_streaming tb = false ->
  adata ta = adata tb ->
  vdata ta <> vdata tb ->
  (forall j t, stream_tabs app !! j = Some t -> is_streaming t = true ->
               vdata t <> vdata ta /\ vdata t <> vdata tb) ->
  snd (Supervisor.ensure_nginx_running env app) = true ->
  (forall d, makedirs env d = None) ->
  path_exists env (path_ffmpeg app) = true ->
  Py.int (input_framerate ta) = Some fa ->
  Py.int (Py.remove_char "k" (input_video_bitrate ta)) = Some ka ->
  Py.int (input_framerate tb) = Some fb ->
  Py.int (Py.remove_char "k" (input_video_bitrate tb)) = Some kb ->
  let r1 := Supervisor.start_stream env a app in
  let r2 := Supervisor.start_stream env b (fst r1) in
  snd r1 = Started /\ snd r2 = Started
  /\ (exists ta' tb',
        stream_tabs (fst r2) !! a = Some ta' /\ stream_tabs (fst r2) !! b = Some tb' /\
        is_streaming ta' = true /\ is_streaming tb' = true /\
        adata ta' = adata tb' /\ vdata ta' <> vdata tb')
  /\ (forall dev cur tabs',
        Forall2 (fun t t' => is_streaming t = is_streaming t' /\ vdata t = vdata t' /\
                             channel_name t = channel_name t') (stream_tabs app) tabs' ->
        Supervisor.scan_in_use dev cur 0 (stream_tabs app)
        = Supervisor.scan_in_use dev cur 0 tabs').
Proof.
  intros Hab Ha Hb Hsa Hsb Haud Hvid Hfree Hok Hmk Hexe Hfa Hka Hfb Hkb r1 r2.
  destruct (build_ffmpeg_command_ok env (path_ffmpeg app)
              (path_join env (path_hls app) (Tab.safe_name ta)) ta fa ka Hexe Hfa Hka)
    as (ca & cmda & Hba).
  destruct (build_ffmpeg_command_ok env (path_ffmpeg app)
              (path_join env (path_hls app) (Tab.safe_name tb)) tb fb kb Hexe Hfb Hkb)
    as (cb & cmdb & Hbb).
  destruct (ensure_keeps env app) as (Ht & Hp & Hh).
  assert (H1 : r1 = (Supervisor.on_tab a
                       (fun t => Tab.set_streaming true
                                   (Tab.set_worker (Some (FFmpegWorker.init (ca :: cmda))) t))
                       (Supervisor.on_tab a (Tab.log "Starting stream...")
                          (fst (Supervisor.ensure_nginx_running env app))),
                     Started)).
  { apply (start_stream_started env a ta); auto.
    apply scan_None. intros j t Hj Hja Hs. apply (Hfree j t Hj Hs). }
  set (app1 := fst r1).
  assert (Htabs1 : stream_tabs app1
                   = alter (fun t => Tab.set_streaming true
                                       (Tab.set_worker (Some (FFmpegWorker.init (ca :: cmda)))
                                          (Tab.log "Starting stream..." t)))
                       a (stream_tabs app)).
  { subst app1. rewrite H1. cbn. by rewrite list_alter_alter_eq, Ht. }
  assert (Halive1 : Supervisor.nginx_alive app1 = true).
  { subst app1. rewrite H1. cbn [fst]. unfold Supervisor.nginx_alive. cbn.
    by apply ensure_alive. }
  assert (Hb1 : stream_tabs app1 !! b = Some tb).
  { rewrite Htabs1. by rewrite list_lookup_alter_ne. }
  assert (Hpaths : path_ffmpeg app1 = path_ffmpeg app /\ path_hls app1 = path_hls app).
  { subst app1. rewrite H1. cbn. done. }
  destruct Hpaths as [Hp1 Hh1].
  assert (H2 : r2 = (Supervisor.on_tab b
                       (fun t => Tab.set_streaming true
                                   (Tab.set_worker (Some (FFmpegWorker.init (cb :: cmdb))) t))
                       (Supervisor.on_tab b (Tab.log "Starting stream...")
                          (fst (Supervisor.ensure_nginx_running env app1))),
                     Started)).
  { apply (start_stream_started env b tb); auto.
    - by rewrite ensure_when_alive.
    - apply scan_None. intros j t Hj Hjb Hs. rewrite Htabs1 in Hj.
      destruct (decide (a = j)) as [<-|Hne].
      + rewrite list_lookup_alter_eq, Ha in Hj. cbn in Hj. injection Hj as <-. done.
      + rewrite list_lookup_alter_ne in Hj by done. apply (Hfree j t Hj Hs).
    - by rewrite Hp1, Hh1. }
  split; [by rewrite H1|]. split; [by rewrite H2|]. split.
  - rewrite H2. cbn [fst stream_tabs Supervisor.on_tab Supervisor.set_tabs].
    rewrite ensure_when_alive by done. cbn [fst]. rewrite Htabs1.
    eexists _, _. split; [|split].
    + rewrite !list_lookup_alter_ne by done. rewrite list_lookup_alter_eq, Ha. reflexivity.
    + rewrite !list_lookup_alter_eq. rewrite list_lookup_alter_ne by done.
      rewrite Hb. reflexivity.
    + done.
  - intros dev cur tabs' H. by apply scan_ext.
Qed.

Lemma audio_devices_not_arbitrated_witness :
  snd (Supervisor.start_stream two_cameras_env 1
         (fst (Supervisor.start_stream two_cameras_env 0 two_cameras_app))) = Started.
Proof.
  refine (proj1 (proj2 (audio_devices_not_arbitrated two_cameras_env two_cameras_app 0 1 _ _
                          60 6000 60 6000 _ eq_refl eq_refl eq_refl eq_refl eq_refl _ _
                          eq_refl (fun _ => eq_refl) eq_refl eq_refl eq_refl eq_refl eq_refl))).
  - lia.
  - vm_compute. discriminate.
  - intros [|[|[|j]]] t Hj Hs; vm_compute in Hj; try discriminate;
      injection Hj as <-; discriminate Hs.
Defined.

(** ** Failures at start, and adding channels *)

(** C3.  With the encoder executable missing, [start_stream] gets as far as
    building the command, and that raises [AttributeError]: the tab has only
    logged that it is starting, no worker exists, so nothing is reported
    about the executable and no terminal event is emitted. *)
Theorem start_stream_missing_executable_raises
  (env : Env) (i : nat) (t : StreamTab) (app : App) :
  stream_tabs app !! i = Some t ->
  snd (Supervisor.ensure_nginx_running env app) = true ->
  Supervisor.scan_in_use (vdata t) i 0 (stream_tabs app) = None ->
  makedirs env (path_join env (path_hls app) (Tab.safe_name t)) = None ->
  path_exists env (path_ffmpeg app) = false ->
  let r := Supervisor.start_stream env i app in
  snd r = Raised (AttributeError "StreamTab" "log_message")
  /\ stream_tabs (fst r) !! i = Some (Tab.log "Starting stream..." t).
Proof.
  intros Hi Hok Hscan Hmk Hexe. unfold Supervisor.start_stream. rewrite Hi.
  destruct (ensure_keeps env app) as (Ht & Hp & Hh).
  destruct (Supervisor.ensure_nginx_running env app) as [app1 ok]. cbn [fst snd] in *.
  subst ok. cbn [negb].
  unfold Supervisor.is_video_device_in_use.
  cbn [stream_tabs Supervisor.on_tab Supervisor.set_tabs path_hls path_ffmpeg].
  rewrite scan_alter_current by done. rewrite Ht, Hp, Hh. fold (vdata t).
  rewrite Hscan. cbn [Supervisor.used_in_truthy]. rewrite Hmk.
  unfold Tab.build_ffmpeg_command. rewrite Hexe. cbn.
  split; [done|]. by rewrite Ht, list_lookup_alter_eq, Hi.
Qed.

Lemma start_stream_missing_executable_raises_witness :
  snd (Supervisor.start_stream no_ffmpeg_env 0 (one_channel no_ffmpeg_env))
  = Raised (AttributeError "StreamTab" "log_message").
Proof.
  exact (proj1 (start_stream_missing_executable_raises no_ffmpeg_env 0 _
                  (one_channel no_ffmpeg_env) eq_refl eq_refl eq_refl eq_refl eq_refl)).
Defined.

(** C5 as stated fails: a second channel whose slug is that of a configured
    channel is added all the same. *)
Lemma add_channel_duplicate_counterexample :
  ~ (forall env name config app t,
       t ∈ stream_tabs app -> slug (channel_name t) = slug name ->
       stream_tabs (Supervisor.add_new_tab env (Some name) config app) = stream_tabs app).
Proof.
  intros H.
  specialize (H sample_env "channel 1" None (one_channel sample_env)
                (Tab.init sample_env "C:/ffmpeg/bin/ffmpeg.exe" "Channel 1")).
  apply (f_equal length) in H; [discriminate| |reflexivity].
  apply list_elem_of_here.
Qed.

(** C5, amended.  A channel is always added, whatever its name: the tabs
    there were are left as they are and one idle tab is appended, named as
    asked or, for want of a name, "Channel" with the new number of tabs. *)
Theorem add_channel_always_appends
  (env : Env) (name : option string) (config : option ChannelConfig) (app : App) :
  exists t,
    stream_tabs (Supervisor.add_new_tab env name config app) = stream_tabs app ++ [t]
    /\ is_streaming t = false
    /\ channel_name t
       = match name with
         | Some (String c n) => String c n
         | _ => "Channel " +:+ Py.str (Z.of_nat (length (stream_tabs app) + 1))
         end.
Proof.
  unfold Supervisor.add_new_tab. eexists. split; [reflexivity|].
  set (nm := match name with Some n => _ | None => _ end).
  assert (Hnm : nm = match name with
                     | Some (String c n) => String c n
                     | _ => "Channel " +:+ Py.str (Z.of_nat (length (stream_tabs app) + 1))
                     end).
  { subst nm. destruct name as [[|c n]|]; reflexivity. }
  rewrite <- Hnm.
  destruct (init_keeps env (path_ffmpeg app) nm) as [Hn Hs].
  destruct config as [c|].
  - destruct (load_config_keeps env (path_ffmpeg app) c (Tab.init env (path_ffmpeg app) nm))
      as [-> ->]. by rewrite Hn, Hs.
  - by rewrite Hn, Hs.
Qed.

Section Worker.
Import FFmpegWorker.


(** After the loop, the exit code of the process is reported only if the
    flag is still set. *)
Lemma run_finish_reports rc w p :
  process w = Some p ->
  snd (run_finish rc w) = if running w then [process_finished rc] else [].
Proof. unfold run_finish. by intros ->. Qed.

End Worker.

(** C9.  A stop request that the process does not answer in time, so that
    it is terminated, followed by the reading thread meeting the end of the
    stream: [stop] has emitted the terminal event with code 0 and dropped
    the process handle, and the thread, reading the handle again after its
    loop, ends in the general handler, which emits a second terminal event,
    with code -1.  The same happens when the process exits in time and the
    thread comes to read the handle after [stop] has dropped it. *)
Theorem stop_then_reader_reports_failure :
  let terminated := [FFmpegWorker.DoStop FFmpegWorker.WaitTimesOut;
                     FFmpegWorker.DoReadline "";
                     FFmpegWorker.DoFinish 1] in
  let in_time := [FFmpegWorker.DoStop (FFmpegWorker.ExitsInTime 0);
                  FFmpegWorker.DoReadline "";
                  FFmpegWorker.DoFinish 0] in
  finished_codes (snd (FFmpegWorker.trace terminated streaming_worker)) = [0; -1]
  /\ finished_codes (snd (FFmpegWorker.trace in_time streaming_worker)) = [0; -1].
Proof. split; vm_compute; reflexivity. Qed.

(** ** Saving and restoring the channels *)

Section Boxes.

Lemma add_devices_items i devs c :
  items (Tab.add_devices i devs c) = items c ++ device_items i devs.
Proof.
  revert i c. induction devs as [|d devs IH]; intros i c; cbn [Tab.add_devices device_items].
  - by rewrite app_nil_r.
  - rewrite IH. cbn. by rewrite <- app_assoc.
Qed.

Lemma add_devices_index i devs c :
  currentIndex (Tab.add_devices i devs c)
  = match currentIndex c, items c, devs with
    | None, [], _ :: _ => Some 0%nat
    | ci, _, _ => ci
    end.
Proof.
  revert i c. induction devs as [|d devs IH]; intros i c; cbn [Tab.add_devices].
  - by destruct (currentIndex c), (items c).
  - rewrite IH. cbn. destruct (currentIndex c), (items c), devs; reflexivity.
Qed.

Lemma add_devices_populated devs :
  Tab.add_devices 1 devs (Combo.clear Combo.empty) = populated devs.
Proof.
  assert (H := add_devices_items 1 devs Combo.empty).
  assert (H' := add_devices_index 1 devs Combo.empty).
  change (Combo.clear Combo.empty) with Combo.empty.
  destruct (Tab.add_devices 1 devs Combo.empty) as [it ci].
  cbn in *. unfold populated. by subst.
Qed.

Lemma device_items_lookup i devs j :
  device_items i devs !! j
  = (fun d => (Tab.device_label (i + j) d, alt d)) <$> devs !! j.
Proof.
  revert i j. induction devs as [|d devs IH]; intros i [|j]; cbn; try done.
  - by rewrite Nat.add_0_r.
  - rewrite IH. by replace (S i + j)%nat with (i + S j)%nat by lia.
Qed.

Lemma device_items_length i devs : length (device_items i devs) = length devs.
Proof. revert i. induction devs; intros i; cbn; [done|]. by rewrite IHdevs. Qed.

Lemma device_label_not_empty i d : Tab.device_label i d <> "".
Proof.
  unfold Tab.device_label. intros E. apply (f_equal String.length) in E.
  rewrite !string_length_append in E. cbn in E. lia.
Qed.

Lemma find_from_first P k l j x :
  l !! j = Some x -> P x = true ->
  (forall j' y, (j' < j)%nat -> l !! j' = Some y -> P y = false) ->
  Combo.find_from P k l = Some (k + j)%nat.
Proof.
  revert k j. induction l as [|a l IH]; intros k j Hj Hx Hfirst; [by rewrite lookup_nil in Hj|].
  cbn [Combo.find_from]. destruct j as [|j].
  - cbn in Hj. injection Hj as ->. rewrite Hx. f_equal. lia.
  - rewrite (Hfirst 0%nat a) by (done || lia). cbn in Hj.
    rewrite (IH (S k) j Hj Hx).
    + f_equal. lia.
    + intros j' y Hlt Hy. apply (Hfirst (S j') y); [lia|done].
Qed.

Lemma find_from_none P k l :
  (forall x, x ∈ l -> P x = false) -> Combo.find_from P k l = None.
Proof.
  revert k. induction l as [|a l IH]; intros k H; [done|].
  cbn. rewrite (H a) by apply list_elem_of_here. apply IH.
  intros x Hx. apply H. by apply list_elem_of_further.
Qed.

(** Filling a box that was filled from the same devices changes nothing. *)
Lemma reselect_populated devs :
  Tab.reselect (Combo.currentText (populated devs)) (populated devs) = populated devs.
Proof.
  destruct devs as [|d devs]; [reflexivity|].
  unfold Tab.reselect, Combo.findText, Combo.currentText, Combo.current. cbn.
  by rewrite String.eqb_refl.
Qed.

Lemma reselect_fresh devs :
  Tab.reselect "" (populated devs) = populated devs.
Proof.
  unfold Tab.reselect, Combo.findText. rewrite find_from_none; [done|].
  intros [text data] Hin. apply String.eqb_neq. cbn.
  apply list_elem_of_lookup_1 in Hin as [j Hj]. cbn in Hj.
  rewrite device_items_lookup in Hj.
  destruct (devs !! j); [|discriminate]. cbn in Hj. injection Hj as <- _.
  apply device_label_not_empty.
Qed.

(** The selection made again from the stored identifier. *)
Lemma select_alt_reselectable c devs :
  reselectable c devs ->
  Combo.current (Tab.select_alt (Combo.currentData c) (populated devs)) = Combo.current c.
Proof.
  unfold reselectable, Combo.currentData.
  destruct (Combo.current c) as [[text data]|].
  - intros (i & d & Hi & Ha & Hl & Hfirst). cbn [Tab.select_alt].
    assert (Hitem : items (populated devs) !! i = Some (text, data)).
    { cbn. rewrite device_items_lookup, Hi. cbn. by rewrite Hl, Ha. }
    assert (Hlen : (i < length (items (populated devs)))%nat)
      by (apply lookup_lt_is_Some; eauto).
    destruct (Py.truthy data) eqn:Ht.
    + assert (Hfind : Combo.findData data (populated devs) = Some i).
      { unfold Combo.findData.
        rewrite (find_from_first _ 0 _ i (text, data) Hitem); [done|apply String.eqb_refl|].
        intros j' [t' d'] Hlt Hy. cbn in Hy. rewrite device_items_lookup in Hy.
        destruct (devs !! j') as [e|] eqn:Ej; [|discriminate]. cbn in Hy.
        injection Hy as _ <-. cbn. apply String.eqb_neq.
        destruct Hfirst as [->|[_ Hf]]; [lia|]. by apply (Hf j' e). }
      rewrite Hfind. unfold Combo.current, Combo.setCurrentIndex. cbn [currentIndex items].
      apply Nat.ltb_lt in Hlen. rewrite Hlen. exact Hitem.
    + destruct Hfirst as [->|[Hne _]].
      * unfold Combo.current. destruct devs; [by rewrite lookup_nil in Hi|]. exact Hitem.
      * destruct data; [done|discriminate].
  - intros ->. reflexivity.
Qed.

End Boxes.

Section Labels.

Lemma after_last_app c s1 s2 :
  after_last c (s1 +:+ s2)
  = match after_last c s2 with
    | Some r => Some r
    | None => (fun r => r +:+ s2) <$> after_last c s1
    end.
Proof.
  induction s1 as [|a s1 IH].
  - change ("" +:+ s2) with s2. by destruct (after_last c s2).
  - change (String a s1 +:+ s2) with (String a (s1 +:+ s2)).
    cbn [after_last]. rewrite IH.
    destruct (after_last c s2); [done|].
    destruct (after_last c s1); [done|]. cbn.
    by destruct (Ascii.eqb a c).
Qed.

Lemma after_last_digits c d :
  (forall k, (48 <= k <= 57)%nat -> c <> ascii_of_nat k) ->
  after_last c (NilEmpty.string_of_uint d) = None.
Proof.
  intros Hc.
  assert (H0 := Hc 48%nat). assert (H1 := Hc 49%nat). assert (H2 := Hc 50%nat).
  assert (H3 := Hc 51%nat). assert (H4 := Hc 52%nat). assert (H5 := Hc 53%nat).
  assert (H6 := Hc 54%nat). assert (H7 := Hc 55%nat). assert (H8 := Hc 56%nat).
  assert (H9 := Hc 57%nat).
  induction d as [|d IH|d IH|d IH|d IH|d IH|d IH|d IH|d IH|d IH|d IH];
    cbn [NilEmpty.string_of_uint after_last]; [done|..]; rewrite IH;
    match goal with
    | |- (if Ascii.eqb ?a c then _ else _) = None =>
        destruct (Ascii.eqb_spec a c) as [E|_]; [exfalso|reflexivity]
    end.
  - apply H0; [lia|by rewrite <- E].
  - apply H1; [lia|by rewrite <- E].
  - apply H2; [lia|by rewrite <- E].
  - apply H3; [lia|by rewrite <- E].
  - apply H4; [lia|by rewrite <- E].
  - apply H5; [lia|by rewrite <- E].
  - apply H6; [lia|by rewrite <- E].
  - apply H7; [lia|by rewrite <- E].
  - apply H8; [lia|by rewrite <- E].
  - apply H9; [lia|by rewrite <- E].
Qed.

Lemma py_str_nat_digits i :
  exists d, Py.str (Z.of_nat i) = NilEmpty.string_of_uint d.
Proof.
  unfold Py.str. destruct (Z.of_nat i) as [|p|p] eqn:E; [| |lia].
  - by exists (D0 Nil).
  - exists (Pos.to_uint p). cbn. unfold NilZero.string_of_uint.
    destruct (Pos.to_uint p) eqn:Ep; [|done..].
    by destruct (Unsigned.to_uint_nonnil p).
Qed.

Lemma py_str_inj n m : Py.str n = Py.str m -> n = m.
Proof.
  unfold Py.str. intros E. apply to_int_inj.
  assert (Hn : forall z, Z.to_int z <> Pos Nil /\ Z.to_int z <> Neg Nil).
  { intros [|p|p]; cbn; split; try discriminate; intros [= H];
      by destruct (Unsigned.to_uint_nonnil p). }
  assert (H : Some (Z.to_int n) = Some (Z.to_int m)).
  { rewrite <- (NilZero.isi (Z.to_int n)) by apply Hn.
    rewrite <- (NilZero.isi (Z.to_int m)) by apply Hn. by rewrite E. }
  by injection H.
Qed.

Lemma string_app_inv_tail (s1 s2 t : string) : s1 +:+ t = s2 +:+ t -> s1 = s2.
Proof.
  revert s2. induction s1 as [|a s1 IH]; intros [|b s2] E; [done| | |].
  - exfalso. apply (f_equal String.length) in E.
    change (String b s2 +:+ t) with (String b (s2 +:+ t)) in E.
    change ("" +:+ t) with t in E. cbn in E. rewrite string_length_append in E. lia.
  - exfalso. apply (f_equal String.length) in E.
    change (String a s1 +:+ t) with (String a (s1 +:+ t)) in E.
    change ("" +:+ t) with t in E. cbn in E. rewrite string_length_append in E. lia.
  - change (String a s1 +:+ t) with (String a (s1 +:+ t)) in E.
    change (String b s2 +:+ t) with (String b (s2 +:+ t)) in E.
    injection E as -> E. f_equal. by apply IH.
Qed.

Lemma after_last_label i d :
  after_last "#" (Tab.device_label i d) = Some (Py.str (Z.of_nat i) +:+ "]").
Proof.
  unfold Tab.device_label. rewrite after_last_app.
  destruct (py_str_nat_digits i) as (u & ->).
  change ("  [#" +:+ NilEmpty.string_of_uint u +:+ "]")
    with (String " " (String " " (String "[" (String "#" (NilEmpty.string_of_uint u +:+ "]"))))).
  cbn [after_last]. rewrite after_last_app.
  rewrite after_last_digits; [reflexivity|].
  intros k Hk E. do 48 (destruct k as [|k]; [lia|]).
  do 10 (destruct k as [|k]; [discriminate E|]). lia.
Qed.

(** Two entries of a device box with different numbers have different
    texts. *)
Lemma device_label_inj i j d e : Tab.device_label i d = Tab.device_label j e -> i = j.
Proof.
  intros E. apply (f_equal (after_last "#")) in E. rewrite !after_last_label in E.
  injection E as E. apply string_app_inv_tail in E. apply py_str_inj in E. lia.
Qed.

Lemma findText_filled devs i d :
  devs !! i = Some d ->
  Combo.find_from (fun x => String.eqb (fst x) (Tab.device_label (S i) d)) 0
    (device_items 1 devs) = Some i.
Proof.
  intros Hi.
  rewrite (find_from_first _ 0 _ i (Tab.device_label (S i) d, alt d)); [done| | |].
  - rewrite device_items_lookup, Hi. reflexivity.
  - apply String.eqb_refl.
  - intros j [t a] Hlt Hj. rewrite device_items_lookup in Hj.
    destruct (devs !! j) as [e|]; [|discriminate]. cbn in Hj. injection Hj as <- _.
    cbn. apply String.eqb_neq. intros E. apply device_label_inj in E. lia.
Qed.

(** A refresh while the backend lists the devices the box was filled
    from keeps the selection. *)
Lemma reselect_filled devs c :
  filled_from devs c ->
  Combo.current (Tab.reselect (Combo.currentText c) (populated devs)) = Combo.current c.
Proof.
  intros [Hit Hidx]. unfold Combo.currentText, Combo.current at 2 3.
  destruct (currentIndex c) as [i|].
  - rewrite Hit, device_items_lookup.
    destruct (devs !! i) as [d|] eqn:Hi; [|apply lookup_ge_None in Hi; lia].
    cbn [fmap option_fmap option_map]. change (1 + i)%nat with (S i).
    unfold Tab.reselect, Combo.findText. cbn [items populated fst].
    rewrite (findText_filled devs i d Hi).
    unfold Combo.current, Combo.setCurrentIndex. cbn [currentIndex items populated].
    rewrite device_items_length. apply Nat.ltb_lt in Hidx. rewrite Hidx.
    rewrite device_items_lookup, Hi. reflexivity.
  - subst devs. reflexivity.
Qed.

Lemma refresh_keeps_device env f t :
  filled_from (fst (offered env f)) (input_video_device t) ->
  vdata (Tab.populate_devices env f t) = vdata t.
Proof.
  intros Hf. unfold Tab.populate_devices. unfold offered in Hf.
  destruct (path_exists env f); cbn [negb]; [|done].
  destruct (list_media_devices (run_list_devices env) f) as [[vd ad] out]. cbn [fst] in Hf.
  unfold vdata, Combo.currentData. cbn [input_video_device Tab.set_devices Combo.clear].
  rewrite add_devices_populated. by rewrite (reselect_filled vd _ Hf).
Qed.

End Labels.

Section Refresh.

Lemma find_from_range P k l i :
  Combo.find_from P k l = Some i -> (k <= i < k + length l)%nat.
Proof.
  revert k. induction l as [|x l IH]; intros k; cbn [Combo.find_from]; [discriminate|].
  destruct (P x).
  - intros [= <-]. cbn. lia.
  - intros H. apply IH in H. cbn. lia.
Qed.

Lemma filled_populated devs : filled_from devs (populated devs).
Proof. split; [done|]. destruct devs; cbn; [done|lia]. Qed.

Lemma filled_setCurrentIndex devs c k :
  filled_from devs c -> (k < length (items c))%nat ->
  filled_from devs (Combo.setCurrentIndex k c).
Proof.
  intros [Hit Hidx] Hk. split; [done|]. unfold Combo.setCurrentIndex. cbn [currentIndex].
  apply Nat.ltb_lt in Hk as Hk'. rewrite Hk'.
  by rewrite Hit, device_items_length in Hk.
Qed.

Lemma filled_reselect devs text c :
  filled_from devs c -> filled_from devs (Tab.reselect text c).
Proof.
  intros Hf. unfold Tab.reselect, Combo.findText.
  destruct (Combo.find_from _ 0 (items c)) as [i|] eqn:E; [|done].
  apply filled_setCurrentIndex; [done|]. apply find_from_range in E. lia.
Qed.

Lemma filled_select_alt devs stored c :
  filled_from devs c -> filled_from devs (Tab.select_alt stored c).
Proof.
  intros Hf. unfold Tab.select_alt, Combo.findData.
  destruct stored as [a|]; [|done]. destruct (Py.truthy a); [|done].
  destruct (Combo.find_from _ 0 (items c)) as [i|] eqn:E; [|done].
  apply filled_setCurrentIndex; [done|]. apply find_from_range in E. lia.
Qed.

Lemma filled_populate env f t :
  (exists devs, filled_from devs (input_video_device t)) ->
  exists devs, filled_from devs (input_video_device (Tab.populate_devices env f t)).
Proof.
  intros Hf. unfold Tab.populate_devices.
  destruct (path_exists env f); cbn [negb]; [|done].
  destruct (list_media_devices (run_list_devices env) f) as [[vd ad] out].
  exists vd. cbn [input_video_device Tab.set_devices Combo.clear].
  rewrite add_devices_populated. apply filled_reselect, filled_populated.
Qed.

Lemma filled_load_config env f c t :
  (exists devs, filled_from devs (input_video_device t)) ->
  exists devs, filled_from devs (input_video_device (Tab.load_config env f c t)).
Proof.
  intros Hf. unfold Tab.load_config. cbn [input_video_device Tab.set_devices Tab.set_settings].
  destruct (filled_populate env f t Hf) as (devs & Hd).
  exists devs. by apply filled_select_alt.
Qed.

Lemma filled_init env f n :
  exists devs, filled_from devs (input_video_device (Tab.init env f n)).
Proof. unfold Tab.init. apply filled_populate. by exists []. Qed.

Lemma boxes_filled_alter f i tabs :
  (forall t, tabs !! i = Some t ->
             (exists devs, filled_from devs (input_video_device t)) ->
             exists devs, filled_from devs (input_video_device (f t))) ->
  boxes_filled tabs -> boxes_filled (alter f i tabs).
Proof.
  intros Hf Hb. unfold boxes_filled in *. rewrite Forall_lookup in *.
  intros j t Hj. destruct (decide (i = j)) as [->|Hne].
  - rewrite list_lookup_alter_eq in Hj. destruct (tabs !! j) as [t0|] eqn:E; [|discriminate].
    cbn in Hj. injection Hj as <-. eauto.
  - rewrite list_lookup_alter_ne in Hj by done. eauto.
Qed.

Lemma boxes_filled_quiet f i tabs :
  quiet f -> boxes_filled tabs -> boxes_filled (alter f i tabs).
Proof.
  intros Hq. apply boxes_filled_alter. intros t _ Hd.
  by destruct (Hq t) as (_ & -> & _).
Qed.

Lemma step_keeps_boxes app app' :
  step app app' -> boxes_filled (stream_tabs app) -> boxes_filled (stream_tabs app').
Proof.
  intros Hstep Hb.
  destruct Hstep as [env nm config app | index confirmed app | env i t app H H0
                    | env react i t app H H0 | i s app | i a app | i k t app H H0 Hk
                    | i k t app H H0 Hk | i size fr vb ab t app H H0 | i b app
                    | env i app | p app H].
  - unfold Supervisor.add_new_tab. cbn. apply Forall_app. split; [done|].
    constructor; [|constructor].
    destruct config as [c|]; [apply filled_load_config|]; apply filled_init.
  - unfold Supervisor.remove_current_tab. destruct index as [i|]; [|done].
    destruct (stream_tabs app !! i) as [t|]; [|done].
    destruct (is_streaming t); [done|]. destruct confirmed; [|done].
    cbn. by apply Forall_delete.
  - destruct (start_stream_tabs env i t app H) as [(_ & f & Hq & _ & ->)|(_ & _ & f & Hf & ->)].
    + by apply boxes_filled_quiet.
    + apply boxes_filled_alter; [|done]. intros t0 _ Hd.
      by destruct (Hf t0) as (_ & -> & _).
  - unfold Supervisor.stop_stream. rewrite check_keeps. cbn.
    apply boxes_filled_quiet; [apply quiet_stop_tab|done].
  - cbn. apply boxes_filled_quiet; [apply quiet_deliver|done].
  - cbn. apply boxes_filled_quiet; [apply quiet_worker_act|done].
  - cbn. apply boxes_filled_alter; [|done]. intros t0 Ht0 (devs & Hd).
    rewrite H in Ht0. injection Ht0 as <-. exists devs.
    by apply filled_setCurrentIndex.
  - cbn. by apply boxes_filled_quiet.
  - cbn. by apply boxes_filled_quiet.
  - cbn. by apply boxes_filled_quiet.
  - cbn. apply boxes_filled_alter; [|done]. intros t0 _ Hd. by apply filled_populate.
  - done.
Qed.

Lemma reachable_boxes_filled app : reachable app -> boxes_filled (stream_tabs app).
Proof.
  intros (f & n & h & Hrun).
  refine (rtc_ind_r (fun a => boxes_filled (stream_tabs a)) _ _ _ app Hrun).
  - by constructor.
  - intros y z _ Hstep IH. by apply (step_keeps_boxes y z).
Qed.

(** In a state the program can reach, a refresh of the devices of a tab
    keeps the video device of the tab whenever the backend lists the devices
    that its box was last filled from. *)
Lemma refresh_stable app i t :
  reachable app -> stream_tabs app !! i = Some t ->
  exists devs,
    filled_from devs (input_video_device t) /\
    forall env, fst (offered env (path_ffmpeg app)) = devs ->
                vdata (Tab.populate_devices env (path_ffmpeg app) t) = vdata t.
Proof.
  intros Hr Hi. apply reachable_boxes_filled in Hr.
  unfold boxes_filled in Hr. rewrite Forall_lookup in Hr.
  destruct (Hr i t Hi) as (devs & Hd). exists devs. split; [done|].
  intros env <-. by apply refresh_keeps_device.
Qed.

End Refresh.


Section Restoring.

Lemma populate_fresh env f (t : StreamTab) :
  input_video_device t = Combo.empty -> input_audio_device t = Combo.empty ->
  Tab.populate_devices env f t
  = Tab.set_devices (populated (fst (offered env f))) (populated (snd (offered env f))) t.
Proof.
  intros Hv Ha. unfold Tab.populate_devices, offered.
  destruct (path_exists env f); cbn [negb].
  - destruct (list_media_devices (run_list_devices env) f) as [[vd ad] out]. cbn [fst snd].
    rewrite Hv, Ha, !add_devices_populated.
    change (Combo.currentText Combo.empty) with "". by rewrite !reselect_fresh.
  - destruct t; cbn in *; by subst.
Qed.

Lemma populate_again env f (t : StreamTab) :
  input_video_device t = populated (fst (offered env f)) ->
  input_audio_device t = populated (snd (offered env f)) ->
  Tab.populate_devices env f t = t.
Proof.
  intros Hv Ha. unfold Tab.populate_devices. unfold offered in Hv, Ha.
  destruct (path_exists env f); cbn [negb]; [|done].
  destruct (list_media_devices (run_list_devices env) f) as [[vd ad] out]. cbn [fst snd] in *.
  rewrite Hv, Ha. cbn [Combo.clear]. rewrite !add_devices_populated, !reselect_populated.
  destruct t; cbn in *; by subst.
Qed.

(** The tab restored from the configuration of [t]. *)
Lemma restore_tab_eq env f t :
  restore_tab env f t
  = {| channel_name := channel_name t; ffmpeg_worker := None; is_streaming := false;
       input_video_device := Tab.select_alt (vdata t) (populated (fst (offered env f)));
       input_audio_device := Tab.select_alt (adata t) (populated (snd (offered env f)));
       input_video_size := input_video_size t;
       input_framerate := input_framerate t;
       input_video_bitrate := input_video_bitrate t;
       input_audio_bitrate := input_audio_bitrate t;
       cb_auto_start := cb_auto_start t; log_view := [] |}.
Proof.
  unfold restore_tab, Tab.init.
  rewrite (populate_fresh env f (Build_StreamTab _ _ _ _ _ _ _ _ _ _ _)) by done.
  unfold Tab.load_config. rewrite populate_again by done. reflexivity.
Qed.

Lemma load_streams_tabs env (l : list StreamTab) app :
  named l ->
  fold_left (fun app stream_conf =>
               Supervisor.add_new_tab env (cfg_channel_name stream_conf) (Some stream_conf) app)
    (map Tab.get_config l) app
  = Supervisor.set_tabs (stream_tabs app ++ map (restore_tab env (path_ffmpeg app)) l) app.
Proof.
  intros Hn. revert app. induction Hn as [|t l Ht _ IH]; intros app.
  - cbn. rewrite app_nil_r. by destruct app.
  - cbn [map fold_left]. rewrite IH. unfold Supervisor.add_new_tab at 1 2.
    cbn [cfg_channel_name Tab.get_config path_ffmpeg Supervisor.set_tabs stream_tabs].
    assert (Htr : Py.truthy (channel_name t) = true)
      by (destruct (channel_name t); [done|reflexivity]).
    rewrite Htr. fold (restore_tab env (path_ffmpeg app) t).
    unfold Supervisor.set_tabs. cbn. by rewrite <- app_assoc.
Qed.

Lemma restore_tabs env f n h app :
  stream_tabs app <> [] -> named (stream_tabs app) ->
  stream_tabs (restore env f n h (Supervisor.snapshot app))
  = map (restore_tab env f) (stream_tabs app).
Proof.
  intros Hne Hn. unfold restore, Supervisor.load_streams, Supervisor.snapshot.
  destruct (stream_tabs app) as [|t l] eqn:E; [done|].
  change (Tab.get_config t :: map Tab.get_config l) with (map Tab.get_config (t :: l)).
  by rewrite load_streams_tabs.
Qed.

End Restoring.

(** C6 as stated fails, in two ways: restoring the snapshot of a supervisor
    without channels creates the channel "Channel 1"; and a channel saved
    with a camera selected comes back without it when the backend no longer
    lists that camera. *)
Lemma restore_fidelity_counterexample :
  ~ (forall env f n h app,
       reachable app ->
       Supervisor.snapshot (restore env f n h (Supervisor.snapshot app))
       = Supervisor.snapshot app)
  /\ ~ (forall env f n h app,
          reachable app -> stream_tabs app <> [] ->
          Supervisor.snapshot (restore env f n h (Supervisor.snapshot app))
          = Supervisor.snapshot app).
Proof.
  split; intros H.
  - specialize (H sample_env "C:/ffmpeg/bin/ffmpeg.exe" "C:/nginx" "C:/hls"
                  fresh_app).
    discriminate H. eexists _, _, _. apply rtc_refl.
  - specialize (H sample_env "C:/ffmpeg/bin/ffmpeg.exe" "C:/nginx" "C:/hls"
                  (one_channel camera_env)).
    assert (Hr : reachable (one_channel camera_env)).
    { eexists _, _, _. eapply rtc_l; [apply step_add|apply rtc_refl]. }
    specialize (H Hr). vm_compute in H. discriminate H. discriminate.
Qed.

(** C6, amended.  Whatever the channels, all named, the channels restored
    from their snapshot into a fresh supervisor do not stream.  If there is
    at least one channel, the restored ones are as many, in the same order,
    with the same name, frame size, frame rate, bit rates and
    start-on-launch flag; the identifiers and labels of the devices are the
    same as well when the devices selected in the channels are offered by
    the backend at the time of the restore.  If there is no channel, the
    restore makes the one channel "Channel 1". *)
Theorem restore_fidelity
  (env : Env) (ffmpeg nginx hls : string) (app : App) :
  named (stream_tabs app) ->
  let app' := restore env ffmpeg nginx hls (Supervisor.snapshot app) in
  Forall (fun t => is_streaming t = false) (stream_tabs app')
  /\ (stream_tabs app = [] -> map channel_name (stream_tabs app') = ["Channel 1"])
  /\ (stream_tabs app <> [] ->
      map own_fields (Supervisor.snapshot app') = map own_fields (Supervisor.snapshot app)
      /\ (Forall (devices_offered env ffmpeg) (stream_tabs app) ->
          Supervisor.snapshot app' = Supervisor.snapshot app)).
Proof.
  intros Hn app'. subst app'. split; [|split].
  - destruct (stream_tabs app) as [|t0 l] eqn:E.
    + unfold restore, Supervisor.snapshot. rewrite E. cbn [map Supervisor.load_streams].
      destruct (add_new_tab_tabs env (Some "Channel 1") None
                  (Supervisor.init ffmpeg nginx hls)) as (t & -> & Hs & _).
      cbn. by repeat constructor.
    + rewrite (restore_tabs env ffmpeg nginx hls app) by (by rewrite ?E).
      apply Forall_map. apply Forall_forall. intros t _. by rewrite restore_tab_eq.
  - intros E. unfold restore, Supervisor.snapshot. rewrite E.
    cbn [map Supervisor.load_streams].
    unfold Supervisor.add_new_tab. cbn.
    by destruct (init_keeps env ffmpeg "Channel 1") as [-> _].
  - intros Hne. assert (Htabs := restore_tabs env ffmpeg nginx hls app Hne Hn).
    unfold Supervisor.snapshot in *. rewrite Htabs, !map_map. split.
    + apply map_ext. intros t. by rewrite restore_tab_eq.
    + intros Hoff. apply map_ext_in. intros t Hin.
      rewrite Forall_forall in Hoff. destruct (Hoff t) as [Hv Ha].
      { by apply list_elem_of_In. }
      rewrite restore_tab_eq. unfold Tab.get_config. cbn.
      unfold Combo.currentData, Combo.currentText.
      unfold vdata, adata.
      rewrite (select_alt_reselectable _ _ Hv), (select_alt_reselectable _ _ Ha).
      reflexivity.
Qed.

Lemma restore_fidelity_witness :
  Supervisor.snapshot
    (restore camera_env "C:/ffmpeg/bin/ffmpeg.exe" "C:/nginx" "C:/hls"
       (Supervisor.snapshot (one_channel camera_env)))
  = Supervisor.snapshot (one_channel camera_env).
Proof.
  refine (proj2 (proj2 (proj2 (restore_fidelity camera_env "C:/ffmpeg/bin/ffmpeg.exe"
                                 "C:/nginx" "C:/hls" (one_channel camera_env) _)) _) _).
  - repeat constructor. discriminate.
  - discriminate.
  - repeat constructor.
    + exists 0%nat, {| name := "USB Camera"; alt := "@device_pnp_cam" |}.
      vm_compute. auto.
    + exists 0%nat, {| name := "Microphone"; alt := "Microphone" |}.
      vm_compute. auto.
Defined.

(** * Further properties of the code *)

(** ** The device listing *)

Section Listing.

Lemma set_last_alt_names a l l' : set_last_alt a l = Ok l' -> names l' = names l.
Proof.
  revert l'. induction l as [|d l IH]; intros l'; [discriminate|].
  cbn [set_last_alt]. destruct l as [|e l].
  - intros [= <-]. reflexivity.
  - destruct (set_last_alt a (e :: l)) as [r|]; [|discriminate].
    intros [= <-]. unfold names in *. cbn [map]. f_equal. by apply IH.
Qed.

Lemma set_last_alt_length a l l' : set_last_alt a l = Ok l' -> length l' = length l.
Proof.
  intros H. apply set_last_alt_names in H. apply (f_equal length) in H.
  unfold names in H. by rewrite !length_map in H.
Qed.

(** What one line does to the names and to the number of the records. *)
Lemma process_line_grows line st st' k :
  process_line line st = Ok st' ->
  (exists extra, names (devices_of k st') = names (devices_of k st) ++ extra) /\
  (length (video_devices st') + length (audio_devices st')
   <= length (video_devices st) + length (audio_devices st)
      + (if may_open line then 1 else 0))%nat.
Proof.
  unfold process_line, may_open, has_quote, is_header.
  destruct (Py.contains "DirectShow video devices" line);
    [intros [= <-]; split; [exists []; by rewrite app_nil_r|cbn; lia]|].
  destruct (Py.contains "DirectShow audio devices" line);
    [intros [= <-]; split; [exists []; by rewrite app_nil_r|cbn; lia]|].
  cbn [orb negb andb].
  assert (Hsame : Ok st = Ok st' ->
            (exists extra, names (devices_of k st') = names (devices_of k st) ++ extra) /\
            (length (video_devices st') + length (audio_devices st')
             <= length (video_devices st) + length (audio_devices st)
                + (if Py.contains (String dq "") line && true then 1 else 0))%nat).
  { intros [= <-]. split; [exists []; by rewrite app_nil_r|lia]. }
  destruct (Py.contains "Alternative name" line && last_truthy st).
  - destruct (Py.contains (String dq "") line); [|done].
    destruct (2 <=? length (Py.split dq line))%nat; [|done].
    destruct (Py.split dq line !! 1%nat) as [a|]; [|discriminate].
    destruct (last_device_list st) as [k'|]; [|done].
    destruct (last_truthy st); [|done].
    destruct (set_last_alt a (devices_of k' st)) as [l|] eqn:E; [|discriminate].
    intros [= <-]. split.
    + exists []. rewrite app_nil_r. apply set_last_alt_names in E.
      by destruct k, k'.
    + apply set_last_alt_length in E. destruct k'; cbn in *; lia.
  - destruct (Py.contains (String dq "") line); [|done].
    destruct (2 <=? length (Py.split dq line))%nat; [|done].
    destruct (Py.split dq line !! 1%nat) as [n|]; [|done].
    destruct (if Py.contains "(video)" line then _ else _) as [k'|]; [|done].
    intros [= <-]. split.
    + unfold names. destruct k, k'; cbn; rewrite ?map_app; eauto; exists []; by rewrite app_nil_r.
    + destruct k'; cbn; rewrite length_app; cbn; lia.
Qed.

End Listing.

(** X1.  Whatever the text, the records of a list are never dropped or
    renamed while the listing is read: the names of the records there were
    are a prefix of the names at the end. *)
Theorem parse_keeps_records (lines : list string) (st : ParseState) (k : DeviceKind) :
  exists extra,
    names (devices_of k (fst (parse_lines lines st))) = names (devices_of k st) ++ extra.
Proof.
  revert st. induction lines as [|l ls IH]; intros st; cbn [parse_lines].
  - exists []. by rewrite app_nil_r.
  - destruct (process_line l st) as [st'|e] eqn:E.
    + destruct (proj1 (process_line_grows l st st' k E)) as (x1 & H1).
      destruct (IH st') as (x2 & H2). exists (x1 ++ x2). by rewrite H2, H1, app_assoc.
    + exists []. by rewrite app_nil_r.
Qed.

(** X2.  The listing yields at most one device for each quoted line that is
    not a section header. *)
Theorem parse_count_bound (lines : list string) (st : ParseState) :
  (length (video_devices (fst (parse_lines lines st)))
   + length (audio_devices (fst (parse_lines lines st)))
   <= length (video_devices st) + length (audio_devices st)
      + length (filter (fun l => may_open l = true) lines))%nat.
Proof.
  revert st. induction lines as [|l ls IH]; intros st; cbn [parse_lines].
  - cbn. lia.
  - rewrite filter_cons. destruct (process_line l st) as [st'|e] eqn:E; [|cbn; lia].
    assert (H := proj2 (process_line_grows l st st' Video E)).
    specialize (IH st'). destruct (may_open l).
    + rewrite decide_True by done. cbn [length]. lia.
    + rewrite decide_False by done. lia.
Qed.

(** X3.  An alternative-name line that comes when the list in hand is
    empty or absent (right after a section header, say) is not skipped: it
    is read as a device-name line and opens a record named by its quoted
    field. *)
Theorem stray_alternative_line_opens_record
  (st : ParseState) (k : DeviceKind) (line : string) :
  current_device_type st = Some k ->
  last_truthy st = false ->
  alternative_line line = true ->
  process_line line st
  = Ok (opened (target_of line k)
          {| name := quoted_field line; alt := quoted_field line |} st).
Proof.
  intros Hk Ht Hd. unfold alternative_line, is_header, has_quote in Hd.
  apply andb_true_iff in Hd as [Hd Hna]. apply andb_true_iff in Hd as [Hq Hh].
  apply negb_true_iff in Hh. apply orb_false_iff in Hh as [Hv Ha].
  unfold process_line. rewrite Hv, Ha, Hna, Ht, Hq. cbn [andb].
  unfold quoted_field, target_of.
  destruct (split_two _ _ Hq) as (p & q & ps & ->). cbn. rewrite Hk.
  destruct (Py.contains "(video)" line); [reflexivity|].
  destruct (Py.contains "(audio)" line); reflexivity.
Qed.

Lemma stray_alternative_line_opens_record_witness :
  fst (parse_lines [sample_alt_line] sample_section)
  = opened Video {| name := "@device_pnp_cam"; alt := "@device_pnp_cam" |} sample_section.
Proof.
  cbn [parse_lines].
  rewrite (stray_alternative_line_opens_record sample_section Video sample_alt_line
             eq_refl eq_refl eq_refl).
  reflexivity.
Defined.

(** X4.  Outside any section, a quoted line that carries neither "(video)"
    nor "(audio)" opens no record, and the list in hand stays the one of the
    device before: an alternative-name line that follows then replaces the
    identifier of that earlier device. *)
Theorem unclassified_line_misattributes
  (st : ParseState) (k : DeviceKind) (l : list Device) (d : Device) (l1 l2 : string) :
  current_device_type st = None ->
  last_device_list st = Some k ->
  devices_of k st = l ++ [d] ->
  device_line l1 = true ->
  Py.contains "(video)" l1 = false ->
  Py.contains "(audio)" l1 = false ->
  alternative_line l2 = true ->
  parse_lines [l1] st = (st, None)
  /\ parse_lines [l1; l2] st
     = (with_devices k (l ++ [{| name := name d; alt := quoted_field l2 |}]) st, None).
Proof.
  intros Hc Hl Hd H1 Hv1 Ha1 H2.
  assert (E1 : process_line l1 st = Ok st).
  { unfold device_line, is_header, has_quote in H1.
    apply andb_true_iff in H1 as [H1 Hna]. apply andb_true_iff in H1 as [Hq Hh].
    apply negb_true_iff in Hna, Hh. apply orb_false_iff in Hh as [Hv Ha].
    unfold process_line. rewrite Hv, Ha, Hna, Hq. cbn [andb].
    destruct (split_two _ _ Hq) as (p & q & ps & ->). cbn.
    by rewrite Hv1, Ha1, Hc. }
  assert (E2 : process_line l2 st
               = Ok (with_devices k (l ++ [{| name := name d; alt := quoted_field l2 |}]) st)).
  { unfold alternative_line, is_header, has_quote in H2.
    apply andb_true_iff in H2 as [H2 Hna]. apply andb_true_iff in H2 as [Hq Hh].
    apply negb_true_iff in Hh. apply orb_false_iff in Hh as [Hv Ha].
    assert (Ht : last_truthy st = true).
    { unfold last_truthy. rewrite Hl, Hd. by destruct l. }
    unfold process_line. rewrite Hv, Ha, Hna, Ht, Hq. cbn [andb].
    unfold quoted_field.
    destruct (split_two _ _ Hq) as (p & q & ps & ->). cbn.
    rewrite Hl, Hd, set_last_alt_snoc. reflexivity. }
  cbn [parse_lines]. rewrite E1, E2. done.
Qed.

Lemma unclassified_line_misattributes_witness :
  parse_lines [sample_plain_line; sample_alt_line] sample_tagged
  = (with_devices Video [{| name := "USB Camera"; alt := "@device_pnp_cam" |}] sample_tagged,
     None).
Proof.
  exact (proj2 (unclassified_line_misattributes sample_tagged Video []
                  {| name := "USB Camera"; alt := "USB Camera" |}
                  sample_plain_line sample_alt_line
                  eq_refl eq_refl eq_refl eq_refl eq_refl eq_refl eq_refl)).
Defined.

(** X5.  The text of the backend is handed back as it is whenever the
    backend has run, and when it could not be run both lists are empty and
    the text returned is a message that is not empty. *)
Theorem list_media_devices_soft (run : string -> RunResult) (ffmpeg_path : string) :
  match run ffmpeg_path with
  | Completed output =>
      list_media_devices run ffmpeg_path
      = (video_devices (fst (parse_lines (Py.splitlines output) parse_init)),
         audio_devices (fst (parse_lines (Py.splitlines output) parse_init)),
         output)
  | _ =>
      exists message,
        list_media_devices run ffmpeg_path = ([], [], message) /\ message <> ""
  end.
Proof.
  unfold list_media_devices. destruct (run ffmpeg_path) as [output| |e].
  - assert (H := parse_lines_no_exception (Py.splitlines output) parse_init).
    destruct (parse_lines (Py.splitlines output) parse_init) as [st exn].
    cbn in H. by subst.
  - eexists. split; [reflexivity|discriminate].
  - eexists. split; [reflexivity|discriminate].
Qed.

(** ** The worker *)

Section Schedules.
Import FFmpegWorker.

Lemma trace_app acts1 acts2 w :
  trace (acts1 ++ acts2) w
  = (fst (trace acts2 (fst (trace acts1 w))),
     snd (trace acts1 w) ++ snd (trace acts2 (fst (trace acts1 w)))).
Proof.
  revert w. induction acts1 as [|a acts1 IH]; intros w; cbn [app trace].
  - cbn. by destruct (trace acts2 w).
  - destruct (act a w) as [w1 s1]. rewrite IH.
    destruct (trace acts1 w1) as [w2 s2]. cbn [fst snd].
    destruct (trace acts2 w2) as [w3 s3]. cbn. by rewrite app_assoc.
Qed.

(** While the flag is set, the loop emits each line read, trimmed. *)
Lemma trace_reading lines w :
  running w = true -> pc w = Reading ->
  Forall (fun l => l <> "") lines ->
  trace (map DoReadline lines) w = (w, map (fun l => log_message (Py.strip l)) lines).
Proof.
  intros Hr Hp Hl. induction Hl as [|l ls Hne _ IH]; [done|].
  cbn [map trace]. unfold act, enabled. rewrite Hp. cbn [run_readline].
  unfold run_readline. destruct l; [done|]. rewrite Hr. cbn [negb]. by rewrite IH.
Qed.




Lemma natural_run_trace cmd lines rc :
  Forall (fun l => l <> "") lines ->
  exists w,
    FFmpegWorker.trace (natural_run lines rc) (FFmpegWorker.init cmd)
    = (w, map (fun l => FFmpegWorker.log_message (Py.strip l)) lines
          ++ [FFmpegWorker.process_finished rc])
    /\ FFmpegWorker.running w = false
    /\ FFmpegWorker.pc w = FFmpegWorker.Returned.
Proof.
  intros Hl. unfold natural_run. cbn [FFmpegWorker.trace].
  unfold FFmpegWorker.act at 1.
  cbn [FFmpegWorker.enabled FFmpegWorker.init FFmpegWorker.pc FFmpegWorker.run_begin].
  rewrite trace_app. rewrite trace_reading by done. cbn. eauto.
Qed.

End Schedules.

(** X6.  Left alone, the worker emits the lines of the encoder, trimmed and
    in order, and then one terminal event, with the exit code of the
    process; it ends with its flag cleared. *)
Theorem natural_run_reports_exit_code (cmd lines : list string) (rc : Z) :
  Forall (fun l => l <> "") lines ->
  let r := FFmpegWorker.trace (natural_run lines rc) (FFmpegWorker.init cmd) in
  snd r = map (fun l => FFmpegWorker.log_message (Py.strip l)) lines
          ++ [FFmpegWorker.process_finished rc]
  /\ FFmpegWorker.running (fst r) = false
  /\ FFmpegWorker.pc (fst r) = FFmpegWorker.Returned.
Proof.
  intros Hl r. subst r.
  destruct (natural_run_trace cmd lines rc Hl) as (w & -> & Hr & Hp). done.
Qed.

Lemma natural_run_reports_exit_code_witness :
  finished_codes
    (snd (FFmpegWorker.trace (natural_run ["frame=1 "; "frame=2 "] 3)
            (FFmpegWorker.init ["ffmpeg.exe"]))) = [3].
Proof.
  rewrite (proj1 (natural_run_reports_exit_code ["ffmpeg.exe"] ["frame=1 "; "frame=2 "] 3
                    ltac:(repeat constructor; discriminate))).
  reflexivity.
Defined.



(** X8.  A second [stop] changes nothing and emits the terminal event with
    code 0 alone, without any log line. *)
Theorem stop_twice
  (r1 r2 : FFmpegWorker.StopReaction) (w : FFmpegWorker.Worker) :
  FFmpegWorker.stop r2 (fst (FFmpegWorker.stop r1 w))
  = (fst (FFmpegWorker.stop r1 w), [FFmpegWorker.process_finished 0]).
Proof.
  unfold FFmpegWorker.stop at 2 3.
  destruct (match FFmpegWorker.process w with Some _ => _ | None => _ end) eqn:E.
  - reflexivity.
  - unfold FFmpegWorker.stop. cbn. rewrite E. reflexivity.
Qed.

(** X9.  A [stop] that comes before the thread has launched the process
    stops nothing: it emits its terminal event with code 0, and the thread
    then sets the flag again, launches the encoder and runs as if left
    alone, down to the report of the exit code. *)
Theorem stop_before_launch_is_lost
  (react : FFmpegWorker.StopReaction) (cmd lines : list string) (rc : Z) :
  Forall (fun l => l <> "") lines ->
  snd (FFmpegWorker.trace (FFmpegWorker.DoStop react :: natural_run lines rc)
         (FFmpegWorker.init cmd))
  = FFmpegWorker.process_finished 0
    :: map (fun l => FFmpegWorker.log_message (Py.strip l)) lines
    ++ [FFmpegWorker.process_finished rc].
Proof.
  intros Hl. cbn [FFmpegWorker.trace].
  change (FFmpegWorker.act (FFmpegWorker.DoStop react) (FFmpegWorker.init cmd))
    with (FFmpegWorker.init cmd, [FFmpegWorker.process_finished 0]).
  cbn iota. by destruct (natural_run_trace cmd lines rc Hl) as (w & -> & _).
Qed.

Lemma stop_before_launch_is_lost_witness :
  finished_codes
    (snd (FFmpegWorker.trace
            (FFmpegWorker.DoStop FFmpegWorker.WaitTimesOut :: natural_run ["frame=1"] 0)
            (FFmpegWorker.init ["ffmpeg.exe"]))) = [0; 0].
Proof.
  rewrite (stop_before_launch_is_lost FFmpegWorker.WaitTimesOut ["ffmpeg.exe"] ["frame=1"] 0
             ltac:(repeat constructor; discriminate)).
  reflexivity.
Defined.

(** ** Slugs, labels and the device boxes *)

Section Slugs.

Lemma lower_char_idem c : Py.lower_char (Py.lower_char c) = Py.lower_char c.
Proof. destruct c as [[] [] [] [] [] [] [] []]; reflexivity. Qed.

Lemma lower_char_space c : Ascii.eqb (Py.lower_char c) " " = Ascii.eqb c " ".
Proof. destruct c as [[] [] [] [] [] [] [] []]; reflexivity. Qed.

Lemma lower_idem s : Py.lower (Py.lower s) = Py.lower s.
Proof. induction s as [|c s IH]; cbn; [done|]. by rewrite lower_char_idem, IH. Qed.

Lemma remove_char_idem c s : Py.remove_char c (Py.remove_char c s) = Py.remove_char c s.
Proof.
  induction s as [|a s IH]; cbn; [done|].
  destruct (Ascii.eqb a c) eqn:E; [done|]. cbn. by rewrite E, IH.
Qed.

Lemma remove_space_lower s :
  Py.remove_char " " (Py.lower s) = Py.lower (Py.remove_char " " s).
Proof.
  induction s as [|a s IH]; cbn; [done|].
  rewrite lower_char_space. destruct (Ascii.eqb a " "); [done|]. cbn. by rewrite IH.
Qed.

End Slugs.

(** X10.  The slug of a channel name, which names its directory and its
    playback address, has no space and no capital letter left, and names
    that differ only by spaces or by the case of their letters have the same
    slug. *)
Theorem slug_normal_form (channel_name : string) :
  Py.remove_char " " (slug channel_name) = slug channel_name
  /\ Py.lower (slug channel_name) = slug channel_name
  /\ slug (slug channel_name) = slug channel_name
  /\ slug (Py.lower channel_name) = slug channel_name
  /\ slug (Py.remove_char " " channel_name) = slug channel_name.
Proof.
  unfold slug. repeat split.
  - by rewrite remove_space_lower, remove_char_idem.
  - apply lower_idem.
  - by rewrite remove_space_lower, remove_char_idem, lower_idem.
  - by rewrite remove_space_lower, lower_idem.
  - by rewrite remove_char_idem.
Qed.

Section Distinct.

Lemma device_items_nodup (i : nat) (devs : list Device) :
  NoDup (map fst (device_items i devs)).
Proof.
  apply NoDup_alt. intros a b x Ha Hb.
  rewrite list_lookup_fmap, device_items_lookup in Ha, Hb.
  destruct (devs !! a) as [d|]; [|discriminate].
  destruct (devs !! b) as [e|]; [|discriminate].
  cbn in Ha, Hb. injection Ha as <-. injection Hb as Hb.
  apply device_label_inj in Hb. lia.
Qed.

End Distinct.

(** X11.  The entries that [populate_devices] puts into a device box all
    show different texts, even when two devices have the same name: the
    number in the label tells them apart, so a selection restored by its
    text is the entry that was selected. *)
Theorem device_labels_distinct (devs : list Device) (c : ComboBox) :
  NoDup (map fst (items (Tab.add_devices 1 devs (Combo.clear c))))
  /\ length (items (Tab.add_devices 1 devs (Combo.clear c))) = length devs.
Proof.
  change (Combo.clear c) with (Combo.clear Combo.empty).
  rewrite add_devices_populated. cbn [items populated].
  split; [apply device_items_nodup|apply device_items_length].
Qed.

Section Populate.

Lemma reselect_filled_eq devs c :
  filled_from devs c -> Tab.reselect (Combo.currentText c) (populated devs) = c.
Proof.
  intros [Hit Hidx]. unfold Combo.currentText, Combo.current.
  destruct c as [it ci]. cbn [items currentIndex] in *. subst it.
  destruct ci as [i|].
  - rewrite device_items_lookup.
    destruct (devs !! i) as [d|] eqn:Hi; [|apply lookup_ge_None in Hi; lia].
    cbn [fmap option_fmap option_map]. change (1 + i)%nat with (S i).
    unfold Tab.reselect, Combo.findText. cbn [items populated fst].
    rewrite (findText_filled devs i d Hi).
    unfold Combo.setCurrentIndex. cbn [currentIndex items populated].
    rewrite device_items_length. apply Nat.ltb_lt in Hidx. by rewrite Hidx.
  - subst devs. reflexivity.
Qed.

End Populate.

(** X12.  Refreshing the devices twice in a row, the backend listing the
    same devices, is the same as refreshing once: the second refresh finds
    the selections of both boxes again. *)
Theorem populate_devices_idempotent (env : Env) (ffmpeg_path : string) (t : StreamTab) :
  Tab.populate_devices env ffmpeg_path (Tab.populate_devices env ffmpeg_path t)
  = Tab.populate_devices env ffmpeg_path t.
Proof.
  unfold Tab.populate_devices.
  destruct (path_exists env ffmpeg_path); cbn [negb]; [|done].
  destruct (list_media_devices (run_list_devices env) ffmpeg_path) as [[vd ad] out].
  cbn [input_video_device input_audio_device Tab.set_devices Combo.clear].
  rewrite !add_devices_populated.
  rewrite (reselect_filled_eq vd) by apply filled_reselect, filled_populated.
  rewrite (reselect_filled_eq ad) by apply filled_reselect, filled_populated.
  reflexivity.
Qed.

(** ** The media server *)

Section Serving.

Lemma existsb_lookup (tabs : list StreamTab) :
  existsb is_streaming tabs = true <->
  exists j t, tabs !! j = Some t /\ is_streaming t = true.
Proof.
  rewrite existsb_exists. split.
  - intros (t & Hin & Hs). apply list_elem_of_In, list_elem_of_lookup_1 in Hin as [j Hj]. eauto.
  - intros (j & t & Hj & Hs). exists t. split; [|done].
    apply list_elem_of_In. by apply list_elem_of_lookup_2 with j.
Qed.

Lemma existsb_alter f i (tabs : list StreamTab) :
  (forall t, is_streaming (f t) = true -> is_streaming t = true) ->
  existsb is_streaming (alter f i tabs) = true -> existsb is_streaming tabs = true.
Proof.
  intros Hf. rewrite !existsb_lookup. intros (j & t & Hj & Hs).
  destruct (decide (i = j)) as [->|Hne].
  - rewrite list_lookup_alter_eq in Hj. destruct (tabs !! j) as [t0|] eqn:E; [|discriminate].
    cbn in Hj. injection Hj as <-. exists j, t0. auto.
  - rewrite list_lookup_alter_ne in Hj by done. eauto.
Qed.

Lemma existsb_quiet f i (tabs : list StreamTab) :
  quiet f ->
  existsb is_streaming (alter f i tabs) = true -> existsb is_streaming tabs = true.
Proof. intros Hq. apply existsb_alter. intros t. apply Hq. Qed.

Lemma existsb_delete i (tabs : list StreamTab) :
  existsb is_streaming (delete i tabs) = true -> existsb is_streaming tabs = true.
Proof.
  rewrite !existsb_lookup. intros (j & t & Hj & Hs).
  destruct (decide (j < i)%nat).
  - rewrite list_lookup_delete_lt in Hj by done. eauto.
  - rewrite list_lookup_delete_ge in Hj by lia. eauto.
Qed.

Lemma ensure_server env app :
  (nginx_process app <> None ->
   nginx_process (fst (Supervisor.ensure_nginx_running env app)) <> None).
Proof.
  unfold Supervisor.ensure_nginx_running.
  destruct (Supervisor.nginx_alive app); [done|].
  destruct (negb _); [done|].
  destruct (taskkill_nginx env); [done|].
  by destruct (popen_nginx env _ _).
Qed.

Lemma alive_server app : Supervisor.nginx_alive app = true -> nginx_process app <> None.
Proof. unfold Supervisor.nginx_alive. by destruct (nginx_process app). Qed.

(** The server handle after [start_stream] is the one [ensure_nginx_running]
    leaves. *)
Lemma start_stream_nginx env i t app :
  stream_tabs app !! i = Some t ->
  nginx_process (fst (Supervisor.start_stream env i app))
  = nginx_process (fst (Supervisor.ensure_nginx_running env app))
  /\ (snd (Supervisor.start_stream env i app) <> NginxUnavailable <->
      snd (Supervisor.ensure_nginx_running env app) = true).
Proof.
  intros Hi. unfold Supervisor.start_stream. rewrite Hi.
  destruct (Supervisor.ensure_nginx_running env app) as [app1 ok]. cbn [fst snd].
  destruct ok; cbn [negb]; [|by split; [|split]].
  destruct (Supervisor.used_in_truthy _); [by split; [|split]|].
  destruct (makedirs env _); [by split; [|split]|].
  destruct (Tab.build_ffmpeg_command _ _ _ _) as [[|c cmd]|e]; by split; [|split].
Qed.

Lemma step_serves app app' :
  step app app' ->
  (existsb is_streaming (stream_tabs app) = true -> nginx_process app <> None) ->
  existsb is_streaming (stream_tabs app') = true -> nginx_process app' <> None.
Proof.
  intros Hstep IH.
  destruct Hstep as [env nm config app | index confirmed app | env i t app H H0
                    | env react i t app H H0 | i s app | i a app | i k t app H H0 Hk
                    | i k t app H H0 Hk | i size fr vb ab t app H H0 | i b app
                    | env i app | p app H].
  - destruct (add_new_tab_tabs env nm config app) as (t & Ht & Hs & _).
    rewrite Ht, existsb_app. cbn. rewrite Hs, !orb_false_r. exact IH.
  - unfold Supervisor.remove_current_tab. destruct index as [i|]; [|done].
    destruct (stream_tabs app !! i) as [t|]; [|done].
    destruct (is_streaming t); [done|]. destruct confirmed; [|done].
    cbn. intros Hd. apply IH. by apply existsb_delete in Hd.
  - destruct (start_stream_nginx env i t app H) as [-> Hok].
    destruct (start_stream_tabs env i t app H) as [(_ & f & Hq & _ & ->)|(Hst & _)].
    + intros Hd. apply ensure_server, IH. by apply existsb_quiet in Hd.
    + intros _. apply alive_server, ensure_alive. apply Hok. by rewrite Hst.
  - unfold Supervisor.stop_stream, Supervisor.check_and_stop_nginx.
    cbn [nginx_process stream_tabs Supervisor.on_tab Supervisor.set_tabs].
    destruct (nginx_process app) as [p|] eqn:Hp.
    + destruct (existsb is_streaming (alter _ i (stream_tabs app))) eqn:E; cbn [negb].
      * cbn. by rewrite Hp.
      * destruct (nginx_graceful_stop env _); cbn; by rewrite E.
    + cbn. intros Hd. apply existsb_quiet in Hd; [|apply quiet_stop_tab].
      specialize (IH Hd). congruence.
  - cbn. intros Hd. apply IH. by apply existsb_quiet in Hd; [|apply quiet_deliver].
  - cbn. intros Hd. apply IH. by apply existsb_quiet in Hd; [|apply quiet_worker_act].
  - cbn. intros Hd. apply IH. by apply existsb_alter in Hd.
  - cbn. intros Hd. apply IH. by apply existsb_alter in Hd.
  - cbn. intros Hd. apply IH. by apply existsb_alter in Hd.
  - cbn. intros Hd. apply IH. by apply existsb_alter in Hd.
  - cbn. intros Hd. apply IH. apply existsb_alter in Hd; [done|].
    intros t0. by destruct (populate_keeps env (path_ffmpeg app) t0) as [_ ->].
  - done.
Qed.

End Serving.

(** X13.  In every state the program can reach, the handle of the media
    server is held as long as some channel streams: only [stop_stream] drops
    it, and only when no channel is left streaming. *)
Theorem streaming_holds_server (app : App) (i : nat) (t : StreamTab) :
  reachable app ->
  stream_tabs app !! i = Some t -> is_streaming t = true ->
  nginx_process app <> None.
Proof.
  intros (f & n & h & Hrun) Hi Hs.
  assert (Hinv : existsb is_streaming (stream_tabs app) = true -> nginx_process app <> None).
  { refine (rtc_ind_r (fun a => existsb is_streaming (stream_tabs a) = true ->
                                nginx_process a <> None) _ _ _ app Hrun).
    - discriminate.
    - intros y z _ Hstep IH. by apply (step_serves y z). }
  apply Hinv, existsb_lookup. eauto.
Qed.

Lemma streaming_holds_server_witness : nginx_process camera_running <> None.
Proof.
  refine (streaming_holds_server camera_running 0 _ camera_running_reachable _ _).
  - vm_compute. reflexivity.
  - vm_compute. reflexivity.
Defined.

(** ** Starting, stopping and removing a channel *)

Section Effects.


Lemma config_deliver s t : Tab.get_config (Tab.deliver s t) = Tab.get_config t.
Proof.
  destruct s as [m|code]; [done|]. cbn. unfold Tab.on_ffmpeg_finished.
  by destruct (is_streaming _).
Qed.

Lemma config_deliver_all l t : Tab.get_config (Tab.deliver_all l t) = Tab.get_config t.
Proof.
  unfold Tab.deliver_all. revert t. induction l as [|s l IH]; intros t; [done|].
  cbn [fold_left]. by rewrite IH, config_deliver.
Qed.

Lemma config_stop_tab react t :
  Tab.get_config (Supervisor.stop_tab react t) = Tab.get_config t.
Proof.
  unfold Supervisor.stop_tab.
  change (Tab.get_config (Tab.set_streaming false ?x)) with (Tab.get_config x).
  destruct (ffmpeg_worker (Tab.log "Stopping stream..." t)) as [w|]; [|done].
  destruct (FFmpegWorker.stop react w) as [w' sigs]. by rewrite config_deliver_all.
Qed.


Lemma filter_delete_idle i (tabs : list StreamTab) t :
  tabs !! i = Some t -> is_streaming t = false ->
  filter (fun t => is_streaming t = true) (delete i tabs)
  = filter (fun t => is_streaming t = true) tabs.
Proof.
  revert i. induction tabs as [|x l IH]; intros [|i] Hi Hs; try discriminate.
  - cbn in Hi. injection Hi as ->. change (delete 0%nat (t :: l)) with l.
    rewrite filter_cons. destruct (decide (is_streaming t = true)); [congruence|done].
  - cbn in Hi. change (delete (S i) (x :: l)) with (x :: delete i l). rewrite !filter_cons.
    rewrite (IH i Hi Hs). done.
Qed.

End Effects.

(** X14.  Stopping a channel leaves it idle with its settings as they
    were, leaves the other channels alone, and gives up the media server
    exactly when no channel is left streaming. *)
Theorem stop_stream_effect (env : Env) (react : FFmpegWorker.StopReaction) (i : nat) (app : App) :
  let app' := Supervisor.stop_stream env react i app in
  (forall j, j <> i ->
     unlogged <$> stream_tabs app' !! j = unlogged <$> stream_tabs app !! j)
  /\ (forall t, stream_tabs app !! i = Some t ->
        exists t', stream_tabs app' !! i = Some t' /\ is_streaming t' = false /\
                   Tab.get_config t' = Tab.get_config t)
  /\ nginx_process app'
     = (if existsb is_streaming (stream_tabs app') then nginx_process app else None)
  /\ length (stream_tabs app') = length (stream_tabs app).
Proof.
  intros app'. subst app'. unfold Supervisor.stop_stream. rewrite check_keeps.
  cbn [stream_tabs Supervisor.on_tab Supervisor.set_tabs]. repeat split.
  - intros j Hj. by rewrite list_lookup_alter_ne.
  - intros t Hi. exists (Supervisor.stop_tab react t). rewrite list_lookup_alter_eq, Hi.
    split; [done|]. split; [done|]. apply config_stop_tab.
  - unfold Supervisor.check_and_stop_nginx.
    cbn [nginx_process stream_tabs Supervisor.on_tab Supervisor.set_tabs].
    destruct (nginx_process app) as [p|] eqn:Hp.
    + destruct (existsb _ _); cbn [negb]; [by cbn|].
      by destruct (nginx_graceful_stop env _).
    + cbn. rewrite Hp. by destruct (existsb _ _).
  - by rewrite length_alter.
Qed.

(** X15.  Removing the channel shown never takes a streaming channel
    away, never touches the media server, and does nothing at all unless the
    question is answered with yes. *)
Theorem remove_spares_streams (index : option nat) (confirmed : bool) (app : App) :
  let app' := Supervisor.remove_current_tab index confirmed app in
  filter (fun t => is_streaming t = true) (stream_tabs app')
  = filter (fun t => is_streaming t = true) (stream_tabs app)
  /\ nginx_process app' = nginx_process app
  /\ (length (stream_tabs app) <= S (length (stream_tabs app')))%nat
  /\ (confirmed = false -> app' = app).
Proof.
  intros app'. subst app'. unfold Supervisor.remove_current_tab.
  destruct index as [i|]; [|by repeat split; try lia].
  destruct (stream_tabs app !! i) as [t|] eqn:Hi; [|by repeat split; try lia].
  destruct (is_streaming t) eqn:Hs; [by repeat split; try lia|].
  destruct confirmed; [|by repeat split; try lia].
  cbn [stream_tabs nginx_process Supervisor.set_tabs]. repeat split.
  - by apply (filter_delete_idle i _ t).
  - apply lookup_lt_Some in Hi. rewrite length_delete; [lia|]. by apply lookup_lt_is_Some_2.
  - discriminate.
Qed.



(** ** The window: the button, the start with the program, closing *)

Section Window.

Lemma start_each_keeps env positions app :
  exclusive (stream_tabs app) /\ named (stream_tabs app) ->
  exclusive (stream_tabs (fst (MainWindow.start_each env positions app)))
  /\ named (stream_tabs (fst (MainWindow.start_each env positions app)))
  /\ forall j t, stream_tabs app !! j = Some t ->
       cb_auto_start t && negb (is_streaming t) = false ->
       stream_tabs (fst (MainWindow.start_each env positions app)) !! j = Some t.
Proof.
  revert app. induction positions as [|i rest IH]; intros app Hinv; cbn [MainWindow.start_each].
  - destruct Hinv. by repeat split.
  - destruct (stream_tabs app !! i) as [tab|] eqn:Hi; [|by apply IH].
    destruct (cb_auto_start tab && negb (is_streaming tab)) eqn:He; [|by apply IH].
    apply andb_true_iff in He as [Hc Hs]. apply negb_true_iff in Hs.
    assert (Hinv' := start_keeps env i tab app Hi Hinv).
    assert (Hother : forall j t, stream_tabs app !! j = Some t ->
                       cb_auto_start t && negb (is_streaming t) = false ->
                       stream_tabs (fst (Supervisor.start_stream env i app)) !! j = Some t).
    { intros j t Hj Hn. assert (j <> i).
      { intros ->. rewrite Hi in Hj. injection Hj as <-. by rewrite Hc, Hs in Hn. }
      destruct (start_stream_tabs env i tab app Hi) as [(_ & f & _ & _ & ->)|(_ & _ & f & _ & ->)];
        by rewrite list_lookup_alter_ne. }
    destruct (Supervisor.start_stream env i app) as [app' o]. cbn [fst] in *.
    destruct (IH app' Hinv') as (Hx & Hn & Hk).
    destruct o; cbn [fst]; try (split; [exact Hx|split; [exact Hn|]]; intros j t Hj Hne; auto).
    destruct Hinv' as [Hx' Hn']. split; [done|]. split; [done|]. auto.
Qed.





End Window.



(** X18.  Starting the checked channels with the program never puts two
    channels on one camera, whatever is selected in them, and leaves as they
    are, the logs apart, the channels that are not checked and those that
    stream already. *)
Theorem start_all_streams_effect (env : Env) (app : App) :
  exclusive (stream_tabs app) -> named (stream_tabs app) ->
  exclusive (stream_tabs (fst (MainWindow.start_all_streams env app)))
  /\ forall j t, stream_tabs app !! j = Some t ->
       cb_auto_start t = false \/ is_streaming t = true ->
       unlogged <$> stream_tabs (fst (MainWindow.start_all_streams env app)) !! j
       = Some (unlogged t).
Proof.
  intros Hx Hn. unfold MainWindow.start_all_streams.
  destruct (start_each_keeps env (seq 0 (length (stream_tabs app)))
              (Supervisor.log "Checking for auto-start streams..." app))
    as (Hx' & _ & Hk); [done|].
  split; [exact Hx'|]. intros j t Hj Hor. rewrite (Hk j t); [done|exact Hj|].
  destruct Hor as [->| ->]; [done|]. by rewrite andb_false_r.
Qed.

Lemma start_all_streams_effect_witness :
  exclusive (stream_tabs (fst (MainWindow.start_all_streams camera_env both_checked))).
Proof.
  apply (start_all_streams_effect camera_env both_checked).
  - intros a b ta tb _ Ha Hb Hsa.
    destruct a as [|[|a]]; cbn in Ha; [injection Ha as <-; discriminate Hsa
                                      |injection Ha as <-; discriminate Hsa|discriminate].
  - constructor; [discriminate|]. constructor; [discriminate|]. constructor.
Defined.


(** ** The configuration file and the channel directory *)

Section Paths.

Lemma string_app_assoc (a b c : string) : (a +:+ b) +:+ c = a +:+ (b +:+ c).
Proof.
  induction a as [|x a IH]; [reflexivity|].
  change (String x a +:+ b) with (String x (a +:+ b)).
  change (String x (a +:+ b) +:+ c) with (String x ((a +:+ b) +:+ c)).
  change (String x a +:+ (b +:+ c)) with (String x (a +:+ (b +:+ c))).
  by rewrite IH.
Qed.

Lemma string_app_inv_head (p s1 s2 : string) : p +:+ s1 = p +:+ s2 -> s1 = s2.
Proof.
  induction p as [|x p IH]; [done|]. intros E.
  change (String x p +:+ s1) with (String x (p +:+ s1)) in E.
  change (String x p +:+ s2) with (String x (p +:+ s2)) in E.
  injection E as E. by apply IH.
Qed.

Lemma endswith_refl suffix : endswith suffix suffix = true.
Proof. destruct suffix; cbn; [done|]. by rewrite Ascii.eqb_refl, String.eqb_refl. Qed.

Lemma endswith_spec suffix s :
  endswith suffix s = true <-> exists q, s = q +:+ suffix.
Proof.
  split.
  - induction s as [|c s IH]; cbn [endswith]; intros H.
    + rewrite orb_false_r in H. apply String.eqb_eq in H. by exists "".
    + apply orb_true_iff in H as [H|H].
      * apply String.eqb_eq in H. by exists "".
      * destruct (IH H) as [q ->]. by exists (String c q).
  - intros [q ->]. induction q as [|c q IH].
    + apply endswith_refl.
    + change (String c q +:+ suffix) with (String c (q +:+ suffix)).
      cbn [endswith]. rewrite IH. apply orb_true_r.
Qed.

Lemma rstrip_chars_kept chars s c :
  char_in c chars = false ->
  rstrip_chars chars (s +:+ String c "") = s +:+ String c "".
Proof.
  intros Hc. induction s as [|a s IH].
  - change ("" +:+ String c "") with (String c ""). cbn. by rewrite Hc.
  - change (String a s +:+ String c "") with (String a (s +:+ String c "")).
    cbn [rstrip_chars]. rewrite IH. by destruct s.
Qed.

Lemma rstrip_chars_dropped chars s d :
  char_in d chars = true ->
  rstrip_chars chars (s +:+ String d "") = rstrip_chars chars s.
Proof.
  intros Hd. induction s as [|a s IH].
  - change ("" +:+ String d "") with (String d ""). cbn. by rewrite Hd.
  - change (String a s +:+ String d "") with (String a (s +:+ String d "")).
    cbn [rstrip_chars]. by rewrite IH.
Qed.

Lemma rstrip_channel1 root :
  rstrip_chars (sep +:+ "/") (root +:+ "channel1") = root +:+ "channel1".
Proof.
  change "channel1"%string with ("channel" +:+ String "1" "").
  rewrite <- string_app_assoc. by apply rstrip_chars_kept.
Qed.

Lemma load_streams_keeps env streams app :
  path_ffmpeg (Supervisor.load_streams env streams app) = path_ffmpeg app
  /\ path_nginx (Supervisor.load_streams env streams app) = path_nginx app
  /\ path_hls (Supervisor.load_streams env streams app) = path_hls app
  /\ nginx_process (Supervisor.load_streams env streams app) = nginx_process app
  /\ length (stream_tabs (Supervisor.load_streams env streams app))
     = (length (stream_tabs app) + Nat.max 1 (length streams))%nat.
Proof.
  unfold Supervisor.load_streams. destruct streams as [|c l].
  - cbn. rewrite length_app. cbn. done.
  - change (Nat.max 1 (length (c :: l))) with (length (c :: l)).
    generalize (c :: l). clear c l. intros l. revert app.
    induction l as [|c l IH]; intros app; cbn [fold_left].
    + cbn. repeat split. lia.
    + destruct (IH (Supervisor.add_new_tab env (cfg_channel_name c) (Some c) app))
        as (-> & -> & -> & -> & ->).
      cbn. rewrite length_app. cbn. repeat split. lia.
Qed.

Lemma load_config_paths env dirname read app :
  let config := match read with Loaded c => c | _ => MainWindow.defaults end in
  let hls := default MainWindow.default_hls_path (file_hls_path config) in
  match read with ReadError _ => False | _ => True end ->
  path_ffmpeg (fst (MainWindow.load_config env dirname read app))
  = default MainWindow.default_ffmpeg_path (file_ffmpeg_path config)
  /\ path_nginx (fst (MainWindow.load_config env dirname read app))
     = default MainWindow.default_nginx_path (file_nginx_path config)
  /\ path_hls (fst (MainWindow.load_config env dirname read app))
     = (if MainWindow.is_legacy_path hls
        then dirname (rstrip_chars (sep +:+ "/") hls) else hls).
Proof.
  intros config hls Hread. subst config hls. unfold MainWindow.load_config.
  destruct read as [|c|e']; [| |done];
    destruct (MainWindow.is_legacy_path _);
    cbn [fst path_ffmpeg path_nginx path_hls Supervisor.log MainWindow.set_paths];
    match goal with
    | |- context [Supervisor.load_streams ?a ?l ?b] =>
        destruct (load_streams_keeps a l b) as (-> & -> & -> & _)
    end; done.
Qed.

End Paths.

(** X20.  A stored HLS path that ends with "channel1", with or without a
    final separator, is never kept: the path put in the box is the directory
    name of the part up to and including "channel1".  The test looks at the
    end of the text only, so a root folder whose own name ends with
    "channel1" is replaced by its parent as well. *)
Theorem legacy_hls_path_fix
  (env : Env) (dirname : string -> string) (c : ConfigFile) (app : App) :
  MainWindow.is_legacy_path (default MainWindow.default_hls_path (file_hls_path c)) = true ->
  exists root,
    (default MainWindow.default_hls_path (file_hls_path c) = root +:+ "channel1"
     \/ default MainWindow.default_hls_path (file_hls_path c) = root +:+ "channel1" +:+ sep
     \/ default MainWindow.default_hls_path (file_hls_path c) = root +:+ "channel1/")
    /\ path_hls (fst (MainWindow.load_config env dirname (Loaded c) app))
       = dirname (root +:+ "channel1").
Proof.
  intros Hl.
  set (hls := default MainWindow.default_hls_path (file_hls_path c)) in *.
  assert (E : exists root,
             (hls = root +:+ "channel1" \/ hls = root +:+ "channel1" +:+ sep
              \/ hls = root +:+ "channel1/")
             /\ rstrip_chars (sep +:+ "/") hls = root +:+ "channel1").
  { unfold MainWindow.is_legacy_path in Hl.
    apply orb_true_iff in Hl as [Hl|Hl]; [apply orb_true_iff in Hl as [Hl|Hl]|];
      apply endswith_spec in Hl as [root Hr]; exists root.
    - split; [by left|]. rewrite Hr. apply rstrip_channel1.
    - split; [by right; left|]. rewrite Hr.
      unfold sep at 2. rewrite <- string_app_assoc.
      rewrite rstrip_chars_dropped by reflexivity. apply rstrip_channel1.
    - split; [by right; right|]. rewrite Hr.
      change "channel1/"%string with ("channel1" +:+ String "/" "").
      rewrite <- string_app_assoc.
      rewrite rstrip_chars_dropped by reflexivity. apply rstrip_channel1. }
  destruct E as (root & Hcases & Hr). exists root. split; [exact Hcases|].
  destruct (load_config_paths env dirname (Loaded c) app I) as (_ & _ & Hh).
  rewrite Hh. fold hls. by rewrite Hl, Hr.
Qed.

Lemma legacy_hls_path_fix_witness :
  exists root,
    (default MainWindow.default_hls_path (file_hls_path legacy_file) = root +:+ "channel1"
     \/ default MainWindow.default_hls_path (file_hls_path legacy_file)
        = root +:+ "channel1" +:+ sep
     \/ default MainWindow.default_hls_path (file_hls_path legacy_file) = root +:+ "channel1/")
    /\ path_hls (fst (MainWindow.load_config sample_env (before_last "092") (Loaded legacy_file)
                        fresh_app))
       = before_last "092" (root +:+ "channel1").
Proof. apply (legacy_hls_path_fix sample_env (before_last "092") legacy_file fresh_app). reflexivity. Defined.

(** X21.  What [save_config] writes, read back by [load_config] into a new
    window, gives the three paths again, provided the HLS path does not end
    with "channel1"; the channels are those restored from the list written,
    and the timer for the channels to start with the program is set. *)
Theorem save_then_load
  (env : Env) (dirname : string -> string) (f n h : string) (app : App) :
  MainWindow.is_legacy_path (path_hls app) = false ->
  let r := MainWindow.load_config env dirname (Loaded (MainWindow.config_of app))
             (Supervisor.init f n h) in
  path_ffmpeg (fst r) = path_ffmpeg app
  /\ path_nginx (fst r) = path_nginx app
  /\ path_hls (fst r) = path_hls app
  /\ stream_tabs (fst r)
     = stream_tabs (restore env (path_ffmpeg app) (path_nginx app) (path_hls app)
                      (Supervisor.snapshot app))
  /\ snd r = true.
Proof.
  intros Hl r. subst r.
  destruct (load_config_paths env dirname (Loaded (MainWindow.config_of app))
              (Supervisor.init f n h) I) as (Hf & Hn & Hh).
  change (default MainWindow.default_hls_path (file_hls_path (MainWindow.config_of app)))
    with (path_hls app) in Hh.
  change (default MainWindow.default_ffmpeg_path (file_ffmpeg_path (MainWindow.config_of app)))
    with (path_ffmpeg app) in Hf.
  change (default MainWindow.default_nginx_path (file_nginx_path (MainWindow.config_of app)))
    with (path_nginx app) in Hn.
  rewrite Hl in Hh. split; [exact Hf|]. split; [exact Hn|]. split; [exact Hh|].
  unfold MainWindow.load_config.
  change (default MainWindow.default_hls_path (file_hls_path (MainWindow.config_of app)))
    with (path_hls app).
  rewrite Hl. split; reflexivity.
Qed.

Lemma save_then_load_witness :
  path_hls (fst (MainWindow.load_config camera_env (before_last "092")
                   (Loaded (MainWindow.config_of camera_running))
                   (Supervisor.init "" "" "")))
  = "C:/hls".
Proof.
  refine (proj1 (proj2 (proj2 (save_then_load camera_env (before_last "092") "" "" ""
                                 camera_running _)))).
  reflexivity.
Defined.

(** X22.  Without a configuration file a new window takes the three
    default paths, gets the one channel "Channel 1" and sets the timer.
    When the file cannot be read the paths are left as they are, the window
    still gets the channel "Channel 1", and the timer is not set. *)
Theorem load_config_fallbacks
  (env : Env) (dirname : string -> string) (e f n h : string) :
  (path_ffmpeg (fst (MainWindow.load_config env dirname NoFile (Supervisor.init f n h)))
   = MainWindow.default_ffmpeg_path
   /\ path_nginx (fst (MainWindow.load_config env dirname NoFile (Supervisor.init f n h)))
      = MainWindow.default_nginx_path
   /\ path_hls (fst (MainWindow.load_config env dirname NoFile (Supervisor.init f n h)))
      = MainWindow.default_hls_path
   /\ map channel_name
        (stream_tabs (fst (MainWindow.load_config env dirname NoFile (Supervisor.init f n h))))
      = ["Channel 1"]
   /\ snd (MainWindow.load_config env dirname NoFile (Supervisor.init f n h)) = true)
  /\ (path_ffmpeg (fst (MainWindow.load_config env dirname (ReadError e) (Supervisor.init f n h)))
      = f
      /\ path_nginx (fst (MainWindow.load_config env dirname (ReadError e) (Supervisor.init f n h)))
         = n
      /\ path_hls (fst (MainWindow.load_config env dirname (ReadError e) (Supervisor.init f n h)))
         = h
      /\ map channel_name
           (stream_tabs
              (fst (MainWindow.load_config env dirname (ReadError e) (Supervisor.init f n h))))
         = ["Channel 1"]
      /\ snd (MainWindow.load_config env dirname (ReadError e) (Supervisor.init f n h)) = false).
Proof.
  split.
  - destruct (load_config_paths env dirname NoFile (Supervisor.init f n h) I) as (Hf & Hn & Hh).
    split; [exact Hf|]. split; [exact Hn|]. split; [exact Hh|].
    unfold MainWindow.load_config.
    change (MainWindow.is_legacy_path
              (default MainWindow.default_hls_path (file_hls_path MainWindow.defaults)))
      with false.
    cbn. split; [|done]. by destruct (init_keeps env MainWindow.default_ffmpeg_path "Channel 1") as [-> _].
  - unfold MainWindow.load_config. cbn.
    by destruct (init_keeps env f "Channel 1") as [-> _].
Qed.

(** X23.  However the configuration is read, the window has at least one
    channel afterwards; read into a new window, a file that lists channels
    gives as many channels as it lists. *)
Theorem load_config_leaves_a_channel
  (env : Env) (dirname : string -> string) (read : ReadResult) (app : App) :
  stream_tabs (fst (MainWindow.load_config env dirname read app)) <> []
  /\ forall c f n h,
       length (stream_tabs (fst (MainWindow.load_config env dirname (Loaded c)
                                   (Supervisor.init f n h))))
       = Nat.max 1 (length (default [] (file_streams c))).
Proof.
  split.
  - assert (Hlen : forall a l,
               (0 < length (stream_tabs (Supervisor.load_streams env l a)))%nat).
    { intros a l. destruct (load_streams_keeps env l a) as (_ & _ & _ & _ & ->). lia. }
    unfold MainWindow.load_config. destruct read as [|c|e].
    + destruct (MainWindow.is_legacy_path _); cbn [fst stream_tabs Supervisor.log];
        match goal with
        | |- stream_tabs (Supervisor.load_streams ?a ?l ?b) <> [] =>
            specialize (Hlen b l); destruct (stream_tabs (Supervisor.load_streams a l b));
            [cbn in Hlen; lia|done]
        end.
    + destruct (MainWindow.is_legacy_path _); cbn [fst stream_tabs Supervisor.log];
        match goal with
        | |- stream_tabs (Supervisor.load_streams ?a ?l ?b) <> [] =>
            specialize (Hlen b l); destruct (stream_tabs (Supervisor.load_streams a l b));
            [cbn in Hlen; lia|done]
        end.
    + cbn [fst stream_tabs Supervisor.log]. destruct (stream_tabs app) as [|t l] eqn:E.
      * cbn. by destruct (stream_tabs app).
      * cbn. by rewrite E.
  - intros c f n h. unfold MainWindow.load_config.
    destruct (MainWindow.is_legacy_path _); cbn [fst stream_tabs Supervisor.log];
      match goal with
      | |- context [Supervisor.load_streams ?a ?l ?b] =>
          destruct (load_streams_keeps a l b) as (_ & _ & _ & _ & ->)
      end; reflexivity.
Qed.

(** X24.  The clean-up of a stopped channel never removes a file that is
    neither a segment nor a playlist, removes nothing but listed files, and
    when no removal fails leaves exactly the other files. *)
Theorem cleanup_spares_other_files (can_remove : string -> bool) (files : list string) :
  filter (fun f => is_stream_file f = false) (remove_stream_files can_remove files)
  = filter (fun f => is_stream_file f = false) files
  /\ sublist (remove_stream_files can_remove files) files
  /\ ((forall f, f ∈ files -> can_remove f = true) ->
      remove_stream_files can_remove files
      = filter (fun f => is_stream_file f = false) files).
Proof.
  induction files as [|f rest (IH1 & IH2 & IH3)]; [by repeat split|].
  cbn [remove_stream_files]. rewrite !filter_cons.
  destruct (is_stream_file f) eqn:Hf.
  - destruct (decide (true = false)) as [?|_]; [done|].
    destruct (can_remove f) eqn:Hc.
    + split; [done|]. split; [by apply sublist_cons|].
      intros Hall. apply IH3. intros g Hg. apply Hall. by right.
    + split; [by rewrite filter_cons, Hf; destruct (decide (true = false))|].
      split; [done|]. intros Hall. rewrite Hall in Hc by left. done.
  - destruct (decide (false = false)) as [_|?]; [|done].
    rewrite filter_cons, Hf. destruct (decide (false = false)) as [_|?]; [|done].
    split; [by rewrite IH1|]. split; [by apply sublist_skip|].
    intros Hall. rewrite IH3; [done|]. intros g Hg. apply Hall. by right.
Qed.

(** X25.  Two channels are given the same playback address exactly when
    their names have the same slug, that is when the names differ at most by
    spaces and by the case of their letters. *)
Theorem playback_url_same_iff_slug (ip : string) (t t' : StreamTab) :
  playback_url ip t = playback_url ip t'
  <-> slug (channel_name t) = slug (channel_name t').
Proof.
  unfold playback_url, Tab.safe_name, slug. split.
  - intros E. do 3 apply string_app_inv_head in E. by apply string_app_inv_tail in E.
  - by intros ->.
Qed.

(** ** Failures of the encoder *)

(** X26.  With the encoder executable in place, building the command
    fails exactly when the frame rate is not empty and not a whole number,
    or the video bit rate without its letters k is not a whole number; the
    failure is a [ValueError], and [start_stream] lets it through. *)
Theorem build_command_value_error
  (env : Env) (ffmpeg_exe output_dir : string) (t : StreamTab) :
  path_exists env ffmpeg_exe = true ->
  (Tab.build_ffmpeg_command env ffmpeg_exe output_dir t = Raise ValueError
   <-> (input_framerate t <> "" /\ Py.int (input_framerate t) = None)
       \/ Py.int (Py.remove_char "k" (input_video_bitrate t)) = None)
  /\ (forall e, Tab.build_ffmpeg_command env ffmpeg_exe output_dir t = Raise e ->
                e = ValueError)
  /\ (forall command, Tab.build_ffmpeg_command env ffmpeg_exe output_dir t = Ok command ->
                      head command = Some ffmpeg_exe).
Proof.
  intros Hexe. unfold Tab.build_ffmpeg_command. rewrite Hexe. cbn [negb].
  destruct (input_framerate t) as [|c fr] eqn:Hfr.
  - cbn [Py.truthy]. destruct (Py.int (Py.remove_char "k" (input_video_bitrate t))) as [kbps|].
    + split; [|split].
      * split; [discriminate|]. intros [[H _]|H]; [done|discriminate].
      * discriminate.
      * intros command [= <-]. change (Py.strip "") with "". cbn [Py.truthy].
        by destruct (Py.truthy (Py.strip (input_video_size t))).
    + split; [|split]; [split; [by right|done]|by intros e [= <-]|discriminate].
  - change (Py.truthy (String c fr)) with true. cbn match.
    destruct (Py.int (String c fr)) as [fps|].
    + destruct (Py.int (Py.remove_char "k" (input_video_bitrate t))) as [kbps|].
      * split; [|split].
        -- split; [discriminate|]. intros [[_ H]|H]; discriminate.
        -- discriminate.
        -- intros command [= <-].
           destruct (Py.truthy (Py.strip (String c fr))),
                    (Py.truthy (Py.strip (input_video_size t))); reflexivity.
      * split; [|split]; [split; [by right|done]|by intros e [= <-]|discriminate].
    + split; [|split]; [split; [by left|done]|by intros e [= <-]|discriminate].
Qed.

Lemma build_command_value_error_witness :
  Tab.build_ffmpeg_command camera_env "C:/ffmpeg/bin/ffmpeg.exe" "C:/hls/channel1"
    fractional_rate_tab
  = Raise ValueError.
Proof.
  apply (build_command_value_error camera_env "C:/ffmpeg/bin/ffmpeg.exe" "C:/hls/channel1"
           fractional_rate_tab eq_refl).
  left. split; [discriminate|reflexivity].
Defined.

(** X27.  When the encoder of a channel that was just started cannot be
    launched, the two signals of the worker leave the channel idle, with
    the message of the failure and the code -1 in its log, its settings as
    they were.  The media server started for it is not given up. *)
Theorem failed_launch_ends_channel
  (i : nat) (t : StreamTab) (command : list string) (l : FFmpegWorker.LaunchResult)
  (app : App) :
  stream_tabs app !! i = Some t ->
  ffmpeg_worker t = Some (FFmpegWorker.init command) ->
  l <> FFmpegWorker.Launched ->
  let app' := Supervisor.on_tab i (Tab.worker_act (FFmpegWorker.DoBegin l)) app in
  nginx_process app' = nginx_process app
  /\ exists t' message,
       stream_tabs app' !! i = Some t'
       /\ is_streaming t' = false
       /\ Tab.get_config t' = Tab.get_config t
       /\ log_view t' = log_view t ++ [message; "FFmpeg finished with code -1"]
       /\ (FFmpegWorker.running <$> ffmpeg_worker t') = Some false.
Proof.
  intros Hi Hw Hl app'. subst app'. split; [done|].
  cbn [stream_tabs Supervisor.on_tab Supervisor.set_tabs].
  rewrite list_lookup_alter_eq, Hi. cbn [fmap option_fmap option_map].
  unfold Tab.worker_act. rewrite Hw.
  destruct l as [| |e]; [done| |].
  - eexists _, "Error: ffmpeg.exe not found. Please check the path.".
    split; [reflexivity|].
    cbn. unfold Tab.on_ffmpeg_finished. cbn.
    destruct (is_streaming t) eqn:Hs; cbn; rewrite ?Hs, <- app_assoc; by repeat split.
  - eexists _, ("An unexpected error occurred: " +:+ e).
    split; [reflexivity|].
    cbn. unfold Tab.on_ffmpeg_finished. cbn.
    destruct (is_streaming t) eqn:Hs; cbn; rewrite ?Hs, <- app_assoc; by repeat split.
Qed.

Lemma failed_launch_ends_channel_witness :
  nginx_process
    (Supervisor.on_tab 0 (Tab.worker_act (FFmpegWorker.DoBegin FFmpegWorker.LaunchFileNotFound))
       camera_running)
  = nginx_process camera_running.
Proof.
  refine (proj1 (failed_launch_ends_channel 0 _ _ FFmpegWorker.LaunchFileNotFound
                   camera_running _ _ _)).
  - vm_compute. reflexivity.
  - vm_compute. reflexivity.
  - discriminate.
Defined.

